(** * Bolt v5 connection state machine (neo4j/internal/bolt/bolt5.go)

    A shallow embedding of the [bolt5] connection object: its state, the
    sticky error, the stream registry, the outbound request queue with its
    response handlers, the inbound pump, and the operations built on them.
    Go methods on [*bolt5] become functions [bolt5 -> bolt5] (or functions
    returning a result paired with the new connection); pointers to streams
    become addresses into a heap carried by the connection; loops that the Go
    code does not bound take a fuel argument and return [None] when it runs
    out. *)

From stdpp Require Import base option list gmap strings.
From Stdlib Require Import ZArith Lia.

Local Open Scope Z_scope.
Local Open Scope string_scope.

(** ** Data model *)

(** The [iota] constants of bolt5.go, in declaration order. *)
Inductive State :=
| bolt5Ready
| bolt5Streaming
| bolt5Tx
| bolt5StreamingTx
| bolt5Failed
| bolt5Dead
| bolt5Unauthorized.

#[global] Instance State_eq_dec : EqDecision State.
Proof. solve_decision. Defined.

Definition state_code (s : State) : Z :=
  match s with
  | bolt5Ready => 0
  | bolt5Streaming => 1
  | bolt5Tx => 2
  | bolt5StreamingTx => 3
  | bolt5Failed => 4
  | bolt5Dead => 5
  | bolt5Unauthorized => 6
  end.

(** Default fetch size *)
Definition bolt5FetchSize : Z := 1000.

(** Values that travel in parameter and metadata maps ([any] in Go): scalars,
    and the two containers bolt5.go itself stores in a map. *)
Inductive Scalar :=
| SNil
| SBool (b : bool)
| SInt (n : Z)
| SStr (s : string).

Inductive Value :=
| VScalar (a : Scalar)
| VStrs (l : list string)
| VStrMap (m : gmap string string)
| VMap (m : gmap string Scalar).

Definition VStr (s : string) : Value := VScalar (SStr s).
Definition VInt (n : Z) : Value := VScalar (SInt n).

(** Modelled from the spec: [db.Neo4jError] (spec 6.3), a server failure
    whose code has the form Neo.<Classification>.<Category>.<Title>. *)
Record Neo4jError := {
  Code : string;
  Msg : string;
  Classification : string
}.

Inductive AccessMode := WriteMode | ReadMode.

#[global] Instance AccessMode_eq_dec : EqDecision AccessMode.
Proof. solve_decision. Defined.

(** [idb.DefaultDatabase] *)
Definition DefaultDatabase : string := "".

(** Modelled from the spec: [db.Record], the values of one row and the keys
    the pull handler attaches to them (spec 4.3, Pull record). *)
Record dbRecord := {
  rec_Values : list Value;
  rec_Keys : list string
}.

(** Modelled from the spec: [db.Summary] (spec 4.5), with the bookmark of the
    success metadata and the fields bolt5 enriches it with. *)
Record Summary := {
  sum_Bookmark : string;
  sum_Agent : string;
  sum_Major : Z;
  sum_Minor : Z;
  sum_ServerName : string;
  sum_TFirst : Z
}.

(** Modelled from the spec: [idb.RoutingTable], which the route handler
    stores into the caller's slot (spec 4.3, Route success). *)
Record RoutingTable := {
  TimeToLive : Z;
  Routers : list string;
  Readers : list string;
  Writers : list string
}.

(** Modelled from the spec: the hydrator's [success] message (spec 4.3), with
    the fields bolt5.go reads. *)
Record success := {
  m_fields : list string;
  m_tfirst : Z;
  m_qid : Z;
  m_bookmark : string;
  m_connectionId : string;
  m_server : string;
  m_hasMore : bool;
  m_configurationHints : gmap string Value;
  m_routingTable : option RoutingTable
}.

(** Modelled from the spec: a decoded inbound message (spec 4.2: a record, a
    success, a failure or an ignored notice; anything else is unknown). *)
Inductive Response :=
| RspRecord (r : dbRecord)
| RspSuccess (s : success)
| RspFailure (e : Neo4jError)
| RspIgnored
| RspUnknown (tag : Z).

(** Go [error] values that the connection creates or receives. *)
Inductive error :=
| ErrNeo4j (e : Neo4jError)
| ErrInvalidTransaction
| ErrInvalidState (st : State) (allowed : list State)
| ErrInvalidStream
| ErrStreamInterrupted (doing : string)
| ErrUnknownResponse (msg : Response)
| ErrExpectedSuccess (msg : Response)
| ErrNoHandler (msg : Response)
| ErrMoreResults
| ErrFeatureNotSupported (feature : string)
| ErrIO (what : string)
| ErrContextCanceled
| ErrDeadlineExceeded
| ErrConnectionReadCanceled (cause : error).

(** Modelled from the spec: what one read on the connection yields, a
    decoded message or a read or decode error (spec 4.2). *)
Inductive InEvent :=
| Received (m : Response)
| ReadError (e : error).

(** Modelled from the spec: the requests of the wire protocol (spec 6.1),
    one per append function of the queue. A [nil] meta is [None]. *)
Inductive Request :=
| MsgHello (hello : gmap string Value)
| MsgLogon (auth : gmap string Value)
| MsgGoodbye
| MsgReset
| MsgRoute (routingContext : option (gmap string string)) (bookmarks : list string)
    (extras : gmap string Value)
| MsgBegin (meta : option (gmap string Value))
| MsgCommit
| MsgRollback
| MsgRun (cypher : string) (params : gmap string Value) (meta : option (gmap string Value))
| MsgPullN (n : Z)
| MsgPullNQid (n qid : Z)
| MsgDiscardN (n : Z)
| MsgDiscardNQid (n qid : Z).

(** Whether a pull or discard request names its query. *)
Definition explicit_qid (m : Request) : option Z :=
  match m with
  | MsgPullNQid _ q | MsgDiscardNQid _ q => Some q
  | _ => None
  end.

(** Modelled from the spec: [stream], one result set (spec 3, Stream; [key]
    is what ties it to the registry). Streams are shared by pointer between
    the caller's handle, the registry and the response handlers, so they live
    in the connection's [heap] and are named by their address. *)
Record stream := {
  s_keys : list string;
  s_fifo : list dbRecord;
  s_sum : option Summary;
  s_err : option error;
  s_qid : Z;
  s_fetchSize : Z;
  s_key : Z;
  s_tfirst : Z;
  s_endOfBatch : bool;
  s_discarding : bool
}.

(** [&stream{fetchSize: n}]: every other field has Go's zero value. *)
Definition new_stream (n : Z) : stream :=
  {| s_keys := []; s_fifo := []; s_sum := None; s_err := None; s_qid := 0;
     s_fetchSize := n; s_key := 0; s_tfirst := 0; s_endOfBatch := false;
     s_discarding := false |}.

(** Modelled from the spec: [idb.StreamHandle], an opaque handle (spec 9):
    a stream pointer, nil, or something else. *)
Inductive StreamHandle :=
| HandleNil
| HandleStream (p : nat)
| HandleForeign.

(** Modelled from the spec: [openstreams], the stream registry (spec 3):
    the current stream if any, the number of open streams, and the key that
    its safe streams carry. *)
Record openstreams := {
  curr : option nat;
  num : Z;
  key : Z
}.

(** Modelled from the spec: [responseHandler] (spec 3 and 9), a record of
    callbacks closed over the connection and, for run, pull and discard, over
    one stream; kept here as a tagged variant. The constructors name the
    functions of bolt5.go that build the handlers; their callbacks are given
    by [callbacks_of] below. *)
Inductive responseHandler :=
| helloResponseHandler
| logonResponseHandler
| routeResponseHandler
| beginResponseHandler
| runResponseHandler (stream : nat)
| commitResponseHandler
| rollbackResponseHandler
| discardResponseHandler (stream : nat)
| pullResponseHandler (stream : nat)
| resetResponseHandler.

(** Modelled from the spec: [messageQueue] (spec 4.2): the requests appended
    but not yet flushed, and the FIFO of handlers awaiting a response. *)
Record messageQueue := {
  pending : list Request;
  handlers : list responseHandler;
  connReadTimeout : Z;
  q_logId : string
}.

(** [net.Conn] as the connection sees it: what the peer will deliver (a read
    beyond that meets the end of the stream), what has been written, whether
    writes fail, and whether it was closed. *)
Record netConn := {
  incoming : list InEvent;
  written : list Request;
  writeErr : option error;
  closed : bool
}.

Inductive LogEntry :=
| LogError (e : error)
| LogDebugErr (e : error)
| LogInfo (msg : string)
| LogDebug (msg : string).

Record bolt5 := {
  state : State;
  txId : Z;
  streams : openstreams;
  conn : netConn;
  serverName : string;
  queue : messageQueue;
  connId : string;
  logId : string;
  serverVersion : string;
  bookmark : string;
  birthDate : Z;
  log : list LogEntry;
  databaseName : string;
  err : option error;
  minor : Z;
  lastQid : Z;
  idleDate : Z;
  (* the streams allocated so far, by address *)
  heap : list stream;
  (* the caller's routing table variable that the route handler fills in *)
  routingSlot : option RoutingTable;
  (* the wall clock, in nanoseconds; every reading advances it *)
  now : Z
}.

(** ** Field updates

    [b.f = x] in Go is [set_f x b] here. *)

Definition set_state (x : State) (b : bolt5) : bolt5 :=
  {| state := x; txId := txId b; streams := streams b; conn := conn b;
     serverName := serverName b; queue := queue b; connId := connId b;
     logId := logId b; serverVersion := serverVersion b;
     bookmark := bookmark b; birthDate := birthDate b; log := log b;
     databaseName := databaseName b; err := err b; minor := minor b;
     lastQid := lastQid b; idleDate := idleDate b; heap := heap b;
     routingSlot := routingSlot b; now := now b |}.

Definition set_txId (x : Z) (b : bolt5) : bolt5 :=
  {| state := state b; txId := x; streams := streams b; conn := conn b;
     serverName := serverName b; queue := queue b; connId := connId b;
     logId := logId b; serverVersion := serverVersion b;
     bookmark := bookmark b; birthDate := birthDate b; log := log b;
     databaseName := databaseName b; err := err b; minor := minor b;
     lastQid := lastQid b; idleDate := idleDate b; heap := heap b;
     routingSlot := routingSlot b; now := now b |}.

Definition set_streams (x : openstreams) (b : bolt5) : bolt5 :=
  {| state := state b; txId := txId b; streams := x; conn := conn b;
     serverName := serverName b; queue := queue b; connId := connId b;
     logId := logId b; serverVersion := serverVersion b;
     bookmark := bookmark b; birthDate := birthDate b; log := log b;
     databaseName := databaseName b; err := err b; minor := minor b;
     lastQid := lastQid b; idleDate := idleDate b; heap := heap b;
     routingSlot := routingSlot b; now := now b |}.

Definition set_conn (x : netConn) (b : bolt5) : bolt5 :=
  {| state := state b; txId := txId b; streams := streams b; conn := x;
     serverName := serverName b; queue := queue b; connId := connId b;
     logId := logId b; serverVersion := serverVersion b;
     bookmark := bookmark b; birthDate := birthDate b; log := log b;
     databaseName := databaseName b; err := err b; minor := minor b;
     lastQid := lastQid b; idleDate := idleDate b; heap := heap b;
     routingSlot := routingSlot b; now := now b |}.

Definition set_queue (x : messageQueue) (b : bolt5) : bolt5 :=
  {| state := state b; txId := txId b; streams := streams b; conn := conn b;
     serverName := serverName b; queue := x; connId := connId b;
     logId := logId b; serverVersion := serverVersion b;
     bookmark := bookmark b; birthDate := birthDate b; log := log b;
     databaseName := databaseName b; err := err b; minor := minor b;
     lastQid := lastQid b; idleDate := idleDate b; heap := heap b;
     routingSlot := routingSlot b; now := now b |}.

Definition set_connId (x : string) (b : bolt5) : bolt5 :=
  {| state := state b; txId := txId b; streams := streams b; conn := conn b;
     serverName := serverName b; queue := queue b; connId := x;
     logId := logId b; serverVersion := serverVersion b;
     bookmark := bookmark b; birthDate := birthDate b; log := log b;
     databaseName := databaseName b; err := err b; minor := minor b;
     lastQid := lastQid b; idleDate := idleDate b; heap := heap b;
     routingSlot := routingSlot b; now := now b |}.

Definition set_logId (x : string) (b : bolt5) : bolt5 :=
  {| state := state b; txId := txId b; streams := streams b; conn := conn b;
     serverName := serverName b; queue := queue b; connId := connId b;
     logId := x; serverVersion := serverVersion b; bookmark := bookmark b;
     birthDate := birthDate b; log := log b; databaseName := databaseName b;
     err := err b; minor := minor b; lastQid := lastQid b;
     idleDate := idleDate b; heap := heap b; routingSlot := routingSlot b;
     now := now b |}.

Definition set_serverVersion (x : string) (b : bolt5) : bolt5 :=
  {| state := state b; txId := txId b; streams := streams b; conn := conn b;
     serverName := serverName b; queue := queue b; connId := connId b;
     logId := logId b; serverVersion := x; bookmark := bookmark b;
     birthDate := birthDate b; log := log b; databaseName := databaseName b;
     err := err b; minor := minor b; lastQid := lastQid b;
     idleDate := idleDate b; heap := heap b; routingSlot := routingSlot b;
     now := now b |}.

Definition set_bookmark (x : string) (b : bolt5) : bolt5 :=
  {| state := state b; txId := txId b; streams := streams b; conn := conn b;
     serverName := serverName b; queue := queue b; connId := connId b;
     logId := logId b; serverVersion := serverVersion b; bookmark := x;
     birthDate := birthDate b; log := log b; databaseName := databaseName b;
     err := err b; minor := minor b; lastQid := lastQid b;
     idleDate := idleDate b; heap := heap b; routingSlot := routingSlot b;
     now := now b |}.

Definition set_log (x : list LogEntry) (b : bolt5) : bolt5 :=
  {| state := state b; txId := txId b; streams := streams b; conn := conn b;
     serverName := serverName b; queue := queue b; connId := connId b;
     logId := logId b; serverVersion := serverVersion b;
     bookmark := bookmark b; birthDate := birthDate b; log := x;
     databaseName := databaseName b; err := err b; minor := minor b;
     lastQid := lastQid b; idleDate := idleDate b; heap := heap b;
     routingSlot := routingSlot b; now := now b |}.

Definition set_databaseName (x : string) (b : bolt5) : bolt5 :=
  {| state := state b; txId := txId b; streams := streams b; conn := conn b;
     serverName := serverName b; queue := queue b; connId := connId b;
     logId := logId b; serverVersion := serverVersion b;
     bookmark := bookmark b; birthDate := birthDate b; log := log b;
     databaseName := x; err := err b; minor := minor b;
     lastQid := lastQid b; idleDate := idleDate b; heap := heap b;
     routingSlot := routingSlot b; now := now b |}.

Definition set_err (x : option error) (b : bolt5) : bolt5 :=
  {| state := state b; txId := txId b; streams := streams b; conn := conn b;
     serverName := serverName b; queue := queue b; connId := connId b;
     logId := logId b; serverVersion := serverVersion b;
     bookmark := bookmark b; birthDate := birthDate b; log := log b;
     databaseName := databaseName b; err := x; minor := minor b;
     lastQid := lastQid b; idleDate := idleDate b; heap := heap b;
     routingSlot := routingSlot b; now := now b |}.

Definition set_minor (x : Z) (b : bolt5) : bolt5 :=
  {| state := state b; txId := txId b; streams := streams b; conn := conn b;
     serverName := serverName b; queue := queue b; connId := connId b;
     logId := logId b; serverVersion := serverVersion b;
     bookmark := bookmark b; birthDate := birthDate b; log := log b;
     databaseName := databaseName b; err := err b; minor := x;
     lastQid := lastQid b; idleDate := idleDate b; heap := heap b;
     routingSlot := routingSlot b; now := now b |}.

Definition set_lastQid (x : Z) (b : bolt5) : bolt5 :=
  {| state := state b; txId := txId b; streams := streams b; conn := conn b;
     serverName := serverName b; queue := queue b; connId := connId b;
     logId := logId b; serverVersion := serverVersion b;
     bookmark := bookmark b; birthDate := birthDate b; log := log b;
     databaseName := databaseName b; err := err b; minor := minor b;
     lastQid := x; idleDate := idleDate b; heap := heap b;
     routingSlot := routingSlot b; now := now b |}.

Definition set_idleDate (x : Z) (b : bolt5) : bolt5 :=
  {| state := state b; txId := txId b; streams := streams b; conn := conn b;
     serverName := serverName b; queue := queue b; connId := connId b;
     logId := logId b; serverVersion := serverVersion b;
     bookmark := bookmark b; birthDate := birthDate b; log := log b;
     databaseName := databaseName b; err := err b; minor := minor b;
     lastQid := lastQid b; idleDate := x; heap := heap b;
     routingSlot := routingSlot b; now := now b |}.

Definition set_heap (x : list stream) (b : bolt5) : bolt5 :=
  {| state := state b; txId := txId b; streams := streams b; conn := conn b;
     serverName := serverName b; queue := queue b; connId := connId b;
     logId := logId b; serverVersion := serverVersion b;
     bookmark := bookmark b; birthDate := birthDate b; log := log b;
     databaseName := databaseName b; err := err b; minor := minor b;
     lastQid := lastQid b; idleDate := idleDate b; heap := x;
     routingSlot := routingSlot b; now := now b |}.

Definition set_routingSlot (x : option RoutingTable) (b : bolt5) : bolt5 :=
  {| state := state b; txId := txId b; streams := streams b; conn := conn b;
     serverName := serverName b; queue := queue b; connId := connId b;
     logId := logId b; serverVersion := serverVersion b;
     bookmark := bookmark b; birthDate := birthDate b; log := log b;
     databaseName := databaseName b; err := err b; minor := minor b;
     lastQid := lastQid b; idleDate := idleDate b; heap := heap b;
     routingSlot := x; now := now b |}.

Definition set_now (x : Z) (b : bolt5) : bolt5 :=
  {| state := state b; txId := txId b; streams := streams b; conn := conn b;
     serverName := serverName b; queue := queue b; connId := connId b;
     logId := logId b; serverVersion := serverVersion b;
     bookmark := bookmark b; birthDate := birthDate b; log := log b;
     databaseName := databaseName b; err := err b; minor := minor b;
     lastQid := lastQid b; idleDate := idleDate b; heap := heap b;
     routingSlot := routingSlot b; now := x |}.

Definition set_s_keys (x : list string) (r : stream) : stream :=
  {| s_keys := x; s_fifo := s_fifo r; s_sum := s_sum r; s_err := s_err r;
     s_qid := s_qid r; s_fetchSize := s_fetchSize r; s_key := s_key r;
     s_tfirst := s_tfirst r; s_endOfBatch := s_endOfBatch r;
     s_discarding := s_discarding r |}.

Definition set_s_fifo (x : list dbRecord) (r : stream) : stream :=
  {| s_keys := s_keys r; s_fifo := x; s_sum := s_sum r; s_err := s_err r;
     s_qid := s_qid r; s_fetchSize := s_fetchSize r; s_key := s_key r;
     s_tfirst := s_tfirst r; s_endOfBatch := s_endOfBatch r;
     s_discarding := s_discarding r |}.

Definition set_s_sum (x : option Summary) (r : stream) : stream :=
  {| s_keys := s_keys r; s_fifo := s_fifo r; s_sum := x; s_err := s_err r;
     s_qid := s_qid r; s_fetchSize := s_fetchSize r; s_key := s_key r;
     s_tfirst := s_tfirst r; s_endOfBatch := s_endOfBatch r;
     s_discarding := s_discarding r |}.

Definition set_s_err (x : option error) (r : stream) : stream :=
  {| s_keys := s_keys r; s_fifo := s_fifo r; s_sum := s_sum r; s_err := x;
     s_qid := s_qid r; s_fetchSize := s_fetchSize r; s_key := s_key r;
     s_tfirst := s_tfirst r; s_endOfBatch := s_endOfBatch r;
     s_discarding := s_discarding r |}.

Definition set_s_qid (x : Z) (r : stream) : stream :=
  {| s_keys := s_keys r; s_fifo := s_fifo r; s_sum := s_sum r;
     s_err := s_err r; s_qid := x; s_fetchSize := s_fetchSize r;
     s_key := s_key r; s_tfirst := s_tfirst r;
     s_endOfBatch := s_endOfBatch r; s_discarding := s_discarding r |}.

Definition set_s_fetchSize (x : Z) (r : stream) : stream :=
  {| s_keys := s_keys r; s_fifo := s_fifo r; s_sum := s_sum r;
     s_err := s_err r; s_qid := s_qid r; s_fetchSize := x; s_key := s_key r;
     s_tfirst := s_tfirst r; s_endOfBatch := s_endOfBatch r;
     s_discarding := s_discarding r |}.

Definition set_s_key (x : Z) (r : stream) : stream :=
  {| s_keys := s_keys r; s_fifo := s_fifo r; s_sum := s_sum r;
     s_err := s_err r; s_qid := s_qid r; s_fetchSize := s_fetchSize r;
     s_key := x; s_tfirst := s_tfirst r; s_endOfBatch := s_endOfBatch r;
     s_discarding := s_discarding r |}.

Definition set_s_tfirst (x : Z) (r : stream) : stream :=
  {| s_keys := s_keys r; s_fifo := s_fifo r; s_sum := s_sum r;
     s_err := s_err r; s_qid := s_qid r; s_fetchSize := s_fetchSize r;
     s_key := s_key r; s_tfirst := x; s_endOfBatch := s_endOfBatch r;
     s_discarding := s_discarding r |}.

Definition set_s_endOfBatch (x : bool) (r : stream) : stream :=
  {| s_keys := s_keys r; s_fifo := s_fifo r; s_sum := s_sum r;
     s_err := s_err r; s_qid := s_qid r; s_fetchSize := s_fetchSize r;
     s_key := s_key r; s_tfirst := s_tfirst r; s_endOfBatch := x;
     s_discarding := s_discarding r |}.

Definition set_s_discarding (x : bool) (r : stream) : stream :=
  {| s_keys := s_keys r; s_fifo := s_fifo r; s_sum := s_sum r;
     s_err := s_err r; s_qid := s_qid r; s_fetchSize := s_fetchSize r;
     s_key := s_key r; s_tfirst := s_tfirst r;
     s_endOfBatch := s_endOfBatch r; s_discarding := x |}.

Definition set_curr (x : option nat) (r : openstreams) : openstreams :=
  {| curr := x; num := num r; key := key r |}.

Definition set_num (x : Z) (r : openstreams) : openstreams :=
  {| curr := curr r; num := x; key := key r |}.

Definition set_key (x : Z) (r : openstreams) : openstreams :=
  {| curr := curr r; num := num r; key := x |}.

Definition set_pending (x : list Request) (r : messageQueue) : messageQueue :=
  {| pending := x; handlers := handlers r;
     connReadTimeout := connReadTimeout r; q_logId := q_logId r |}.

Definition set_handlers (x : list responseHandler) (r : messageQueue) : messageQueue :=
  {| pending := pending r; handlers := x;
     connReadTimeout := connReadTimeout r; q_logId := q_logId r |}.

Definition set_connReadTimeout (x : Z) (r : messageQueue) : messageQueue :=
  {| pending := pending r; handlers := handlers r; connReadTimeout := x;
     q_logId := q_logId r |}.

Definition set_q_logId (x : string) (r : messageQueue) : messageQueue :=
  {| pending := pending r; handlers := handlers r;
     connReadTimeout := connReadTimeout r; q_logId := x |}.

Definition set_incoming (x : list InEvent) (r : netConn) : netConn :=
  {| incoming := x; written := written r; writeErr := writeErr r;
     closed := closed r |}.

Definition set_written (x : list Request) (r : netConn) : netConn :=
  {| incoming := incoming r; written := x; writeErr := writeErr r;
     closed := closed r |}.

Definition set_closed (x : bool) (r : netConn) : netConn :=
  {| incoming := incoming r; written := written r; writeErr := writeErr r;
     closed := x |}.

(** ** Collaborators outside bolt5.go

    bolt5.go calls into the stream registry, the streams, the message queue
    and a few helpers whose source is in other files of the package. They are
    modelled here from the specification, in the shape bolt5.go uses them. *)

(** [time.Now()]: the reading, and the connection with the clock advanced. *)
Definition time_Now (b : bolt5) : Z * bolt5 := (now b, set_now (now b + 1) b).

(** [t.Unix()] of a reading in nanoseconds. *)
Definition Unix (t : Z) : Z := t / 1000000000.

(** [*p] and [*p = s] for a stream pointer [p]. Go pointers always point at
    an allocated stream; an address outside the heap reads as the zero stream
    and a write to it is dropped. *)
Definition deref (b : bolt5) (p : nat) : stream :=
  default (new_stream 0) (heap b !! p).

Definition store (p : nat) (s : stream) (b : bolt5) : bolt5 :=
  set_heap (<[p := s]> (heap b)) b.

Definition update_stream (p : nat) (f : stream -> stream) (b : bolt5) : bolt5 :=
  store p (f (deref b p)) b.

(** [&stream{fetchSize: n}] *)
Definition alloc_stream (n : Z) (b : bolt5) : nat * bolt5 :=
  (length (heap b), set_heap (heap b ++ [new_stream n]) b).

(** Modelled from the spec: [stream.push], appending a record to the buffer
    (spec 3, Stream; the methods of [stream] are not among the sources). *)
Definition stream_push (r : dbRecord) (s : stream) : stream :=
  set_s_fifo (s_fifo s ++ [r]) s.

(** Modelled from the spec: [stream.emptyRecords], dropping what is buffered
    (spec 4.3, discarding never emits records). *)
Definition stream_emptyRecords (s : stream) : stream := set_s_fifo [] s.

(** Modelled from the spec: [stream.Err], the stream's terminal error. *)
Definition stream_Err (s : stream) : option error := s_err s.

(** Modelled from the spec: [stream.bufferedNext]: a buffered record if there
    is one, else the terminal error or summary, else nothing yet. *)
Definition stream_bufferedNext (s : stream)
  : bool * option dbRecord * option Summary * option error * stream :=
  match s_fifo s with
  | r :: rest => (true, Some r, None, None, set_s_fifo rest s)
  | [] =>
      match s_err s, s_sum s with
      | Some e, _ => (true, None, None, Some e, s)
      | None, Some sm => (true, None, Some sm, None, s)
      | None, None => (false, None, None, None, s)
      end
  end.

(** Modelled from the spec: [openstreams.attach] (spec 3 and 4.3; the
    registry's methods are not among the sources): a stream becomes current,
    counted and safe, unless another stream is current. *)
Definition streams_attach (s : nat) (b : bolt5) : bolt5 :=
  match curr (streams b) with
  | Some _ => b
  | None =>
      let o := streams b in
      let b := update_stream s (set_s_key (key o)) b in
      set_streams (set_num (num o + 1) (set_curr (Some s) o)) b
  end.

(** Modelled from the spec: [openstreams.remove]: one stream fewer, the
    stream loses the registry's key and is no longer current. *)
Definition streams_remove (s : nat) (b : bolt5) : bolt5 :=
  let o := set_num (num (streams b) - 1) (streams b) in
  let b := update_stream s (set_s_key 0) b in
  let o := if decide (curr o = Some s) then set_curr None o else o in
  set_streams o b.

(** Modelled from the spec: [openstreams.detach]: the current stream, if
    any, gets its terminal summary or error and is removed. *)
Definition streams_detach (sm : option Summary) (e : option error) (b : bolt5) : bolt5 :=
  match curr (streams b) with
  | Some c =>
      let b := update_stream c (fun st => set_s_err e (set_s_sum sm st)) b in
      streams_remove c b
  | None => b
  end.

(** Modelled from the spec: [openstreams.pause]: no stream is current; the
    paused stream stays in the registry (spec 4.4). *)
Definition streams_pause (b : bolt5) : bolt5 :=
  set_streams (set_curr None (streams b)) b.

(** Modelled from the spec: [openstreams.resume]: a paused stream becomes
    current, unless another stream is. *)
Definition streams_resume (s : nat) (b : bolt5) : bolt5 :=
  match curr (streams b) with
  | Some _ => b
  | None => set_streams (set_curr (Some s) (streams b)) b
  end.

(** Modelled from the spec: [openstreams.reset] (spec 3): the registry is
    emptied and takes a new key, read from the clock, so that the handles
    handed out before become unsafe. *)
Definition streams_reset (b : bolt5) : bolt5 :=
  let (t, b) := time_Now b in
  set_streams {| curr := None; num := 0; key := t |} b.

(** Modelled from the spec: [openstreams.getUnsafe]: the stream behind a
    handle, whatever registry it belongs to, or an invalid-stream error. *)
Definition streams_getUnsafe (h : StreamHandle) : option nat * option error :=
  match h with
  | HandleStream p => (Some p, None)
  | HandleNil | HandleForeign => (None, Some ErrInvalidStream)
  end.

(** Modelled from the spec: [openstreams.isSafe]: a stream is safe while it
    carries the registry's key; otherwise an invalid-stream error (spec 3). *)
Definition streams_isSafe (s : nat) (b : bolt5) : option error :=
  if decide (s_key (deref b s) = key (streams b)) then None else Some ErrInvalidStream.

(** Modelled from the spec: [isFatalError] (spec 4.3 and 6.3): a failure is
    fatal unless its classification is ClientError. *)
Definition isFatalError (e : Neo4jError) : bool :=
  negb (String.eqb (Classification e) "ClientError").

(** Modelled from the spec: [handleTerminatedContextError] (spec 5 and 7): a
    cancelled or expired context closes the socket and is wrapped as a
    terminated-context error; any other error yields nil. *)
Definition handleTerminatedContextError (e : error) (c : netConn)
  : option error * netConn :=
  match e with
  | ErrContextCanceled | ErrDeadlineExceeded =>
      (Some (ErrConnectionReadCanceled e), set_closed true c)
  | _ => (None, c)
  end.

(** Modelled from the spec: [success.summary()] (spec 4.5): the summary built
    from the success metadata, before bolt5 enriches it. *)
Definition success_summary (s : success) : Summary :=
  {| sum_Bookmark := m_bookmark s; sum_Agent := ""; sum_Major := 0;
     sum_Minor := 0; sum_ServerName := ""; sum_TFirst := 0 |}.

(** Modelled from the spec: the append functions of [messageQueue] (spec
    4.2): an append pairs a request with its response handler. *)
Definition enqueue (m : Request) (h : responseHandler) (b : bolt5) : bolt5 :=
  let q := queue b in
  set_queue (set_handlers (handlers q ++ [h]) (set_pending (pending q ++ [m]) q)) b.

(** Modelled from the spec: [messageQueue.appendHello]. *)
Definition queue_appendHello hello := enqueue (MsgHello hello).

(** Modelled from the spec: [messageQueue.appendLogon]. *)
Definition queue_appendLogon auth := enqueue (MsgLogon auth).

(** Modelled from the spec: [messageQueue.appendBegin]. *)
Definition queue_appendBegin meta := enqueue (MsgBegin meta).

(** Modelled from the spec: [messageQueue.appendCommit]. *)
Definition queue_appendCommit := enqueue MsgCommit.

(** Modelled from the spec: [messageQueue.appendRollback]. *)
Definition queue_appendRollback := enqueue MsgRollback.

(** Modelled from the spec: [messageQueue.appendRun]. *)
Definition queue_appendRun cypher params meta := enqueue (MsgRun cypher params meta).

(** Modelled from the spec: [messageQueue.appendPullN]. *)
Definition queue_appendPullN (n : Z) := enqueue (MsgPullN n).

(** Modelled from the spec: [messageQueue.appendPullNQid]. *)
Definition queue_appendPullNQid (n qid : Z) := enqueue (MsgPullNQid n qid).

(** Modelled from the spec: [messageQueue.appendDiscardN]. *)
Definition queue_appendDiscardN (n : Z) := enqueue (MsgDiscardN n).

(** Modelled from the spec: [messageQueue.appendDiscardNQid]. *)
Definition queue_appendDiscardNQid (n qid : Z) := enqueue (MsgDiscardNQid n qid).

(** Modelled from the spec: [messageQueue.appendReset]. *)
Definition queue_appendReset := enqueue MsgReset.

(** Modelled from the spec: [messageQueue.appendRoute]. *)
Definition queue_appendRoute ctx bookmarks extras := enqueue (MsgRoute ctx bookmarks extras).

(** Modelled from the spec: [messageQueue.appendGoodbye]; GOODBYE has no
    response. *)
Definition queue_appendGoodbye (b : bolt5) : bolt5 :=
  set_queue (set_pending (pending (queue b) ++ [MsgGoodbye]) (queue b)) b.

(** Modelled from the spec: [messageQueue.pushFront] (spec 4.2): a record
    handler puts itself back at the head of the queue. *)
Definition queue_pushFront (h : responseHandler) (b : bolt5) : bolt5 :=
  set_queue (set_handlers (h :: handlers (queue b)) (queue b)) b.

(** Modelled from the spec: [messageQueue.isEmpty]: no handler is waiting. *)
Definition queue_isEmpty (b : bolt5) : bool :=
  match handlers (queue b) with [] => true | _ :: _ => false end.

(** Modelled from the spec: [messageQueue.setLogId]. *)
Definition queue_setLogId (id : string) (b : bolt5) : bolt5 :=
  set_queue (set_q_logId id (queue b)) b.

(** One write and one read on [net.Conn]. *)
Definition conn_Write (msgs : list Request) (c : netConn) : option error * netConn :=
  if closed c then (Some (ErrIO "use of closed network connection"), c)
  else match writeErr c with
       | Some e => (Some e, c)
       | None => (None, set_written (written c ++ msgs) c)
       end.

Definition conn_Read (c : netConn) : InEvent * netConn :=
  if closed c then (ReadError (ErrIO "use of closed network connection"), c)
  else match incoming c with
       | [] => (ReadError (ErrIO "EOF"), c)
       | ev :: rest => (ev, set_incoming rest c)
       end.

(** Notification filtering lives in another package: its configuration type,
    the version check made before a request is built, and the keys it merges
    into a metadata map are taken as an interface. *)
Class NotificationFiltering := {
  NotificationConfig : Type;
  checkNotificationFiltering : NotificationConfig -> Z * Z -> option error;
  NotificationConfig_ToMeta : NotificationConfig -> gmap string Value -> gmap string Value
}.

(** [b.log.Error], [b.log.Debugf] with an error, [b.log.Infof], [b.log.Debugf] *)
Definition log_Error (e : error) (b : bolt5) : bolt5 :=
  set_log (log b ++ [LogError e]) b.

Definition log_Debugf_err (e : error) (b : bolt5) : bolt5 :=
  set_log (log b ++ [LogDebugErr e]) b.

Definition log_Infof (msg : string) (b : bolt5) : bolt5 :=
  set_log (log b ++ [LogInfo msg]) b.

Definition log_Debugf (msg : string) (b : bolt5) : bolt5 :=
  set_log (log b ++ [LogDebug msg]) b.

(** ** bolt5.go *)

Section Bolt5.

Context `{NotificationFiltering}.

(** [idb.TxConfig] and [idb.Command], as bolt5.go reads them. *)
Record TxConfig := {
  Mode : AccessMode;
  Bookmarks : list string;
  Timeout : Z;
  Meta : gmap string Scalar;
  ImpersonatedUser : string;
  TxNotificationConfig : NotificationConfig
}.

Record Command := {
  Cypher : string;
  Params : gmap string Value;
  FetchSize : Z
}.

Record internalTx5 := {
  mode : AccessMode;
  bookmarks : list string;
  timeout : Z;
  txMeta : gmap string Scalar;
  tx_databaseName : string;
  impersonatedUser : string;
  notificationConfig : NotificationConfig
}.

Definition toMeta (i : option internalTx5) : option (gmap string Value) :=
  match i with
  | None => None
  | Some i =>
      let meta : gmap string Value := ∅ in
      let meta := if decide (mode i = ReadMode) then <["mode" := VStr "r"]> meta else meta in
      let meta := match bookmarks i with
                  | [] => meta
                  | _ :: _ => <["bookmarks" := VStrs (bookmarks i)]> meta
                  end in
      let ms := Z.quot (timeout i) 1000000 in
      let meta := if (0 <? ms)%Z then <["tx_timeout" := VInt ms]> meta else meta in
      let meta := if decide (size (txMeta i) = 0%nat) then meta
                  else <["tx_metadata" := VMap (txMeta i)]> meta in
      let meta := if decide (tx_databaseName i = DefaultDatabase) then meta
                  else <["db" := VStr (tx_databaseName i)]> meta in
      let meta := if decide (impersonatedUser i = "") then meta
                  else <["imp_user" := VStr (impersonatedUser i)]> meta in
      Some (NotificationConfig_ToMeta (notificationConfig i) meta)
  end.

Definition NewBolt5 (serverName_ : string) (c : netConn) (t : Z) : bolt5 :=
  {| state := bolt5Unauthorized;
     txId := 0;
     streams := {| curr := None; num := 0; key := 0 |};
     conn := c;
     serverName := serverName_;
     queue := {| pending := []; handlers := []; connReadTimeout := -1; q_logId := "" |};
     connId := "";
     logId := "";
     serverVersion := "";
     bookmark := "";
     birthDate := t;
     log := [];
     databaseName := "";
     err := None;
     minor := 0;
     lastQid := -1;
     idleDate := t;
     heap := [];
     routingSlot := None;
     now := t + 1 |}.

Definition checkStreams (b : bolt5) : bolt5 :=
  if (num (streams b) <=? 0)%Z then
    (* Perform state transition from streaming, if in that state otherwise
       keep the current state as we are in some kind of bad shape *)
    match state b with
    | bolt5StreamingTx => set_state bolt5Tx b
    | bolt5Streaming => set_state bolt5Ready b
    | _ => b
    end
  else b.

(** Sets b.err and b.state to bolt5Failed or bolt5Dead when fatal is true. *)
Definition setError (e : option error) (fatal : bool) (b : bolt5) : bolt5 :=
  match e with
  | None => b (* Has no effect, can reduce nested ifs *)
  | Some e =>
      (* No previous error *)
      let b := match err b with
               | None => set_state bolt5Failed (set_err (Some e) b)
               | Some _ => b
               end in
      (* Increase severity even if it was a previous error *)
      let b := if fatal then
                 let (ctxErr, c) := handleTerminatedContextError e (conn b) in
                 let b := set_conn c b in
                 let b := match ctxErr with
                          | Some ce => set_err (Some ce) b
                          | None => b
                          end in
                 set_state bolt5Dead b
               else b in
      (* Forward error to current stream if there is one *)
      let b := match curr (streams b) with
               | Some _ => checkStreams (streams_detach None (Some e) b)
               | None => b
               end in
      (* Do not log big cypher statements as errors *)
      match e with
      | ErrNeo4j ne =>
          if String.eqb (Classification ne) "ClientError" then log_Debugf_err e b
          else log_Error e b
      | _ => log_Error e b
      end
  end.

(** Should NOT set b.err or change b.state as this is used to guard against
    misuse from clients that stick to their connections when they shouldn't. *)
Definition assertTxHandle (h1 h2 : Z) (b : bolt5) : option error * bolt5 :=
  if decide (h1 = h2) then (None, b)
  else let e := ErrInvalidTransaction in (Some e, log_Error e b).

(** Should NOT set b.err or b.state since the connection is still valid *)
Definition assertState (allowed : list State) (b : bolt5) : option error * bolt5 :=
  match err b with
  | Some e => (Some e, b) (* Forward prior error instead. Do not log this. *)
  | None =>
      if decide (state b ∈ allowed) then (None, b)
      else let e := ErrInvalidState (state b) allowed in (Some e, log_Error e b)
  end.

Definition normalizeFetchSize (fetchSize : Z) : Z :=
  if (fetchSize <? 0)%Z then -1
  else if (fetchSize =? 0)%Z then bolt5FetchSize
  else fetchSize.

Definition Version (b : bolt5) : Z * Z := (5, minor b).

Definition appendPullN (stream : nat) (b : bolt5) : bolt5 :=
  let s := deref b stream in
  match state b with
  | bolt5Streaming =>
      queue_appendPullN (s_fetchSize s) (pullResponseHandler stream) b
  | bolt5StreamingTx =>
      if decide (s_qid s = lastQid b) then
        queue_appendPullN (s_fetchSize s) (pullResponseHandler stream) b
      else
        queue_appendPullNQid (s_fetchSize s) (s_qid s) (pullResponseHandler stream) b
  | _ => b
  end.

(** The request [discardStream] appends once it has decided to discard
    (the [if]/[else] on [b.state] and [stream.qid] inside its loop). *)
Definition appendDiscard (stream : nat) (b : bolt5) : bolt5 :=
  let s := deref b stream in
  if decide (state b = bolt5StreamingTx /\ s_qid s <> lastQid b) then
    queue_appendDiscardNQid (s_fetchSize s) (s_qid s) (discardResponseHandler stream) b
  else
    queue_appendDiscardN (s_fetchSize s) (discardResponseHandler stream) b.

(** *** Response handlers *)

Definition onSuccessNoOp (_ : success) (b : bolt5) : bolt5 := b.
Definition onIgnoredNoOp (b : bolt5) : bolt5 := b.

Definition onFailure (e : Neo4jError) (b : bolt5) : bolt5 :=
  setError (Some (ErrNeo4j e)) (isFatalError e) b.

Definition onUnknown (msg : Response) (b : bolt5) : bolt5 :=
  setError (Some (ErrExpectedSuccess msg)) true b.

Definition readTimeoutHintName : string := "connection.recv_timeout_seconds".

(** An int64 product wraps around. (The registry's stream count, the only
    other integer bolt5.go does arithmetic on, moves by one per stream and
    stays far inside the range of [int]; it is kept as a plain [Z].) *)
Definition wrap64 (z : Z) : Z := (z + 2 ^ 63) mod 2 ^ 64 - 2 ^ 63.

Definition initializeReadTimeoutHint (hints : gmap string Value) (b : bolt5) : bolt5 :=
  match hints !! readTimeoutHintName with
  | None => b
  | Some (VScalar (SInt readTimeout)) =>
      if (readTimeout <=? 0)%Z then
        log_Infof "invalid integer value. Only strictly positive values are accepted" b
      else
        set_queue (set_connReadTimeout (wrap64 (readTimeout * 1000000000)) (queue b)) b
  | Some _ =>
      log_Infof "invalid value, ignoring hint. Only strictly positive integer values are accepted" b
  end.

Definition onHelloSuccess (helloSuccess : success) (b : bolt5) : bolt5 :=
  let b := set_connId (m_connectionId helloSuccess) b in
  let b := set_serverVersion (m_server helloSuccess) b in
  let connectionLogId := connId b ++ "@" ++ serverName b in
  let b := set_logId connectionLogId b in
  let b := queue_setLogId connectionLogId b in
  initializeReadTimeoutHint (m_configurationHints helloSuccess) b.

Definition onCommitSuccess (commitSuccess : success) (b : bolt5) : bolt5 :=
  if (0 <? Z.of_nat (String.length (m_bookmark commitSuccess)))%Z
  then set_bookmark (m_bookmark commitSuccess) b
  else b.

Definition onNextMessage (b : bolt5) : bolt5 :=
  let (t, b) := time_Now b in set_idleDate t b.

Definition onNextMessageError (e : error) (b : bolt5) : bolt5 :=
  setError (Some e) true b.

Definition extractSummary (s : success) (stream : nat) (b : bolt5) : Summary :=
  let summary := success_summary s in
  {| sum_Bookmark := sum_Bookmark summary;
     sum_Agent := serverVersion b;
     sum_Major := 5;
     sum_Minor := minor b;
     sum_ServerName := serverName b;
     sum_TFirst := s_tfirst (deref b stream) |}.

(** The callbacks of a [responseHandler]; an absent callback is [None]. *)
Record callbacks := {
  onSuccess : option (success -> bolt5 -> bolt5);
  onRecord : option (dbRecord -> bolt5 -> bolt5);
  onFailure_cb : option (Neo4jError -> bolt5 -> bolt5);
  onIgnored : option (bolt5 -> bolt5);
  onUnknown_cb : option (Response -> bolt5 -> bolt5)
}.

Definition expectedSuccessHandler (f : success -> bolt5 -> bolt5) : callbacks :=
  {| onSuccess := Some f;
     onRecord := None;
     onFailure_cb := Some onFailure;
     onIgnored := Some onIgnoredNoOp;
     onUnknown_cb := Some onUnknown |}.

Definition runSuccess (stream : nat) (runSuccess : success) (b : bolt5) : bolt5 :=
  let b := update_stream stream (set_s_keys (m_fields runSuccess)) b in
  let b := update_stream stream (set_s_qid (m_qid runSuccess)) b in
  let b := update_stream stream (set_s_tfirst (m_tfirst runSuccess)) b in
  let b := if (-1 <? m_qid runSuccess)%Z then set_lastQid (m_qid runSuccess) b else b in
  streams_attach stream b.

(** [onIgnored] of the pull and discard handlers *)
Definition streamIgnored (doing : string) (stream : nat) (b : bolt5) : bolt5 :=
  let b := update_stream stream (set_s_err (Some (ErrStreamInterrupted doing))) b in
  let b := streams_remove stream b in
  checkStreams b.

(** [onFailure] of the pull and discard handlers *)
Definition streamFailure (stream : nat) (failure : Neo4jError) (b : bolt5) : bolt5 :=
  let b := update_stream stream (set_s_err (Some (ErrNeo4j failure))) b in
  setError (Some (ErrNeo4j failure)) (isFatalError failure) b. (* Will detach the stream *)

(** [onUnknown] of the pull and discard handlers *)
Definition streamUnknown (msg : Response) (b : bolt5) : bolt5 :=
  setError (Some (ErrUnknownResponse msg)) true b.

(** The tail shared by the success callbacks of pull and discard. *)
Definition streamSuccess (stream : nat) (s : success) (b : bolt5) : bolt5 :=
  if m_hasMore s then update_stream stream (set_s_endOfBatch true) b
  else
    let summary := extractSummary s stream b in
    let b := if (0 <? Z.of_nat (String.length (sum_Bookmark summary)))%Z
             then set_bookmark (sum_Bookmark summary) b else b in
    let b := update_stream stream (set_s_sum (Some summary)) b in
    let b := streams_remove stream b in
    checkStreams b.

Definition discardSuccess (stream : nat) (discardSuccess : success) (b : bolt5) : bolt5 :=
  streamSuccess stream discardSuccess b.

Definition pullSuccess (stream : nat) (pullSuccess : success) (b : bolt5) : bolt5 :=
  let b := if s_discarding (deref b stream)
           then update_stream stream stream_emptyRecords b else b in
  streamSuccess stream pullSuccess b.

Definition pullRecord (stream : nat) (record : dbRecord) (b : bolt5) : bolt5 :=
  let s := deref b stream in
  let b := if s_discarding s then update_stream stream stream_emptyRecords b
           else
             let record := {| rec_Values := rec_Values record; rec_Keys := s_keys s |} in
             update_stream stream (stream_push record) b in
  queue_pushFront (pullResponseHandler stream) b.

Definition routeSuccess (routeSuccess : success) (b : bolt5) : bolt5 :=
  set_routingSlot (m_routingTable routeSuccess) b.

Definition callbacks_of (h : responseHandler) : callbacks :=
  match h with
  | helloResponseHandler => expectedSuccessHandler onHelloSuccess
  | logonResponseHandler => expectedSuccessHandler onSuccessNoOp
  | routeResponseHandler => expectedSuccessHandler routeSuccess
  | beginResponseHandler => expectedSuccessHandler onSuccessNoOp
  | runResponseHandler stream => expectedSuccessHandler (runSuccess stream)
  | commitResponseHandler => expectedSuccessHandler onCommitSuccess
  | rollbackResponseHandler => expectedSuccessHandler onSuccessNoOp
  | discardResponseHandler stream =>
      {| onIgnored := Some (streamIgnored "discarding" stream);
         onSuccess := Some (discardSuccess stream);
         onFailure_cb := Some (streamFailure stream);
         onUnknown_cb := Some streamUnknown;
         onRecord := None |}
  | pullResponseHandler stream =>
      {| onRecord := Some (pullRecord stream);
         onIgnored := Some (streamIgnored "pulling" stream);
         onSuccess := Some (pullSuccess stream);
         onFailure_cb := Some (streamFailure stream);
         onUnknown_cb := Some streamUnknown |}
  | resetResponseHandler =>
      {| onSuccess := Some (fun _ b => set_state bolt5Ready b);
         onFailure_cb := Some (fun _ b => set_state bolt5Dead b);
         onUnknown_cb := Some (fun _ b => set_state bolt5Dead b);
         onRecord := None;
         onIgnored := None |}
  end.

(** *** The message queue, wired to the connection *)

(** Modelled from the spec: the dispatcher of [messageQueue] (spec 4.2): a
    decoded message goes to the matching callback of the handler; a message
    of a kind the handler has no callback for goes to its [onUnknown]. *)
Definition dispatch (h : responseHandler) (m : Response) (b : bolt5) : bolt5 :=
  let cb := callbacks_of h in
  let unknown b := match onUnknown_cb cb with Some f => f m b | None => b end in
  match m with
  | RspRecord r => match onRecord cb with Some f => f r b | None => unknown b end
  | RspSuccess s => match onSuccess cb with Some f => f s b | None => unknown b end
  | RspFailure e => match onFailure_cb cb with Some f => f e b | None => unknown b end
  | RspIgnored => match onIgnored cb with Some f => f b | None => unknown b end
  | RspUnknown _ => unknown b
  end.

(** Modelled from the spec: [messageQueue.send] (spec 4.2): everything
    appended is flushed in one write; a write error is reported through
    [onErr], which [NewBolt5] sets to [setError(err, true)]. *)
Definition queue_send (b : bolt5) : bolt5 :=
  match pending (queue b) with
  | [] => b
  | msgs =>
      let (e, c) := conn_Write msgs (conn b) in
      let b := set_conn c (set_queue (set_pending [] (queue b)) b) in
      match e with
      | Some e => setError (Some e) true b
      | None => b
      end
  end.

(** Modelled from the spec: [messageQueue.receive] (spec 4.2): one message
    is read; a read or decode error goes to [onNextMessageError]; otherwise
    [onNextMessage] updates the idle date and the message is dispatched to
    the handler at the head of the queue, which is popped. A message that no
    handler awaits is a protocol error. *)
Definition queue_receive (b : bolt5) : option error * bolt5 :=
  let (ev, c) := conn_Read (conn b) in
  let b := set_conn c b in
  match ev with
  | ReadError e => (Some e, onNextMessageError e b)
  | Received m =>
      let b := onNextMessage b in
      match handlers (queue b) with
      | [] => let e := ErrNoHandler m in (Some e, onNextMessageError e b)
      | h :: hs => (None, dispatch h m (set_queue (set_handlers hs (queue b)) b))
      end
  end.

(** Modelled from the spec: the loop of [messageQueue.receiveAll] (spec
    4.2), which receives until no handler is waiting. Every round that does
    not fail consumes one inbound message, so [n] rounds beyond the first
    suffice when [n] messages are waiting ([receiveAll_rounds_drains]). *)
Fixpoint receiveAll_rounds (n : nat) (b : bolt5) : option error * bolt5 :=
  if queue_isEmpty b then (None, b)
  else
    let (e, b') := queue_receive b in
    match e with
    | Some _ => (e, b')
    | None =>
        match n with
        | O => (None, b')
        | S n' => receiveAll_rounds n' b'
        end
    end.

(** Modelled from the spec: [messageQueue.receiveAll]. *)
Definition queue_receiveAll (b : bolt5) : option error * bolt5 :=
  receiveAll_rounds (length (incoming (conn b))) b.

(** *** Stream plumbing *)

Definition stream_done (s : stream) : bool :=
  match s_sum s, s_err s with
  | None, None => false
  | _, _ => true
  end.

(** The body of the [for] loop of [discardStream]; [fuel] bounds the number of
    rounds. *)
Fixpoint discardStream_loop (fuel : nat) (stream : nat) (discarded : bool) (b : bolt5)
  : option bolt5 :=
  match fuel with
  | O => None
  | S fuel =>
      let (e, b) := queue_receiveAll b in
      match e, err b with
      | Some _, _ => Some b
      | None, Some _ => Some b
      | None, None =>
          if stream_done (deref b stream) then Some b
          else if s_endOfBatch (deref b stream) && discarded then
            Some (checkStreams (streams_remove stream b))
          else
            (* request infinite batch to consume the rest *)
            let b := update_stream stream (set_s_fetchSize (-1)) b in
            let b := appendDiscard stream b in
            let b := queue_send b in
            match err b with
            | Some _ => Some b
            | None => discardStream_loop fuel stream true b
            end
      end
  end.

(** Discards all records in current stream if in streaming state and there is
    a current stream. *)
Definition discardStream (fuel : nat) (b : bolt5) : option bolt5 :=
  if decide (state b <> bolt5Streaming /\ state b <> bolt5StreamingTx) then Some b
  else
    match curr (streams b) with
    | None => Some b
    | Some stream =>
        (* pull response handler will discard any accumulated record *)
        let b := update_stream stream (set_s_discarding true) b in
        discardStream_loop fuel stream false b
    end.

Definition discardAllStreams (fuel : nat) (b : bolt5) : option bolt5 :=
  if decide (state b <> bolt5Streaming /\ state b <> bolt5StreamingTx) then Some b
  else
    (* Discard current *)
    b ← discardStream fuel b;
    Some (checkStreams (streams_reset b)).

Fixpoint bufferStream_loop (fuel : nat) (stream : nat) (b : bolt5) : option bolt5 :=
  match fuel with
  | O => None
  | S fuel =>
      let (e, b) := queue_receiveAll b in
      match e, err b with
      | Some _, _ => Some b
      | None, Some _ => Some b
      | None, None =>
          if stream_done (deref b stream) then Some b
          else if s_endOfBatch (deref b stream) then
            let b := update_stream stream (set_s_fetchSize (-1)) b in
            let b := appendPullN stream b in
            let b := queue_send b in
            match err b with
            | Some _ => Some b
            | None => bufferStream_loop fuel stream b
            end
          else bufferStream_loop fuel stream b
      end
  end.

(** bufferStream pulls all the records of the current stream if there is a
    current stream. *)
Definition bufferStream (fuel : nat) (b : bolt5) : option bolt5 :=
  match curr (streams b) with
  | None => Some b
  | Some stream => bufferStream_loop fuel stream b
  end.

(** pauseStream pulls all the records of the current stream ongoing batch of
    records and unsets the stream as current *)
Definition pauseStream (b : bolt5) : bolt5 :=
  match curr (streams b) with
  | None => b
  | Some stream =>
      let (e, b) := queue_receiveAll b in
      match e, err b with
      | Some _, _ => b
      | None, Some _ => b
      | None, None =>
          if stream_done (deref b stream) then b
          else if s_endOfBatch (deref b stream) then streams_pause b
          else b
      end
  end.

(** resumeStream marks the current stream as current and requests PULL *)
Definition resumeStream (s : nat) (b : bolt5) : bolt5 :=
  let b := streams_resume s b in
  let b := appendPullN s b in
  queue_send b.

(** *** Operations *)

Definition Connect (minor_ : Z) (auth : gmap string Value) (userAgent : string)
    (routingContext : option (gmap string string))
    (notificationConfig_ : NotificationConfig) (b : bolt5) : option error * bolt5 :=
  let (e, b) := assertState [bolt5Unauthorized] b in
  match e with
  | Some e => (Some e, b)
  | None =>
      let b := set_minor minor_ b in
      let hello : gmap string Value := {[ "user_agent" := VStr userAgent ]} in
      let hello := match routingContext with
                   | Some ctx => <["routing" := VStrMap ctx]> hello
                   | None => hello
                   end in
      (* Merge authentication keys into hello, avoid overwriting existing keys *)
      let hello := if decide (minor b = 0) then hello ∪ auth else hello in
      match checkNotificationFiltering notificationConfig_ (Version b) with
      | Some e => (Some e, b)
      | None =>
          let hello := NotificationConfig_ToMeta notificationConfig_ hello in
          let b := queue_appendHello hello helloResponseHandler b in
          let b := if (0 <? minor b)%Z then queue_appendLogon auth logonResponseHandler b
                   else b in
          let b := queue_send b in
          match err b with
          | Some e => (Some e, b)
          | None =>
              let (e, b) := queue_receiveAll b in
              match e, err b with
              | Some e, _ => (Some e, b)
              | None, Some e => (Some e, b) (* onNextMessageErr kicked in *)
              | None, None =>
                  let b := set_state bolt5Ready b in
                  let b := streams_reset b in
                  (None, log_Infof "Connected" b)
              end
          end
      end
  end.

Definition TxBegin (fuel : nat) (txConfig : TxConfig) (b : bolt5)
  : option ((Z * option error) * bolt5) :=
  (* Ok, to begin transaction while streaming auto-commit, just empty the
     stream and continue. *)
  let streaming := bool_decide (state b = bolt5Streaming) in
  b ← (if streaming then bufferStream fuel b else Some b);
  match (if streaming then err b else None) with
  | Some e => Some ((0, Some e), b)
  | None =>
      (* Makes all outstanding streams invalid *)
      let b := streams_reset b in
      let (e, b) := assertState [bolt5Ready] b in
      match e with
      | Some e => Some ((0, Some e), b)
      | None =>
          match checkNotificationFiltering (TxNotificationConfig txConfig) (Version b) with
          | Some e => Some ((0, Some e), b)
          | None =>
              let tx := {| mode := Mode txConfig;
                           bookmarks := Bookmarks txConfig;
                           timeout := Timeout txConfig;
                           txMeta := Meta txConfig;
                           tx_databaseName := databaseName b;
                           impersonatedUser := ImpersonatedUser txConfig;
                           notificationConfig := TxNotificationConfig txConfig |} in
              let b := queue_appendBegin (toMeta (Some tx)) beginResponseHandler b in
              let b := queue_send b in
              match err b with
              | Some e => Some ((0, Some e), b)
              | None =>
                  let (e, b) := queue_receiveAll b in
                  match e, err b with
                  | Some e, _ => Some ((0, Some e), b)
                  | None, Some e => Some ((0, Some e), b)
                  | None, None =>
                      let b := set_state bolt5Tx b in
                      let (t, b) := time_Now b in
                      let b := set_txId (Unix t) b in
                      Some ((txId b, None), b)
                  end
              end
          end
      end
  end.

(** The part [TxCommit] and [TxRollback] share: everything but the request
    and its handler. *)
Definition txEnd (request : bolt5 -> bolt5) (fuel : nat) (txh : Z) (b : bolt5)
  : option (option error * bolt5) :=
  let (e, b) := assertTxHandle (txId b) txh b in
  match e with
  | Some e => Some (Some e, b)
  | None =>
      (* Consume pending stream if any to turn state from streamingtx to tx.
         Access to the streams outside tx boundary is not allowed, therefore
         we should discard the stream (not buffer). *)
      b ← discardAllStreams fuel b;
      match err b with
      | Some e => Some (Some e, b)
      | None =>
          (* Should be in vanilla tx state now *)
          let (e, b) := assertState [bolt5Tx] b in
          match e with
          | Some e => Some (Some e, b)
          | None =>
              let b := request b in
              let b := queue_send b in
              match err b with
              | Some e => Some (Some e, b)
              | None =>
                  let (e, b) := queue_receiveAll b in
                  match e, err b with
                  | Some e, _ => Some (Some e, b)
                  | None, Some e => Some (Some e, b)
                  | None, None =>
                      (* Transition into ready state *)
                      Some (None, set_state bolt5Ready b)
                  end
              end
          end
      end
  end.

Definition TxCommit : nat -> Z -> bolt5 -> option (option error * bolt5) :=
  txEnd (queue_appendCommit commitResponseHandler).

Definition TxRollback : nat -> Z -> bolt5 -> option (option error * bolt5) :=
  txEnd (queue_appendRollback rollbackResponseHandler).

Definition run (fuel : nat) (cypher : string) (params : gmap string Value)
    (rawFetchSize : Z) (tx : option internalTx5) (b : bolt5)
  : option ((option nat * option error) * bolt5) :=
  (* If already streaming, consume the whole thing first *)
  let st := state b in
  b ← (if decide (st = bolt5Streaming) then bufferStream fuel b
       else if decide (st = bolt5StreamingTx) then Some (pauseStream b)
       else Some b);
  match (if decide (st = bolt5Streaming \/ st = bolt5StreamingTx) then err b else None) with
  | Some e => Some ((None, Some e), b)
  | None =>
      let (e, b) := assertState [bolt5Tx; bolt5Ready; bolt5StreamingTx] b in
      match e with
      | Some e => Some ((None, Some e), b)
      | None =>
          let fetchSize := normalizeFetchSize rawFetchSize in
          let (stream, b) := alloc_stream fetchSize b in
          let b := queue_appendRun cypher params (toMeta tx) (runResponseHandler stream) b in
          let b := queue_appendPullN fetchSize (pullResponseHandler stream) b in
          let b := queue_send b in
          match err b with
          | Some e => Some ((None, Some e), b)
          | None =>
              (* only read response for RUN *)
              let (e, b) := queue_receive b in
              match e, err b with
              | Some e, _ =>
                  (* rely on RESET to deal with unhandled PULL response *)
                  Some ((None, Some e), b)
              | None, Some e => Some ((None, Some e), b)
              | None, None =>
                  let b := match state b with
                           | bolt5Ready => set_state bolt5Streaming b
                           | bolt5Tx => set_state bolt5StreamingTx b
                           | _ => b
                           end in
                  Some ((Some stream, None), b)
              end
          end
      end
  end.

Definition Run (fuel : nat) (cmd : Command) (txConfig : TxConfig) (b : bolt5)
  : option ((option nat * option error) * bolt5) :=
  let (e, b) := assertState [bolt5Streaming; bolt5Ready] b in
  match e with
  | Some e => Some ((None, Some e), b)
  | None =>
      match checkNotificationFiltering (TxNotificationConfig txConfig) (Version b) with
      | Some e => Some ((None, Some e), b)
      | None =>
          let tx := {| mode := Mode txConfig;
                       bookmarks := Bookmarks txConfig;
                       timeout := Timeout txConfig;
                       txMeta := Meta txConfig;
                       tx_databaseName := databaseName b;
                       impersonatedUser := ImpersonatedUser txConfig;
                       notificationConfig := TxNotificationConfig txConfig |} in
          '(r, b) ← run fuel (Cypher cmd) (Params cmd) (FetchSize cmd) (Some tx) b;
          match r with
          | (_, Some e) => Some ((None, Some e), b)
          | (stream, None) => Some ((stream, None), b)
          end
      end
  end.

Definition RunTx (fuel : nat) (txh : Z) (cmd : Command) (b : bolt5)
  : option ((option nat * option error) * bolt5) :=
  let (e, b) := assertTxHandle (txId b) txh b in
  match e with
  | Some e => Some ((None, Some e), b)
  | None =>
      '(r, b) ← run fuel (Cypher cmd) (Params cmd) (FetchSize cmd) None b;
      match r with
      | (_, Some e) => Some ((None, Some e), b)
      | (stream, None) => Some ((stream, None), b)
      end
  end.

Definition Keys (streamHandle : StreamHandle) (b : bolt5)
  : option (list string) * option error :=
  (* Don't care about if the stream is the current or even if it belongs to
     this connection. Do NOT set b.err for this error *)
  match streams_getUnsafe streamHandle with
  | (Some stream, None) => (Some (s_keys (deref b stream)), None)
  | (_, e) => (None, e)
  end.

Fixpoint Next_loop (fuel : nat) (stream : nat) (b : bolt5)
  : option ((option dbRecord * option Summary * option error) * bolt5) :=
  match fuel with
  | O => None
  | S fuel =>
      let '(buf, rec, sm, e, s') := stream_bufferedNext (deref b stream) in
      let b := store stream s' b in
      if buf then Some ((rec, sm, e), b)
      else
        let endOfBatch := s_endOfBatch (deref b stream) in
        let b := if endOfBatch then queue_send (appendPullN stream b) else b in
        match (if endOfBatch then err b else None) with
        | Some e => Some ((None, None, Some e), b)
        | None =>
            let b := if endOfBatch
                     then update_stream stream (set_s_endOfBatch false) b else b in
            if queue_isEmpty b then Some ((None, None, Some ErrMoreResults), b)
            else
              let (e, b) := queue_receive b in
              match e, err b with
              | Some e, _ => Some ((None, None, Some e), b)
              | None, Some e => Some ((None, None, Some e), b)
              | None, None => Next_loop fuel stream b
              end
        end
  end.

(** Next reads one record from the stream. *)
Definition Next (fuel : nat) (streamHandle : StreamHandle) (b : bolt5)
  : option ((option dbRecord * option Summary * option error) * bolt5) :=
  (* Do NOT set b.err for this error *)
  match streams_getUnsafe streamHandle with
  | (Some stream, None) => Next_loop fuel stream b
  | (_, e) => Some ((None, None, e), b)
  end.

(** What [Consume] and [Buffer] find out about a handle before they drain
    the stream: it is already complete, it is refused with an error, or it is
    live and has been made the current stream. *)
Inductive StreamCheck :=
| StreamComplete (stream : nat)
| StreamRefused (e : option error)
| StreamCurrent (stream : nat).

(** The steps [Consume] and [Buffer] share, up to the call that drains. *)
Definition checkStream (streamHandle : StreamHandle) (b : bolt5) : StreamCheck * bolt5 :=
  (* Do NOT set b.err for this error *)
  match streams_getUnsafe streamHandle with
  | (Some stream, None) =>
      (* If the stream already is complete we don't care about whom it belongs to *)
      if stream_done (deref b stream) then (StreamComplete stream, b)
      else
        (* Make sure the stream is safe (tied to this bolt instance and scope) *)
        match streams_isSafe stream b with
        | Some e => (StreamRefused (Some e), b)
        | None =>
            (* We should be streaming otherwise it is an internal error,
               shouldn't be a safe stream while not streaming. *)
            let (e, b) := assertState [bolt5Streaming; bolt5StreamingTx] b in
            match e with
            | Some e => (StreamRefused (Some e), b)
            | None =>
                (* If the stream isn't current, we need to pause the current one. *)
                if decide (curr (streams b) = Some stream) then (StreamCurrent stream, b)
                else
                  let b := pauseStream b in
                  match err b with
                  | Some e => (StreamRefused (Some e), b)
                  | None => (StreamCurrent stream, resumeStream stream b)
                  end
            end
        end
  | (_, e) => (StreamRefused e, b)
  end.

Definition Consume (fuel : nat) (streamHandle : StreamHandle) (b : bolt5)
  : option ((option Summary * option error) * bolt5) :=
  match checkStream streamHandle b with
  | (StreamComplete stream, b) =>
      Some ((s_sum (deref b stream), s_err (deref b stream)), b)
  | (StreamRefused e, b) => Some ((None, e), b)
  | (StreamCurrent stream, b) =>
      (* If the stream is current, discard everything up to next batch and
         discard the stream on the server. *)
      b ← discardStream fuel b;
      Some ((s_sum (deref b stream), s_err (deref b stream)), b)
  end.

Definition Buffer (fuel : nat) (streamHandle : StreamHandle) (b : bolt5)
  : option (option error * bolt5) :=
  match checkStream streamHandle b with
  | (StreamComplete stream, b) => Some (stream_Err (deref b stream), b)
  | (StreamRefused e, b) => Some (e, b)
  | (StreamCurrent stream, b) =>
      b ← bufferStream fuel b;
      Some (stream_Err (deref b stream), b)
  end.

Definition ServerName (b : bolt5) : string := serverName b.

Definition ServerVersion (b : bolt5) : string := serverVersion b.

Definition Bookmark (b : bolt5) : string := bookmark b.

Definition IsAlive (b : bolt5) : bool := bool_decide (state b <> bolt5Dead).

Definition HasFailed (b : bolt5) : bool := bool_decide (state b = bolt5Failed).

Definition Birthdate (b : bolt5) : Z := birthDate b.

Definition IdleDate (b : bolt5) : Z := idleDate b.

Definition ForceReset (b : bolt5) : bolt5 :=
  if decide (state b = bolt5Dead) then b
  else
    (* Reset any pending error, should be matching bolt5_failed, so
       it should be recoverable. *)
    let b := set_err None b in
    let (e, b) := queue_receiveAll b in
    match e, err b with
    | Some _, _ | None, Some _ => b
    | None, None =>
        let b := queue_appendReset resetResponseHandler b in
        let b := queue_send b in
        match err b with
        | Some _ => b
        | None => snd (queue_receive b)
        end
    end.

(** The deferred function of [Reset]. *)
Definition Reset_deferred (b : bolt5) : bolt5 :=
  let b := log_Debugf "Resetting connection internal state" b in
  let b := set_txId 0 b in
  let b := set_bookmark "" b in
  let b := set_databaseName DefaultDatabase b in
  let b := set_err None b in
  let b := set_lastQid (-1) b in
  streams_reset b.

Definition Reset (b : bolt5) : bolt5 :=
  if decide (state b = bolt5Ready) then
    (* No need for reset *)
    Reset_deferred b
  else
    Reset_deferred (ForceReset b).

Definition GetRoutingTable (routingContext : option (gmap string string))
    (bookmarks_ : list string) (database impersonatedUser_ : string) (b : bolt5)
  : (option RoutingTable * option error) * bolt5 :=
  let (e, b) := assertState [bolt5Ready] b in
  match e with
  | Some e => ((None, Some e), b)
  | None =>
      let b := log_Infof "Retrieving routing table" b in
      let extras : gmap string Value := ∅ in
      let extras := if decide (database = DefaultDatabase) then extras
                    else <["db" := VStr database]> extras in
      let extras := if decide (impersonatedUser_ = "") then extras
                    else <["imp_user" := VStr impersonatedUser_]> extras in
      let b := set_routingSlot None b in
      let b := queue_appendRoute routingContext bookmarks_ extras routeResponseHandler b in
      let b := queue_send b in
      match err b with
      | Some e => ((None, Some e), b)
      | None =>
          let (e, b) := queue_receiveAll b in
          match e, err b with
          | Some e, _ => ((None, Some e), b)
          | None, Some e => ((None, Some e), b)
          | None, None => ((routingSlot b, None), b)
          end
      end
  end.

(** Close closes the underlying connection. *)
Definition Close (b : bolt5) : bolt5 :=
  let b := log_Infof "Close" b in
  let b := if decide (state b = bolt5Dead) then b
           else queue_send (queue_appendGoodbye b) in
  let b := set_conn (set_closed true (conn b)) b in
  set_state bolt5Dead b.

Definition SelectDatabase (database : string) (b : bolt5) : bolt5 :=
  set_databaseName database b.

End Bolt5.

(** ** Example connections

    A peer that answers as scripted, and the connections reached by driving
    the operations against it. *)

Definition no_filtering : NotificationFiltering :=
  {| NotificationConfig := unit;
     checkNotificationFiltering := fun _ _ => None;
     NotificationConfig_ToMeta := fun _ meta => meta |}.

Definition peer (script : list InEvent) : netConn :=
  {| incoming := script; written := []; writeErr := None; closed := false |}.

Definition plain_success : success :=
  {| m_fields := []; m_tfirst := 0; m_qid := -1; m_bookmark := "";
     m_connectionId := "bolt-7"; m_server := "Neo4j/5.13.0"; m_hasMore := false;
     m_configurationHints := ∅; m_routingTable := None |}.

Definition run_success (q : Z) : success :=
  {| m_fields := ["n"]; m_tfirst := 3; m_qid := q; m_bookmark := "";
     m_connectionId := ""; m_server := ""; m_hasMore := false;
     m_configurationHints := ∅; m_routingTable := None |}.

Definition pull_success (more : bool) (bm : string) : success :=
  {| m_fields := []; m_tfirst := 0; m_qid := -1; m_bookmark := bm;
     m_connectionId := ""; m_server := ""; m_hasMore := more;
     m_configurationHints := ∅; m_routingTable := None |}.

Definition one_record : dbRecord := {| rec_Values := [VInt 1]; rec_Keys := [] |}.

Definition syntax_error : Neo4jError :=
  {| Code := "Neo.ClientError.Statement.SyntaxError"; Msg := "Invalid input";
     Classification := "ClientError" |}.

Definition default_config : @TxConfig no_filtering :=
  {| Mode := WriteMode; Bookmarks := []; Timeout := 0; Meta := ∅;
     ImpersonatedUser := "";
     TxNotificationConfig := (tt : @NotificationConfig no_filtering) |}.

Definition return_one : Command :=
  {| Cypher := "RETURN 1"; Params := ∅; FetchSize := 0 |}.

(** The connection after a handshake at protocol 5.4; [script] is what the
    peer sends after the handshake. *)
Definition connected (script : list InEvent) : bolt5 :=
  snd (Connect (H := no_filtering) 4 ∅ "agent/1.0" None tt
         (NewBolt5 "db.example"
            (peer (Received (RspSuccess plain_success)
                   :: Received (RspSuccess plain_success) :: script))
            1700000000000000000)).

(** The connection an operation leaves behind ([b] itself if the operation
    ran out of fuel). *)
Definition after {R : Type} (b : bolt5) (r : option (R * bolt5)) : bolt5 :=
  match r with
  | Some (_, b') => b'
  | None => b
  end.

(** Ready, with the answers to one auto-commit query on their way. *)
Definition ready_conn : bolt5 :=
  connected [Received (RspSuccess (run_success (-1)));
             Received (RspRecord one_record);
             Received (RspSuccess (pull_success false "bm:1"))].

(** Streaming an auto-commit query whose only batch is on its way. *)
Definition streaming_conn : bolt5 :=
  after ready_conn (Run (H := no_filtering) 5 return_one default_config ready_conn).

(** Failed by a query the server rejected as a client error. *)
Definition failed_conn : bolt5 :=
  let b := connected [Received (RspFailure syntax_error); Received RspIgnored] in
  after b (Run (H := no_filtering) 5 return_one default_config b).

(** Ready again after a committed transaction that ran one query. *)
Definition committed_conn : bolt5 :=
  let b := connected [Received (RspSuccess plain_success);
                      Received (RspSuccess (run_success 0));
                      Received (RspSuccess (pull_success false ""));
                      Received (RspSuccess (pull_success false "bm:42"));
                      Received (RspSuccess (run_success (-1)));
                      Received (RspSuccess (pull_success true ""))] in
  let b := after b (TxBegin (H := no_filtering) 5 default_config b) in
  let b := after b (RunTx (H := no_filtering) 5 (txId b) return_one b) in
  after b (TxCommit 5 (txId b) b).

(** Inside a transaction that has run one query and not read its result. *)
Definition in_tx_conn : bolt5 :=
  let b := connected [Received (RspSuccess plain_success);
                      Received (RspSuccess (run_success 0));
                      Received (RspRecord one_record);
                      Received (RspSuccess (pull_success false ""))] in
  let b := after b (TxBegin (H := no_filtering) 5 default_config b) in
  after b (RunTx (H := no_filtering) 5 (txId b) return_one b).

(** Then streaming an auto-commit query. *)
Definition auto_after_tx_conn : bolt5 :=
  after committed_conn
    (Run (H := no_filtering) 5 return_one default_config committed_conn).

(** The same connection as [Next] finds it once the answer to the first PULL
    has been received: the first batch has ended. *)
Definition second_batch_conn : bolt5 := snd (queue_receiveAll auto_after_tx_conn).

(** Failed by a rejected query, after an earlier query was consumed to its
    summary. *)
Definition failed_after_stream_conn : bolt5 :=
  let b := connected [Received (RspSuccess (run_success (-1)));
                      Received (RspRecord one_record);
                      Received (RspSuccess (pull_success false "bm:1"));
                      Received (RspFailure syntax_error); Received RspIgnored] in
  let b := after b (Run (H := no_filtering) 5 return_one default_config b) in
  let b := after b (Consume 5 (HandleStream 0) b) in
  after b (Run (H := no_filtering) 5 return_one default_config b).

(** ** Stages and views used in the proofs *)

(** The error part of [setError], before the current stream is told. *)
Definition setError_record (e : error) (fatal : bool) (b : bolt5) : bolt5 :=
  let b := match err b with
           | None => set_state bolt5Failed (set_err (Some e) b)
           | Some _ => b
           end in
  if fatal then
    let (ctxErr, c) := handleTerminatedContextError e (conn b) in
    let b := set_conn c b in
    let b := match ctxErr with
             | Some ce => set_err (Some ce) b
             | None => b
             end in
    set_state bolt5Dead b
  else b.

(** Telling the current stream, and the log entry. *)
Definition setError_forward (e : error) (b : bolt5) : bolt5 :=
  match curr (streams b) with
  | Some _ => checkStreams (streams_detach None (Some e) b)
  | None => b
  end.

Definition setError_log (e : error) (b : bolt5) : bolt5 :=
  match e with
  | ErrNeo4j ne =>
      if String.eqb (Classification ne) "ClientError" then log_Debugf_err e b
      else log_Error e b
  | _ => log_Error e b
  end.

(** What a refused call may not touch: the state, the stored error, the
    socket and the message queue. *)
Definition untouched (b b' : bolt5) : Prop :=
  state b' = state b /\ err b' = err b /\ conn b' = conn b /\ queue b' = queue b.

(** The bookmark a response hands to the handler that receives it: the
    non-empty bookmark of a commit success, or of a pull or discard success
    that ends its stream. *)
Definition carried_bookmark (h : responseHandler) (m : Response) : option string :=
  match m with
  | RspSuccess s =>
      if decide (m_bookmark s = "") then None
      else match h with
           | commitResponseHandler => Some (m_bookmark s)
           | pullResponseHandler _ | discardResponseHandler _ =>
               if m_hasMore s then None else Some (m_bookmark s)
           | _ => None
           end
  | _ => None
  end.

(** [b'] has the bookmark and the undelivered inbound messages of [b]. *)
Definition bookmark_kept (b b' : bolt5) : Prop :=
  bookmark b' = bookmark b /\ incoming (conn b') = incoming (conn b).

(** A socket that is open and accepts writes. *)
Definition healthy (b : bolt5) : Prop :=
  closed (conn b) = false /\ writeErr (conn b) = None.

(** Nothing is appended and no response is awaited. *)
Definition idle (b : bolt5) : Prop :=
  pending (queue b) = [] /\ handlers (queue b) = [].

(** A stored error means that the connection is down (Failed or Dead); and
    no answer to a RESET is awaited. *)
Definition error_means_down (b : bolt5) : Prop :=
  (err b <> None -> state b = bolt5Failed \/ state b = bolt5Dead) /\
  resetResponseHandler ∉ handlers (queue b).

(** One call of an operation of the connection, [Reset] and [ForceReset]
    apart; an operation that runs out of fuel makes no call. *)
Inductive call `{NotificationFiltering} (b : bolt5) : bolt5 -> Prop :=
  | call_Connect minor_ auth userAgent routingContext notifications e b' :
      Connect minor_ auth userAgent routingContext notifications b = (e, b') ->
      call b b'
  | call_TxBegin fuel txConfig r b' :
      TxBegin fuel txConfig b = Some (r, b') -> call b b'
  | call_TxCommit fuel txh e b' :
      TxCommit fuel txh b = Some (e, b') -> call b b'
  | call_TxRollback fuel txh e b' :
      TxRollback fuel txh b = Some (e, b') -> call b b'
  | call_Run fuel cmd txConfig r b' :
      Run fuel cmd txConfig b = Some (r, b') -> call b b'
  | call_RunTx fuel txh cmd r b' :
      RunTx fuel txh cmd b = Some (r, b') -> call b b'
  | call_Next fuel streamHandle r b' :
      Next fuel streamHandle b = Some (r, b') -> call b b'
  | call_Consume fuel streamHandle r b' :
      Consume fuel streamHandle b = Some (r, b') -> call b b'
  | call_Buffer fuel streamHandle r b' :
      Buffer fuel streamHandle b = Some (r, b') -> call b b'
  | call_GetRoutingTable routingContext bookmarks_ database user r b' :
      GetRoutingTable routingContext bookmarks_ database user b = (r, b') ->
      call b b'
  | call_SelectDatabase database : call b (SelectDatabase database b)
  | call_Close : call b (Close b).

(** The connection on which the callback for a received message runs: the
    message is taken off the socket, the idle date is refreshed and the first
    awaited handler is taken off the queue, leaving [hs]. *)
Definition taken (rest : list InEvent) (hs : list responseHandler) (b : bolt5) : bolt5 :=
  let b := onNextMessage (set_conn (set_incoming rest (conn b)) b) in
  set_queue (set_handlers hs (queue b)) b.

(** The record the PULL handler buffers for one received: its values, under
    the keys of the stream. *)
Definition keyed (keys : list string) (r : dbRecord) : dbRecord :=
  {| rec_Values := rec_Values r; rec_Keys := keys |}.

(** A connection whose only stream is [p], unfinished, with the answer to its
    PULL as the one awaited, on an open socket and with no stored error. *)
Definition streaming_only (p : nat) (b : bolt5) : Prop :=
  closed (conn b) = false /\ err b = None /\
  (state b = bolt5Streaming \/ state b = bolt5StreamingTx) /\
  curr (streams b) = Some p /\ num (streams b) = 1 /\
  (p < length (heap b))%nat /\
  s_sum (deref b p) = None /\ s_err (deref b p) = None /\
  handlers (queue b) = [pullResponseHandler p].

(** What the peer sends to finish a stream: the records, then a SUCCESS. *)
Definition records_then (recs : list dbRecord) (s : success) (rest : list InEvent)
  : list InEvent :=
  (map (fun r => Received (RspRecord r)) recs ++ Received (RspSuccess s) :: rest)%list.

(** The summary of a stream of [b] finished by the SUCCESS [s]. *)
Definition summary_of (s : success) (p : nat) (b : bolt5) : Summary :=
  {| sum_Bookmark := m_bookmark s;
     sum_Agent := serverVersion b;
     sum_Major := 5;
     sum_Minor := minor b;
     sum_ServerName := serverName b;
     sum_TFirst := s_tfirst (deref b p) |}.

(** A read transaction of 2.5 s on the database [movies]. *)
Definition read_tx : @internalTx5 no_filtering :=
  {| mode := ReadMode; bookmarks := ["bm:1"]; timeout := 2500000000; txMeta := ∅;
     tx_databaseName := "movies"; impersonatedUser := "";
     notificationConfig := (tt : @NotificationConfig no_filtering) |}.

(** The answer to HELLO of a server that asks for a read timeout of 30 s. *)
Definition hinted_success : success :=
  {| m_fields := []; m_tfirst := 0; m_qid := -1; m_bookmark := "";
     m_connectionId := "bolt-7"; m_server := "Neo4j/5.13.0"; m_hasMore := false;
     m_configurationHints := {[ readTimeoutHintName := VInt 30 ]};
     m_routingTable := None |}.

(** A connection before its handshake, with the two answers to it on their
    way. *)
Definition fresh_conn : bolt5 :=
  NewBolt5 "db.example"
    (peer [Received (RspSuccess plain_success); Received (RspSuccess plain_success)])
    1700000000000000000.

(** A connection that has been closed. *)
Definition closed_conn : bolt5 := Close ready_conn.

(** Ready, with one SUCCESS on its way. *)
Definition answered_conn : bolt5 := connected [Received (RspSuccess plain_success)].

(** Inside a transaction that has run one query; the end of its result and
    the answer to COMMIT are on their way. *)
Definition committing_conn : bolt5 :=
  let b := connected [Received (RspSuccess plain_success);
                      Received (RspSuccess (run_success 0));
                      Received (RspSuccess (pull_success false ""));
                      Received (RspSuccess (pull_success false "bm:42"))] in
  let b := after b (TxBegin (H := no_filtering) 5 default_config b) in
  after b (RunTx (H := no_filtering) 5 (txId b) return_one b).

(** Failed by a rejected query, the IGNORED answer to its PULL received; the
    peer will answer SUCCESS to a RESET. *)
Definition recoverable_conn : bolt5 :=
  let b := connected [Received (RspFailure syntax_error); Received RspIgnored;
                      Received (RspSuccess plain_success)] in
  let b := after b (Run (H := no_filtering) 5 return_one default_config b) in
  snd (queue_receiveAll b).


(** Since [b0] the connection has written, and has pending, only requests
    that satisfy [P]. *)
Definition sent_within (P : Request -> Prop) (b0 b : bolt5) : Prop :=
  (exists sent, written (conn b) = (written (conn b0) ++ sent)%list /\ Forall P sent) /\
  Forall P (pending (queue b)).

(** The bookmark of [b] lies within [S]; every awaited handler is in [K]; and
    every bookmark that a success still to be delivered would carry to a
    handler in [K] lies within [S]. *)
Definition bookmark_ruled (K : responseHandler -> Prop) (S : string -> Prop)
    (b : bolt5) : Prop :=
  S (bookmark b) /\
  (forall h, h ∈ handlers (queue b) -> K h) /\
  (forall h s bm, K h -> Received (RspSuccess s) ∈ incoming (conn b) ->
     carried_bookmark h (RspSuccess s) = Some bm -> S bm).

(** [b'] has the bookmark of [b], or the one that a success still to be
    delivered to [b] carries to a handler in [K]: a commit handler, or a pull
    or discard handler whose success ends the stream. *)
Definition bookmark_carried (K : responseHandler -> Prop) (b b' : bolt5) : Prop :=
  bookmark b' = bookmark b \/
  exists h s, K h /\ Received (RspSuccess s) ∈ incoming (conn b) /\
              carried_bookmark h (RspSuccess s) = Some (bookmark b').

(** The handlers whose answers never carry a bookmark. *)
Definition carries_nothing (h : responseHandler) : Prop :=
  forall m, carried_bookmark h m = None.

(** ** Properties *)

Section Properties.

Context `{NotificationFiltering}.

(* The proofs go through these by their lemmas, not by computation. *)
#[local] Arguments setError : simpl never.
#[local] Arguments checkStreams : simpl never.
#[local] Arguments queue_send : simpl never.
#[local] Arguments queue_receive : simpl never.
#[local] Arguments queue_receiveAll : simpl never.
#[local] Arguments dispatch : simpl never.
#[local] Arguments streamSuccess : simpl never.
#[local] Arguments streamIgnored : simpl never.
#[local] Arguments streams_reset : simpl never.

(** *** Fetch size *)

(** C9. The fetch size [run] requests is -1 for a negative raw fetch size,
    the default 1000 for zero, and the raw fetch size itself when positive. *)
Theorem normalizeFetchSize_cases (rawFetchSize : Z) :
  (rawFetchSize < 0 -> normalizeFetchSize rawFetchSize = -1) /\
  (rawFetchSize = 0 -> normalizeFetchSize rawFetchSize = 1000) /\
  (0 < rawFetchSize -> normalizeFetchSize rawFetchSize = rawFetchSize).
Proof.
  unfold normalizeFetchSize, bolt5FetchSize.
  destruct (Z.ltb_spec rawFetchSize 0) as [Hneg | Hnonneg];
    destruct (Z.eqb_spec rawFetchSize 0) as [Hzero | Hnonzero];
    repeat split; intros; lia.
Qed.

(** *** The sticky error *)

Lemma checkStreams_err (b : bolt5) : err (checkStreams b) = err b.
Proof. unfold checkStreams. repeat case_match; reflexivity. Qed.

Lemma checkStreams_settled (b : bolt5) :
  state b <> bolt5Streaming -> state b <> bolt5StreamingTx -> checkStreams b = b.
Proof. unfold checkStreams. intros. repeat case_match; congruence. Qed.

Lemma streams_detach_state_err (sm : option Summary) (e : option error) (b : bolt5) :
  state (streams_detach sm e b) = state b /\ err (streams_detach sm e b) = err b.
Proof. unfold streams_detach. case_match; split; reflexivity. Qed.

Lemma setError_stages (e : error) (fatal : bool) (b : bolt5) :
  setError (Some e) fatal b =
  setError_log e (setError_forward e (setError_record e fatal b)).
Proof. reflexivity. Qed.

Lemma setError_log_frame (e : error) (b : bolt5) :
  exists l, setError_log e b = set_log l b.
Proof.
  unfold setError_log, log_Debugf_err, log_Error.
  destruct e; try case_match; eexists; reflexivity.
Qed.

Lemma setError_state_err (e : error) (fatal : bool) (b : bolt5) :
  state (setError (Some e) fatal b) =
    state (setError_forward e (setError_record e fatal b)) /\
  err (setError (Some e) fatal b) = err (setError_record e fatal b).
Proof.
  rewrite setError_stages.
  destruct (setError_log_frame e (setError_forward e (setError_record e fatal b)))
    as [l ->].
  split; [reflexivity|]. simpl.
  unfold setError_forward. case_match; [|reflexivity].
  rewrite checkStreams_err. apply streams_detach_state_err.
Qed.

(** Once [setError] has recorded an error the connection is failed or dead. *)
Lemma setError_record_err (e : error) (fatal : bool) (b : bolt5) :
  err (setError_record e fatal b) <> None.
Proof.
  unfold setError_record.
  destruct (err b) eqn:Hb, fatal; simpl;
    try destruct (handleTerminatedContextError _ _) as [[ce|] c]; simpl;
    rewrite ?Hb; congruence.
Qed.

Lemma setError_err (e : error) (fatal : bool) (b : bolt5) :
  err (setError (Some e) fatal b) <> None.
Proof.
  destruct (setError_state_err e fatal b) as [_ ->]. apply setError_record_err.
Qed.

Lemma setError_forward_settled (e : error) (b : bolt5) :
  state b = bolt5Failed \/ state b = bolt5Dead ->
  state (setError_forward e b) = state b.
Proof.
  intros Hfd. unfold setError_forward. case_match; [|reflexivity].
  destruct (streams_detach_state_err None (Some e) b) as [Hs _].
  rewrite checkStreams_settled; [exact Hs| |]; rewrite Hs; destruct Hfd; congruence.
Qed.

Lemma setError_failed_or_dead (e : error) (fatal : bool) (b : bolt5) :
  (err b <> None -> state b = bolt5Failed \/ state b = bolt5Dead) ->
  err (setError (Some e) fatal b) <> None /\
  (state (setError (Some e) fatal b) = bolt5Failed \/
   state (setError (Some e) fatal b) = bolt5Dead).
Proof.
  intros Hinv.
  destruct (setError_state_err e fatal b) as [Hst Her].
  rewrite Hst, Her. clear Hst Her.
  assert (Hrec : err (setError_record e fatal b) <> None /\
                 (state (setError_record e fatal b) = bolt5Failed \/
                  state (setError_record e fatal b) = bolt5Dead)).
  { unfold setError_record.
    destruct (err b) eqn:Hb, fatal; simpl;
      try destruct (handleTerminatedContextError _ _) as [[ce|] c]; simpl;
      rewrite ?Hb; split; try congruence; auto.
    all: apply Hinv; congruence. }
  destruct Hrec as [Hne Hfd]. split; [exact Hne|].
  rewrite setError_forward_settled; assumption.
Qed.

(** C7 (amended). When an error is already stored, a later recoverable error
    leaves err as it is, and state too on a connection that is Failed or Dead
    (as setError leaves it); a later fatal error sets state to Dead and
    leaves the stored error in place, unless it is a terminated-context
    error, in which case the wrapped context error that
    handleTerminatedContextError returns is stored. *)
Theorem setError_first_writer_wins (b : bolt5) (e0 e : error) :
  err b = Some e0 ->
  (err (setError (Some e) false b) = Some e0 /\
   (state b = bolt5Failed \/ state b = bolt5Dead ->
    state (setError (Some e) false b) = state b)) /\
  (state (setError (Some e) true b) = bolt5Dead /\
   err (setError (Some e) true b) =
     match fst (handleTerminatedContextError e (conn b)) with
     | Some ctxErr => Some ctxErr
     | None => Some e0
     end).
Proof.
  intros Hb.
  split; [split|split].
  - destruct (setError_state_err e false b) as [_ ->].
    unfold setError_record. rewrite Hb. exact Hb.
  - intros Hfd. destruct (setError_state_err e false b) as [-> _].
    unfold setError_record. rewrite Hb. apply setError_forward_settled, Hfd.
  - destruct (setError_state_err e true b) as [-> _].
    rewrite setError_forward_settled; unfold setError_record; rewrite Hb;
      destruct (handleTerminatedContextError e (conn b)) as [[ce|] c]; simpl; auto.
  - destruct (setError_state_err e true b) as [_ ->].
    unfold setError_record. rewrite Hb.
    destruct (handleTerminatedContextError e (conn b)) as [[ce|] c]; simpl; auto.
Qed.

(** *** Streams on the heap *)

Lemma deref_store (b : bolt5) (p : nat) (s : stream) :
  (p < length (heap b))%nat -> deref (store p s b) p = s.
Proof.
  intros Hp. unfold deref, store. simpl.
  rewrite list_lookup_insert_eq by exact Hp. reflexivity.
Qed.

Lemma store_length (b : bolt5) (p : nat) (s : stream) :
  length (heap (store p s b)) = length (heap b).
Proof. unfold store. simpl. apply length_insert. Qed.

Lemma deref_update_stream (b : bolt5) (p : nat) (f : stream -> stream) :
  (p < length (heap b))%nat -> deref (update_stream p f b) p = f (deref b p).
Proof. intros Hp. unfold update_stream. apply deref_store, Hp. Qed.

Lemma update_stream_length (b : bolt5) (p : nat) (f : stream -> stream) :
  length (heap (update_stream p f b)) = length (heap b).
Proof. apply store_length. Qed.

(** *** The state machine *)

Lemma checkStreams_state (b : bolt5) :
  state (checkStreams b) =
  if (num (streams b) <=? 0)%Z then
    match state b with
    | bolt5StreamingTx => bolt5Tx
    | bolt5Streaming => bolt5Ready
    | st => st
    end
  else state b.
Proof.
  unfold checkStreams. destruct (_ <=? _)%Z; [|reflexivity].
  destruct (state b) eqn:Hst; simpl; congruence.
Qed.

Lemma checkStreams_frame (b : bolt5) : checkStreams b = set_state (state (checkStreams b)) b.
Proof.
  unfold checkStreams. destruct b as [st]. simpl.
  destruct (_ <=? _)%Z; [destruct st|]; reflexivity.
Qed.

Lemma deref_checkStreams (b : bolt5) (p : nat) : deref (checkStreams b) p = deref b p.
Proof. rewrite checkStreams_frame. reflexivity. Qed.

Lemma streams_remove_deref (p : nat) (b : bolt5) :
  (p < length (heap b))%nat -> deref (streams_remove p b) p = set_s_key 0 (deref b p).
Proof.
  intros Hp. unfold streams_remove.
  change (deref (update_stream p (set_s_key 0) b) p = set_s_key 0 (deref b p)).
  apply deref_update_stream, Hp.
Qed.

Lemma streams_remove_frame (p : nat) (b : bolt5) :
  num (streams (streams_remove p b)) = num (streams b) - 1 /\
  curr (streams (streams_remove p b)) =
    (if decide (curr (streams b) = Some p) then None else curr (streams b)) /\
  key (streams (streams_remove p b)) = key (streams b) /\
  state (streams_remove p b) = state b /\
  bookmark (streams_remove p b) = bookmark b.
Proof. unfold streams_remove. simpl. case_decide; simpl; tauto. Qed.

(** *** Pull success *)

(** C3. A PULL success handed to a pull response handler: with has_more it
    sets the stream's endOfBatch flag, stores no summary and leaves the
    registry (and state and bookmark) as they are; without has_more it stores
    the terminal summary built from the success, takes a non-empty bookmark
    over, removes the stream from the registry (one stream fewer, no longer
    current, its key withdrawn) and recomputes the state from the new
    stream count. *)
Theorem pull_success_batches (b : bolt5) (stream : nat) (s : success) :
  (stream < length (heap b))%nat ->
  let b' := dispatch (pullResponseHandler stream) (RspSuccess s) b in
  if m_hasMore s then
    s_endOfBatch (deref b' stream) = true /\
    s_sum (deref b' stream) = s_sum (deref b stream) /\
    streams b' = streams b /\
    state b' = state b /\
    bookmark b' = bookmark b
  else
    s_sum (deref b' stream) =
      Some {| sum_Bookmark := m_bookmark s;
              sum_Agent := serverVersion b;
              sum_Major := 5;
              sum_Minor := minor b;
              sum_ServerName := serverName b;
              sum_TFirst := s_tfirst (deref b stream) |} /\
    bookmark b' = (if decide (m_bookmark s = "") then bookmark b else m_bookmark s) /\
    num (streams b') = num (streams b) - 1 /\
    curr (streams b') = (if decide (curr (streams b) = Some stream) then None
                         else curr (streams b)) /\
    s_key (deref b' stream) = 0 /\
    state b' = (if (num (streams b) - 1 <=? 0)%Z then
                  match state b with
                  | bolt5StreamingTx => bolt5Tx
                  | bolt5Streaming => bolt5Ready
                  | st => st
                  end
                else state b).
Proof.
  intros Hp b'. subst b'. unfold dispatch. simpl. unfold pullSuccess.
  set (b1 := if s_discarding (deref b stream) then _ else b).
  assert (Hlen : (stream < length (heap b1))%nat).
  { subst b1. case_match; [rewrite update_stream_length|]; exact Hp. }
  assert (Hb1 : state b1 = state b /\ streams b1 = streams b /\
                bookmark b1 = bookmark b /\ serverVersion b1 = serverVersion b /\
                minor b1 = minor b /\ serverName b1 = serverName b /\
                s_sum (deref b1 stream) = s_sum (deref b stream) /\
                s_tfirst (deref b1 stream) = s_tfirst (deref b stream)).
  { subst b1. case_match; [|tauto].
    rewrite deref_update_stream by exact Hp. simpl. tauto. }
  destruct Hb1 as (Hst & Hstr & Hbm & Hsv & Hmi & Hsn & Hsum & Htf).
  unfold streamSuccess. destruct (m_hasMore s).
  - rewrite deref_update_stream by exact Hlen. simpl. tauto.
  - unfold extractSummary, success_summary. simpl.
    set (sm := {| sum_Bookmark := m_bookmark s; sum_Agent := serverVersion b1;
                  sum_Major := 5; sum_Minor := minor b1;
                  sum_ServerName := serverName b1;
                  sum_TFirst := s_tfirst (deref b1 stream) |}).
    set (b2 := if (0 <? Z.of_nat (String.length (m_bookmark s)))%Z then _ else b1).
    assert (Hb2 : heap b2 = heap b1 /\ streams b2 = streams b1 /\ state b2 = state b1 /\
                  bookmark b2 = (if decide (m_bookmark s = "") then bookmark b
                                 else m_bookmark s)).
    { subst b2. destruct (m_bookmark s) eqn:Hm; simpl; repeat split; try tauto.
      all: case_decide; congruence. }
    destruct Hb2 as (Hh2 & Hstr2 & Hst2 & Hbm2).
    assert (Hlen2 : (stream < length (heap b2))%nat) by (rewrite Hh2; exact Hlen).
    assert (Hd2 : deref b2 stream = deref b1 stream) by (unfold deref; rewrite Hh2; reflexivity).
    set (b3 := update_stream stream (set_s_sum (Some sm)) b2).
    assert (Hlen3 : (stream < length (heap b3))%nat)
      by (subst b3; rewrite update_stream_length; exact Hlen2).
    rewrite checkStreams_state, deref_checkStreams.
    rewrite streams_remove_deref by exact Hlen3.
    rewrite (checkStreams_frame (streams_remove stream b3)).
    cbn [bookmark streams set_state].
    destruct (streams_remove_frame stream b3) as (-> & -> & _ & -> & ->).
    subst b3. rewrite deref_update_stream by exact Hlen2.
    cbn [update_stream store set_heap streams state bookmark s_sum s_key set_s_key
         set_s_sum].
    rewrite Hstr2, Hstr, Hst2, Hst, Hbm2.
    subst sm. rewrite Hsv, Hmi, Hsn, Htf.
    repeat split; reflexivity.
Qed.

(** *** Qualified and unqualified pulls and discards *)

Lemma app_singleton_inv {A : Type} (l : list A) (x y : A) :
  (l ++ [x] = l ++ [y])%list -> x = y.
Proof. intros Heq. apply app_inv_head in Heq. congruence. Qed.

Lemma app_singleton_neq {A : Type} (l : list A) (x : A) : (l <> l ++ [x])%list.
Proof.
  intros Heq. apply (f_equal length) in Heq.
  rewrite length_app in Heq. simpl in Heq. lia.
Qed.

Lemma appendPullN_pending (b : bolt5) (stream : nat) :
  pending (queue (appendPullN stream b)) =
  (pending (queue b) ++
   match state b with
   | bolt5Streaming => [MsgPullN (s_fetchSize (deref b stream))]
   | bolt5StreamingTx =>
       [if decide (s_qid (deref b stream) = lastQid b)
        then MsgPullN (s_fetchSize (deref b stream))
        else MsgPullNQid (s_fetchSize (deref b stream)) (s_qid (deref b stream))]
   | _ => []
   end)%list.
Proof.
  unfold appendPullN, queue_appendPullN, queue_appendPullNQid, enqueue.
  destruct (state b); try case_decide; simpl; rewrite ?app_nil_r; reflexivity.
Qed.

(** What reaches the socket: only [queue_send] writes. *)
Lemma checkStreams_conn (b : bolt5) : conn (checkStreams b) = conn b.
Proof. rewrite checkStreams_frame. reflexivity. Qed.

Lemma setError_written (e : option error) (fatal : bool) (b : bolt5) :
  written (conn (setError e fatal b)) = written (conn b).
Proof.
  destruct e as [e|]; [|reflexivity].
  rewrite setError_stages.
  destruct (setError_log_frame e (setError_forward e (setError_record e fatal b)))
    as [l ->].
  cbn [conn set_log].
  assert (Hrec : written (conn (setError_record e fatal b)) = written (conn b)).
  { unfold setError_record, handleTerminatedContextError.
    repeat case_match; simplify_eq; reflexivity. }
  unfold setError_forward. case_match; [|exact Hrec].
  rewrite checkStreams_conn. unfold streams_detach. case_match; exact Hrec.
Qed.

Lemma streamSuccess_written (stream : nat) (s : success) (b : bolt5) :
  written (conn (streamSuccess stream s b)) = written (conn b).
Proof.
  unfold streamSuccess. case_match; [reflexivity|].
  rewrite checkStreams_conn. cbn. case_match; reflexivity.
Qed.

Lemma dispatch_written (h : responseHandler) (m : Response) (b : bolt5) :
  written (conn (dispatch h m b)) = written (conn b).
Proof.
  destruct h, m; unfold dispatch;
    cbn [callbacks_of expectedSuccessHandler onSuccess onRecord onFailure_cb
         onIgnored onUnknown_cb];
    unfold onFailure, onUnknown, streamFailure, streamUnknown, onSuccessNoOp,
      onIgnoredNoOp, routeSuccess, discardSuccess, pullSuccess, pullRecord,
      streamIgnored, runSuccess, streams_attach, onHelloSuccess,
      initializeReadTimeoutHint, onCommitSuccess;
    rewrite ?setError_written, ?streamSuccess_written, ?checkStreams_conn;
    repeat case_match; reflexivity.
Qed.

Lemma queue_receive_written (b b' : bolt5) (e : option error) :
  queue_receive b = (e, b') -> written (conn b') = written (conn b).
Proof.
  unfold queue_receive, conn_Read, onNextMessageError. intros Heq.
  repeat case_match; simplify_eq;
    rewrite ?setError_written, ?dispatch_written; reflexivity.
Qed.

Lemma queue_send_written (b : bolt5) :
  err (queue_send b) = None ->
  written (conn (queue_send b)) = (written (conn b) ++ pending (queue b))%list.
Proof.
  unfold queue_send, conn_Write.
  destruct (pending (queue b)) as [|m msgs] eqn:Hp; [rewrite app_nil_r; reflexivity|].
  repeat case_match; simplify_eq; try reflexivity;
    intros Herr; exfalso; exact (setError_err _ _ _ Herr).
Qed.

(** *** Reset *)

(** C6 (amended). Reset on a Ready connection performs no wire I/O and leaves
    state Ready, but its deferred cleanup still runs: txId, bookmark,
    databaseName, err and lastQid return to their initial values and the
    registry is reset under a new key. A second Reset changes none of these
    again except the registry key. *)
Theorem Reset_when_ready (b : bolt5) :
  state b = bolt5Ready ->
  let b' := Reset b in
  (conn b' = conn b /\ queue b' = queue b) /\
  (state b' = bolt5Ready /\ txId b' = 0 /\ bookmark b' = "" /\
   databaseName b' = DefaultDatabase /\ err b' = None /\ lastQid b' = -1 /\
   streams b' = {| curr := None; num := 0; key := now b |}) /\
  let b'' := Reset b' in
  conn b'' = conn b' /\ queue b'' = queue b' /\ heap b'' = heap b' /\
  state b'' = state b' /\ txId b'' = txId b' /\ bookmark b'' = bookmark b' /\
  databaseName b'' = databaseName b' /\ err b'' = err b' /\
  lastQid b'' = lastQid b' /\
  curr (streams b'') = curr (streams b') /\ num (streams b'') = num (streams b').
Proof.
  intros Hready. unfold Reset.
  destruct (decide (state b = bolt5Ready)) as [_|Hne]; [|contradiction].
  cbv zeta. unfold Reset_deferred at 2 3 4 5 6 7 8 9 10.
  simpl. rewrite Hready.
  split; [tauto|]. split; [tauto|].
  destruct (decide (bolt5Ready = bolt5Ready)) as [_|Hne]; [|contradiction].
  simpl. tauto.
Qed.

(** *** TxBegin outside Ready *)

(** C10. TxBegin resets the stream registry before it checks the state: in
    any state but Ready and Streaming, and with no stored error, it returns
    an invalid-state error and leaves state and err as they were, yet the
    registry is empty under a new key read from the clock, so that every
    stream that was safe is unsafe afterwards. *)
Theorem TxBegin_resets_before_assert (fuel : nat) (txConfig : TxConfig) (b : bolt5) :
  err b = None ->
  state b <> bolt5Ready ->
  state b <> bolt5Streaming ->
  key (streams b) < now b ->
  exists b',
    TxBegin fuel txConfig b =
      Some ((0, Some (ErrInvalidState (state b) [bolt5Ready])), b') /\
    state b' = state b /\ err b' = None /\
    streams b' = {| curr := None; num := 0; key := now b |} /\
    heap b' = heap b /\
    forall stream : nat,
      streams_isSafe stream b = None ->
      streams_isSafe stream b' = Some ErrInvalidStream.
Proof.
  intros Herr Hready Hstreaming Hclock.
  unfold TxBegin.
  rewrite bool_decide_eq_false_2 by exact Hstreaming. simpl.
  unfold assertState. simpl. rewrite Herr.
  destruct (decide (state b ∈ [bolt5Ready])) as [Hin|_].
  { apply list_elem_of_singleton in Hin. contradiction. }
  eexists. split; [reflexivity|]. simpl.
  repeat split; try assumption.
  intros stream. unfold streams_isSafe, deref. simpl.
  repeat case_decide; try congruence; lia.
Qed.

(** *** Gated operations on a connection with a stored error *)

Lemma assertState_sticky (allowed : list State) (b : bolt5) (e : error) :
  err b = Some e -> assertState allowed b = (Some e, b).
Proof. intros Herr. unfold assertState. rewrite Herr. reflexivity. Qed.

Lemma assertTxHandle_same (h : Z) (b : bolt5) : assertTxHandle h h b = (None, b).
Proof. unfold assertTxHandle. case_decide; [reflexivity|contradiction]. Qed.

Lemma discardAllStreams_settled (fuel : nat) (b : bolt5) :
  state b <> bolt5Streaming -> state b <> bolt5StreamingTx ->
  discardAllStreams fuel b = Some b.
Proof. intros Hs Ht. unfold discardAllStreams. case_decide; [reflexivity|tauto]. Qed.

Lemma run_sticky (fuel : nat) cypher params rawFetchSize tx (b : bolt5) (e : error) :
  err b = Some e ->
  state b <> bolt5Streaming -> state b <> bolt5StreamingTx ->
  run fuel cypher params rawFetchSize tx b = Some ((None, Some e), b).
Proof.
  intros Herr Hs Ht. unfold run.
  rewrite !decide_False by tauto. simpl.
  rewrite (assertState_sticky _ _ _ Herr).
  destruct (decide _); [tauto|reflexivity].
Qed.

Lemma checkStream_sticky (stream : nat) (b : bolt5) (e : error) :
  err b = Some e ->
  stream_done (deref b stream) = false ->
  streams_isSafe stream b = None ->
  checkStream (HandleStream stream) b = (StreamRefused (Some e), b).
Proof.
  intros Herr Hlive Hsafe. unfold checkStream. simpl.
  rewrite Hlive, Hsafe, (assertState_sticky _ _ _ Herr). reflexivity.
Qed.

(** C1 (amended). With an error stored in err: Connect, Run and
    GetRoutingTable return exactly that error and leave the connection as it
    is; TxBegin returns it after resetting the stream registry, with state,
    err, socket and queue as they were; TxCommit, TxRollback and RunTx return
    it unchanged when called with the current transaction handle; Consume and
    Buffer return it unchanged when called on a live, safe stream. Nothing is
    sent in any of these calls, and state and err stay as they were. (TxBegin,
    TxCommit, TxRollback and RunTx are taken outside the streaming states
    they drain first; setError leaves a connection Failed or Dead.) *)
Theorem sticky_error_short_circuits (fuel : nat) (b : bolt5) (e : error) :
  err b = Some e ->
  (forall minor_ auth userAgent routingContext notifications,
     Connect minor_ auth userAgent routingContext notifications b = (Some e, b)) /\
  (forall cmd txConfig, Run fuel cmd txConfig b = Some ((None, Some e), b)) /\
  (forall routingContext bookmarks_ database user,
     GetRoutingTable routingContext bookmarks_ database user b = ((None, Some e), b)) /\
  (state b <> bolt5Streaming ->
   forall txConfig,
     TxBegin fuel txConfig b = Some ((0, Some e), streams_reset b) /\
     untouched b (streams_reset b)) /\
  (state b <> bolt5Streaming -> state b <> bolt5StreamingTx ->
   TxCommit fuel (txId b) b = Some (Some e, b) /\
   TxRollback fuel (txId b) b = Some (Some e, b) /\
   forall cmd, RunTx fuel (txId b) cmd b = Some ((None, Some e), b)) /\
  (forall stream,
     stream_done (deref b stream) = false ->
     streams_isSafe stream b = None ->
     Consume fuel (HandleStream stream) b = Some ((None, Some e), b) /\
     Buffer fuel (HandleStream stream) b = Some (Some e, b)).
Proof.
  intros Herr. repeat apply conj.
  - intros. unfold Connect. rewrite (assertState_sticky _ _ _ Herr). reflexivity.
  - intros. unfold Run. rewrite (assertState_sticky _ _ _ Herr). reflexivity.
  - intros. unfold GetRoutingTable. rewrite (assertState_sticky _ _ _ Herr). reflexivity.
  - intros Hs txConfig. split; [|repeat split].
    unfold TxBegin. rewrite bool_decide_eq_false_2 by exact Hs. simpl.
    rewrite (assertState_sticky _ (streams_reset b) e) by exact Herr. reflexivity.
  - intros Hs Ht.
    assert (Hend : forall request, txEnd request fuel (txId b) b = Some (Some e, b)).
    { intros request. unfold txEnd. rewrite assertTxHandle_same.
      rewrite discardAllStreams_settled by assumption. simpl.
      rewrite Herr. reflexivity. }
    split; [apply Hend|]. split; [apply Hend|].
    intros cmd. unfold RunTx. rewrite assertTxHandle_same.
    rewrite (run_sticky _ _ _ _ _ _ _ Herr) by assumption. reflexivity.
  - intros stream Hlive Hsafe.
    unfold Consume, Buffer. rewrite (checkStream_sticky _ _ _ Herr Hlive Hsafe).
    split; reflexivity.
Qed.

(** *** State misuse *)

(** Goals and hypotheses about a state lying outside a list of states. *)
Ltac notin :=
  rewrite ?not_elem_of_cons in *;
  repeat split; try tauto; try apply not_elem_of_nil.

Lemma assertState_mismatch (allowed : list State) (b : bolt5) :
  err b = None -> state b ∉ allowed ->
  assertState allowed b =
    (Some (ErrInvalidState (state b) allowed),
     log_Error (ErrInvalidState (state b) allowed) b).
Proof.
  intros Herr Hout. unfold assertState. rewrite Herr.
  case_decide; [contradiction|reflexivity].
Qed.

Lemma assertTxHandle_mismatch (h1 h2 : Z) (b : bolt5) :
  h1 <> h2 ->
  assertTxHandle h1 h2 b = (Some ErrInvalidTransaction, log_Error ErrInvalidTransaction b).
Proof. intros Hne. unfold assertTxHandle. case_decide; [contradiction|reflexivity]. Qed.

Lemma untouched_log_Error (e : error) (b : bolt5) : untouched b (log_Error e b).
Proof. repeat split. Qed.

(** C8 (amended). The two assertions never store the error they return: a
    state mismatch (with no error stored) and a transaction-handle mismatch
    leave state, err, the socket and the queue as they were. So does every
    gated operation that they refuse, whenever nothing had to be drained
    before the assertion: Connect, Run, GetRoutingTable, TxBegin outside
    Streaming, TxCommit, TxRollback and RunTx on a handle mismatch or outside
    the streaming states, Consume and Buffer on a live, safe stream. *)
Theorem state_misuse_is_not_stored (fuel : nat) (b : bolt5) :
  (forall allowed,
     err b = None -> state b ∉ allowed ->
     exists b', assertState allowed b = (Some (ErrInvalidState (state b) allowed), b') /\
                untouched b b') /\
  (forall h1 h2,
     h1 <> h2 ->
     exists b', assertTxHandle h1 h2 b = (Some ErrInvalidTransaction, b') /\
                untouched b b') /\
  (forall txh,
     txh <> txId b ->
     exists b', untouched b b' /\
       TxCommit fuel txh b = Some (Some ErrInvalidTransaction, b') /\
       TxRollback fuel txh b = Some (Some ErrInvalidTransaction, b') /\
       forall cmd, RunTx fuel txh cmd b = Some ((None, Some ErrInvalidTransaction), b')) /\
  (err b = None ->
   (state b <> bolt5Unauthorized ->
    exists b', untouched b b' /\
      forall minor_ auth userAgent routingContext notifications,
        Connect minor_ auth userAgent routingContext notifications b =
          (Some (ErrInvalidState (state b) [bolt5Unauthorized]), b')) /\
   (state b ∉ [bolt5Streaming; bolt5Ready] ->
    exists b', untouched b b' /\
      forall cmd txConfig,
        Run fuel cmd txConfig b =
          Some ((None, Some (ErrInvalidState (state b) [bolt5Streaming; bolt5Ready])), b')) /\
   (state b <> bolt5Ready ->
    exists b', untouched b b' /\
      forall routingContext bookmarks_ database user,
        GetRoutingTable routingContext bookmarks_ database user b =
          ((None, Some (ErrInvalidState (state b) [bolt5Ready])), b')) /\
   (state b ∉ [bolt5Ready; bolt5Streaming] ->
    exists b', state b' = state b /\ err b' = err b /\
               conn b' = conn b /\ queue b' = queue b /\
      forall txConfig,
        TxBegin fuel txConfig b =
          Some ((0, Some (ErrInvalidState (state b) [bolt5Ready])), b')) /\
   (state b ∉ [bolt5Tx; bolt5Streaming; bolt5StreamingTx] ->
    exists b', untouched b b' /\
      TxCommit fuel (txId b) b = Some (Some (ErrInvalidState (state b) [bolt5Tx]), b') /\
      TxRollback fuel (txId b) b = Some (Some (ErrInvalidState (state b) [bolt5Tx]), b')) /\
   (state b ∉ [bolt5Tx; bolt5Ready; bolt5StreamingTx; bolt5Streaming] ->
    exists b', untouched b b' /\
      forall cmd,
        RunTx fuel (txId b) cmd b =
          Some ((None, Some (ErrInvalidState (state b)
                               [bolt5Tx; bolt5Ready; bolt5StreamingTx])), b')) /\
   (state b ∉ [bolt5Streaming; bolt5StreamingTx] ->
    exists b', untouched b b' /\
      forall stream,
        stream_done (deref b stream) = false ->
        streams_isSafe stream b = None ->
        Consume fuel (HandleStream stream) b =
          Some ((None, Some (ErrInvalidState (state b)
                               [bolt5Streaming; bolt5StreamingTx])), b') /\
        Buffer fuel (HandleStream stream) b =
          Some (Some (ErrInvalidState (state b) [bolt5Streaming; bolt5StreamingTx]), b'))).
Proof.
  split; [|split; [|split]].
  - intros allowed Herr Hout. eexists. split.
    + apply assertState_mismatch; assumption.
    + apply untouched_log_Error.
  - intros h1 h2 Hne. eexists. split.
    + apply assertTxHandle_mismatch, Hne.
    + apply untouched_log_Error.
  - intros txh Hne. exists (log_Error ErrInvalidTransaction b).
    split; [apply untouched_log_Error|].
    assert (Hmis := assertTxHandle_mismatch (txId b) txh b (not_eq_sym Hne)).
    unfold TxCommit, TxRollback, txEnd, RunTx. rewrite Hmis. auto.
  - intros Herr. repeat apply conj.
    + intros Hst. eexists. split; [|intros; unfold Connect].
      2: { rewrite assertState_mismatch; [reflexivity|exact Herr|].
           intros Hin. apply list_elem_of_singleton in Hin. contradiction. }
      apply untouched_log_Error.
    + intros Hst. eexists. split; [|intros; unfold Run].
      2: { rewrite assertState_mismatch by assumption. reflexivity. }
      apply untouched_log_Error.
    + intros Hst. eexists. split; [|intros; unfold GetRoutingTable].
      2: { rewrite assertState_mismatch; [reflexivity|exact Herr|].
           intros Hin. apply list_elem_of_singleton in Hin. contradiction. }
      apply untouched_log_Error.
    + intros Hst.
      assert (Hs : state b <> bolt5Streaming) by notin.
      assert (Hr : state b <> bolt5Ready) by notin.
      exists (log_Error (ErrInvalidState (state b) [bolt5Ready]) (streams_reset b)).
      repeat (split; [reflexivity|]).
      intros txConfig. unfold TxBegin.
      rewrite bool_decide_eq_false_2 by exact Hs. simpl.
      rewrite (assertState_mismatch _ (streams_reset b)); [reflexivity|exact Herr|].
      simpl. intros Hin. apply list_elem_of_singleton in Hin. contradiction.
    + intros Hst.
      assert (Hs : state b <> bolt5Streaming) by notin.
      assert (Ht : state b <> bolt5StreamingTx) by notin.
      assert (Hx : state b ∉ [bolt5Tx])
        by notin.
      exists (log_Error (ErrInvalidState (state b) [bolt5Tx]) b).
      split; [apply untouched_log_Error|].
      unfold TxCommit, TxRollback, txEnd. rewrite assertTxHandle_same.
      rewrite discardAllStreams_settled by assumption. simpl. rewrite Herr.
      rewrite assertState_mismatch by assumption. auto.
    + intros Hst.
      assert (Hs : state b <> bolt5Streaming) by notin.
      assert (Ht : state b <> bolt5StreamingTx) by notin.
      assert (Hx : state b ∉ [bolt5Tx; bolt5Ready; bolt5StreamingTx])
        by notin.
      exists (log_Error (ErrInvalidState (state b) [bolt5Tx; bolt5Ready; bolt5StreamingTx]) b).
      split; [apply untouched_log_Error|].
      intros cmd. unfold RunTx, run. rewrite assertTxHandle_same.
      rewrite !decide_False by tauto. simpl.
      destruct (decide _); [tauto|].
      rewrite assertState_mismatch by assumption. reflexivity.
    + intros Hst.
      exists (log_Error (ErrInvalidState (state b) [bolt5Streaming; bolt5StreamingTx]) b).
      split; [apply untouched_log_Error|].
      intros stream Hlive Hsafe. unfold Consume, Buffer, checkStream. simpl.
      rewrite Hlive, Hsafe, assertState_mismatch by assumption. auto.
Qed.

(** *** Transitions of run and of the stream-count check *)




Lemma initializeReadTimeoutHint_state (hints : gmap string Value) (b : bolt5) :
  state (initializeReadTimeoutHint hints b) = state b /\
  err (initializeReadTimeoutHint hints b) = err b.
Proof. unfold initializeReadTimeoutHint. repeat case_match; split; reflexivity. Qed.

Lemma runSuccess_state (stream : nat) (s : success) (b : bolt5) :
  state (runSuccess stream s b) = state b.
Proof. unfold runSuccess, streams_attach. repeat case_match; reflexivity. Qed.



(** *** Who writes the bookmark *)

Create HintDb bm discriminated.

Lemma kept_refl (b : bolt5) : bookmark_kept b b.
Proof. split; reflexivity. Qed.

Lemma kept_trans (b1 b2 b3 : bolt5) :
  bookmark_kept b1 b2 -> bookmark_kept b2 b3 -> bookmark_kept b1 b3.
Proof. unfold bookmark_kept. intros [-> ->] [-> ->]. split; reflexivity. Qed.

(** Steps that touch neither the bookmark nor the inbound messages. *)
Ltac frame :=
  let Hb := fresh in let Hi := fresh in
  intros [Hb Hi]; split; [rewrite <- Hb|rewrite <- Hi]; reflexivity.

Lemma kept_log_Error e b0 b : bookmark_kept b0 b -> bookmark_kept b0 (log_Error e b).
Proof. frame. Qed.

Lemma kept_log_Infof msg b0 b : bookmark_kept b0 b -> bookmark_kept b0 (log_Infof msg b).
Proof. frame. Qed.

Lemma kept_log_Debugf msg b0 b : bookmark_kept b0 b -> bookmark_kept b0 (log_Debugf msg b).
Proof. frame. Qed.

Lemma kept_set_state st b0 b : bookmark_kept b0 b -> bookmark_kept b0 (set_state st b).
Proof. frame. Qed.

Lemma kept_set_err e b0 b : bookmark_kept b0 b -> bookmark_kept b0 (set_err e b).
Proof. frame. Qed.

Lemma kept_set_txId t b0 b : bookmark_kept b0 b -> bookmark_kept b0 (set_txId t b).
Proof. frame. Qed.

Lemma kept_set_minor m b0 b : bookmark_kept b0 b -> bookmark_kept b0 (set_minor m b).
Proof. frame. Qed.

Lemma kept_set_lastQid q b0 b : bookmark_kept b0 b -> bookmark_kept b0 (set_lastQid q b).
Proof. frame. Qed.

Lemma kept_set_connId c b0 b : bookmark_kept b0 b -> bookmark_kept b0 (set_connId c b).
Proof. frame. Qed.

Lemma kept_set_logId c b0 b : bookmark_kept b0 b -> bookmark_kept b0 (set_logId c b).
Proof. frame. Qed.

Lemma kept_set_serverVersion v b0 b :
  bookmark_kept b0 b -> bookmark_kept b0 (set_serverVersion v b).
Proof. frame. Qed.

Lemma kept_set_queue q b0 b : bookmark_kept b0 b -> bookmark_kept b0 (set_queue q b).
Proof. frame. Qed.

Lemma kept_set_now t b0 b : bookmark_kept b0 b -> bookmark_kept b0 (set_now t b).
Proof. frame. Qed.

Lemma kept_set_heap h b0 b : bookmark_kept b0 b -> bookmark_kept b0 (set_heap h b).
Proof. frame. Qed.

Lemma kept_set_databaseName d b0 b :
  bookmark_kept b0 b -> bookmark_kept b0 (set_databaseName d b).
Proof. frame. Qed.

Lemma kept_set_routingSlot t b0 b :
  bookmark_kept b0 b -> bookmark_kept b0 (set_routingSlot t b).
Proof. frame. Qed.

Lemma kept_set_closed v b0 b :
  bookmark_kept b0 b -> bookmark_kept b0 (set_conn (set_closed v (conn b)) b).
Proof. frame. Qed.

Lemma kept_update_stream p f b0 b :
  bookmark_kept b0 b -> bookmark_kept b0 (update_stream p f b).
Proof. frame. Qed.

Lemma kept_enqueue m h b0 b : bookmark_kept b0 b -> bookmark_kept b0 (enqueue m h b).
Proof. frame. Qed.

Lemma kept_queue_appendGoodbye b0 b :
  bookmark_kept b0 b -> bookmark_kept b0 (queue_appendGoodbye b).
Proof. frame. Qed.

Lemma kept_queue_pushFront h b0 b :
  bookmark_kept b0 b -> bookmark_kept b0 (queue_pushFront h b).
Proof. frame. Qed.

Lemma kept_queue_setLogId i b0 b :
  bookmark_kept b0 b -> bookmark_kept b0 (queue_setLogId i b).
Proof. frame. Qed.

Lemma kept_streams_reset b0 b : bookmark_kept b0 b -> bookmark_kept b0 (streams_reset b).
Proof. frame. Qed.

Lemma kept_streams_pause b0 b : bookmark_kept b0 b -> bookmark_kept b0 (streams_pause b).
Proof. frame. Qed.

Lemma kept_streams_resume s b0 b :
  bookmark_kept b0 b -> bookmark_kept b0 (streams_resume s b).
Proof. unfold streams_resume. case_match; [tauto|frame]. Qed.

Lemma kept_streams_attach s b0 b :
  bookmark_kept b0 b -> bookmark_kept b0 (streams_attach s b).
Proof. unfold streams_attach. case_match; [tauto|frame]. Qed.

Lemma kept_streams_remove s b0 b :
  bookmark_kept b0 b -> bookmark_kept b0 (streams_remove s b).
Proof. frame. Qed.

Lemma kept_streams_detach sm e b0 b :
  bookmark_kept b0 b -> bookmark_kept b0 (streams_detach sm e b).
Proof. unfold streams_detach. case_match; [frame|tauto]. Qed.

Lemma kept_checkStreams b0 b : bookmark_kept b0 b -> bookmark_kept b0 (checkStreams b).
Proof. rewrite checkStreams_frame. frame. Qed.

Lemma kept_onNextMessage b0 b : bookmark_kept b0 b -> bookmark_kept b0 (onNextMessage b).
Proof. frame. Qed.

Lemma kept_alloc_stream n b0 b :
  bookmark_kept b0 b -> bookmark_kept b0 (snd (alloc_stream n b)).
Proof. frame. Qed.

#[local] Hint Resolve kept_refl kept_log_Error kept_log_Infof kept_log_Debugf
  kept_set_state kept_set_err kept_set_txId kept_set_minor kept_set_lastQid
  kept_set_connId kept_set_logId kept_set_serverVersion kept_set_queue kept_set_now
  kept_set_heap
  kept_set_databaseName kept_set_routingSlot kept_set_closed kept_update_stream
  kept_enqueue kept_queue_appendGoodbye kept_queue_pushFront kept_queue_setLogId
  kept_streams_reset kept_streams_pause kept_streams_resume kept_streams_attach
  kept_streams_remove kept_streams_detach kept_checkStreams kept_onNextMessage
  kept_alloc_stream : bm.

Lemma kept_setError_record e fatal b0 b :
  bookmark_kept b0 b -> bookmark_kept b0 (setError_record e fatal b).
Proof.
  unfold setError_record, handleTerminatedContextError.
  intros Hb. repeat case_match; simplify_eq; auto 6 with bm.
  all: revert Hb; frame.
Qed.

Lemma kept_setError e fatal b0 b :
  bookmark_kept b0 b -> bookmark_kept b0 (setError e fatal b).
Proof.
  intros Hb. destruct e as [e|]; [|exact Hb].
  rewrite setError_stages.
  destruct (setError_log_frame e (setError_forward e (setError_record e fatal b)))
    as [l ->].
  assert (Hf : bookmark_kept b0 (setError_forward e (setError_record e fatal b))).
  { unfold setError_forward. case_match; auto using kept_setError_record with bm. }
  revert Hf. frame.
Qed.

#[local] Hint Resolve kept_setError : bm.

#[local] Hint Unfold queue_appendHello queue_appendLogon queue_appendBegin
  queue_appendCommit queue_appendRollback queue_appendRun queue_appendPullN
  queue_appendPullNQid queue_appendDiscardN queue_appendDiscardNQid
  queue_appendReset queue_appendRoute : bm.

Lemma kept_appendPullN s b0 b : bookmark_kept b0 b -> bookmark_kept b0 (appendPullN s b).
Proof. unfold appendPullN. intros. repeat case_match; auto with bm. Qed.

Lemma kept_appendDiscard s b0 b :
  bookmark_kept b0 b -> bookmark_kept b0 (appendDiscard s b).
Proof. unfold appendDiscard. intros. case_match; auto with bm. Qed.

Lemma kept_queue_send b0 b : bookmark_kept b0 b -> bookmark_kept b0 (queue_send b).
Proof.
  unfold queue_send, conn_Write. intros Hb.
  repeat case_match; simplify_eq; auto with bm.
  all: try apply kept_setError; revert Hb; frame.
Qed.

Lemma kept_assertState allowed b0 b e b' :
  assertState allowed b = (e, b') -> bookmark_kept b0 b -> bookmark_kept b0 b'.
Proof.
  unfold assertState. intros Heq Hb.
  repeat case_match; simplify_eq; auto with bm.
Qed.

Lemma kept_assertTxHandle h1 h2 b0 b e b' :
  assertTxHandle h1 h2 b = (e, b') -> bookmark_kept b0 b -> bookmark_kept b0 b'.
Proof.
  unfold assertTxHandle. intros Heq Hb.
  case_match; simplify_eq; auto with bm.
Qed.

Lemma kept_initializeReadTimeoutHint hints b0 b :
  bookmark_kept b0 b -> bookmark_kept b0 (initializeReadTimeoutHint hints b).
Proof.
  unfold initializeReadTimeoutHint. intros. repeat case_match; auto with bm.
Qed.

#[local] Hint Resolve kept_appendPullN kept_appendDiscard kept_queue_send
  kept_initializeReadTimeoutHint : bm.

Lemma kept_resumeStream s b0 b : bookmark_kept b0 b -> bookmark_kept b0 (resumeStream s b).
Proof. unfold resumeStream. auto with bm. Qed.

#[local] Hint Resolve kept_resumeStream : bm.

Lemma nonempty_string (s : string) :
  (0 <? Z.of_nat (String.length s))%Z = negb (bool_decide (s = "")).
Proof. destruct s; reflexivity. Qed.

Lemma kept_streamIgnored doing stream b0 b :
  bookmark_kept b0 b -> bookmark_kept b0 (streamIgnored doing stream b).
Proof. unfold streamIgnored. auto with bm. Qed.

Lemma kept_runSuccess stream s b0 b :
  bookmark_kept b0 b -> bookmark_kept b0 (runSuccess stream s b).
Proof. unfold runSuccess. intros. case_match; auto 7 with bm. Qed.

Lemma kept_onHelloSuccess s b0 b :
  bookmark_kept b0 b -> bookmark_kept b0 (onHelloSuccess s b).
Proof. unfold onHelloSuccess. auto 7 with bm. Qed.

Lemma kept_pullRecord stream r b0 b :
  bookmark_kept b0 b -> bookmark_kept b0 (pullRecord stream r b).
Proof. unfold pullRecord. intros. case_match; auto with bm. Qed.

(** A stream success writes the bookmark only when it ends the stream and
    carries one. *)
Lemma streamSuccess_bookmark stream s b :
  bookmark (streamSuccess stream s b) =
    (if m_hasMore s then bookmark b
     else if decide (m_bookmark s = "") then bookmark b else m_bookmark s) /\
  incoming (conn (streamSuccess stream s b)) = incoming (conn b).
Proof.
  unfold streamSuccess. destruct (m_hasMore s); [split; reflexivity|].
  set (b1 := if (0 <? _)%Z then _ else b).
  assert (Hk : bookmark_kept b1 (checkStreams (streams_remove stream
             (update_stream stream (set_s_sum (Some (extractSummary s stream b))) b1))))
    by auto with bm.
  destruct Hk as [-> ->]. subst b1.
  unfold extractSummary, success_summary. cbn [sum_Bookmark].
  rewrite nonempty_string.
  case_decide as Hbm.
  - rewrite bool_decide_eq_true_2 by exact Hbm. split; reflexivity.
  - rewrite bool_decide_eq_false_2 by exact Hbm. split; reflexivity.
Qed.

(** What a dispatched response does to the bookmark. *)
Lemma dispatch_bookmark (h : responseHandler) (m : Response) (b : bolt5) :
  bookmark (dispatch h m b) = default (bookmark b) (carried_bookmark h m) /\
  incoming (conn (dispatch h m b)) = incoming (conn b).
Proof.
  assert (Hkept : forall b', bookmark_kept b b' -> carried_bookmark h m = None ->
            bookmark b' = default (bookmark b) (carried_bookmark h m) /\
            incoming (conn b') = incoming (conn b)).
  { intros b' [Hb Hi] ->. split; assumption. }
  destruct h, m; unfold dispatch;
    cbn [callbacks_of expectedSuccessHandler onSuccess onRecord onFailure_cb
         onIgnored onUnknown_cb];
    unfold onFailure, onUnknown, streamFailure, streamUnknown, onSuccessNoOp,
      onIgnoredNoOp, routeSuccess, discardSuccess, pullSuccess;
    try (apply Hkept;
         [ auto using kept_streamIgnored, kept_runSuccess, kept_onHelloSuccess,
                      kept_pullRecord with bm
         | unfold carried_bookmark; repeat case_match; reflexivity ]; fail).
  - (* commit success *)
    unfold onCommitSuccess, carried_bookmark. rewrite nonempty_string.
    case_decide as Hbm.
    + rewrite bool_decide_eq_true_2 by exact Hbm. split; reflexivity.
    + rewrite bool_decide_eq_false_2 by exact Hbm. split; reflexivity.
  - (* discard success *)
    destruct (streamSuccess_bookmark stream0 s b) as [-> ->].
    unfold carried_bookmark. repeat case_match; split; reflexivity.
  - (* pull success *)
    set (b1 := if s_discarding _ then _ else b).
    assert (Hk : bookmark_kept b b1) by (subst b1; case_match; auto with bm).
    destruct (streamSuccess_bookmark stream0 s b1) as [-> ->].
    destruct Hk as [-> ->].
    unfold carried_bookmark. repeat case_match; split; reflexivity.
Qed.

Lemma carried_bookmark_Some (h : responseHandler) (m : Response) (bm : string) :
  carried_bookmark h m = Some bm ->
  exists s, m = RspSuccess s /\ bm = m_bookmark s /\ m_bookmark s <> "".
Proof.
  unfold carried_bookmark. intros Hc.
  repeat case_match; simplify_eq; eauto.
Qed.

Lemma kept_store p s b0 b : bookmark_kept b0 b -> bookmark_kept b0 (store p s b).
Proof. frame. Qed.

#[local] Hint Resolve kept_store : bm.

Lemma Reset_bookmark (b : bolt5) : bookmark (Reset b) = "".
Proof. unfold Reset. case_match; reflexivity. Qed.

(** *** The inbound pump *)

Lemma queue_receive_consumes (b b' : bolt5) :
  queue_receive b = (None, b') ->
  Datatypes.S (length (incoming (conn b'))) = length (incoming (conn b)).
Proof.
  unfold queue_receive, conn_Read. intros Heq.
  destruct (closed (conn b)); [discriminate|].
  destruct (incoming (conn b)) as [|[m|e] rest]; try discriminate.
  cbn [set_conn queue onNextMessage] in Heq.
  destruct (handlers _) as [|h hs] in Heq; [discriminate|].
  simplify_eq.
  match goal with
  | |- context [dispatch h m ?b2] => destruct (dispatch_bookmark h m b2) as [_ ->]
  end.
  reflexivity.
Qed.

(** [receiveAll] returns without an error only when no handler is waiting:
    the rounds it is given are enough. *)
Lemma receiveAll_rounds_drains (n : nat) :
  forall b b' : bolt5,
    (length (incoming (conn b)) <= n)%nat ->
    receiveAll_rounds n b = (None, b') ->
    queue_isEmpty b' = true.
Proof.
  induction n as [|n IH]; intros b b' Hlen; simpl;
    destruct (queue_isEmpty b) eqn:Hempty; try (intros; simplify_eq; assumption);
    destruct (queue_receive b) as [[e|] b1] eqn:Hrecv; try discriminate;
    apply queue_receive_consumes in Hrecv.
  - lia.
  - apply IH. lia.
Qed.

Lemma queue_receiveAll_drains (b b' : bolt5) :
  queue_receiveAll b = (None, b') -> handlers (queue b') = [].
Proof.
  intros Heq. apply receiveAll_rounds_drains in Heq; [|reflexivity].
  unfold queue_isEmpty in Heq. destruct (handlers (queue b')); [reflexivity|discriminate].
Qed.

(** *** Transaction metadata *)

(** X1. toMeta of a nil transaction is nil; otherwise the map handed to the
    notification configuration holds "mode" only for a read transaction,
    "bookmarks" only when there are some, "tx_timeout" (whole milliseconds)
    only for a timeout of at least one millisecond, "tx_metadata" only when
    non-empty, "db" only for a non-default database, "imp_user" only when
    set, and no other key. *)
Theorem toMeta_keys (i : internalTx5) :
  toMeta None = None /\
  exists meta : gmap string Value,
    toMeta (Some i) = Some (NotificationConfig_ToMeta (notificationConfig i) meta) /\
    meta !! "mode" = (if decide (mode i = ReadMode) then Some (VStr "r") else None) /\
    meta !! "bookmarks" =
      (match bookmarks i with [] => None | _ :: _ => Some (VStrs (bookmarks i)) end) /\
    meta !! "tx_timeout" =
      (if decide (1000000 <= timeout i) then Some (VInt (timeout i / 1000000)) else None) /\
    meta !! "tx_metadata" =
      (if decide (size (txMeta i) = 0%nat) then None else Some (VMap (txMeta i))) /\
    meta !! "db" =
      (if decide (tx_databaseName i = DefaultDatabase) then None
       else Some (VStr (tx_databaseName i))) /\
    meta !! "imp_user" =
      (if decide (impersonatedUser i = "") then None
       else Some (VStr (impersonatedUser i))) /\
    forall k : string,
      k ∉ ["mode"; "bookmarks"; "tx_timeout"; "tx_metadata"; "db"; "imp_user"] ->
      meta !! k = None.
Proof.
  split; [reflexivity|].
  unfold toMeta. eexists. split; [reflexivity|].
  assert (Hms : (0 <? timeout i ÷ 1000000)%Z = bool_decide (1000000 <= timeout i)).
  { destruct (Z.ltb_spec 0 (timeout i ÷ 1000000)) as [Hpos|Hnpos].
    - symmetry. apply bool_decide_eq_true_2.
      destruct (Z.lt_ge_cases (timeout i) 1000000) as [Hlt|Hge]; [|exact Hge].
      destruct (Z.le_gt_cases 0 (timeout i)) as [Hnn|Hneg].
      + rewrite Z.quot_small in Hpos by lia. lia.
      + pose proof (Z.quot_le_upper_bound (timeout i) 1000000 0) as Hq. lia.
    - symmetry. apply bool_decide_eq_false_2. intros Hge.
      pose proof (Z.quot_le_lower_bound (timeout i) 1000000 1) as Hq. lia. }
  rewrite Hms. clear Hms.
  assert (Hq : 1000000 <= timeout i -> timeout i ÷ 1000000 = timeout i / 1000000)
    by (intros; apply Z.quot_div_nonneg; lia).
  destruct (decide (1000000 <= timeout i)) as [Hlong|Hshort];
    [rewrite bool_decide_eq_true_2, Hq by exact Hlong
    |rewrite bool_decide_eq_false_2 by exact Hshort];
    clear Hq;
    (repeat split;
     [ .. | intros k Hk; rewrite !not_elem_of_cons in Hk;
            destruct Hk as (? & ? & ? & ? & ? & ? & _) ]);
    destruct (bookmarks i); repeat case_decide; simplify_map_eq; reflexivity.
Qed.

(** *** The hello success *)

(** X2. A hello success records the connection id and server version, names
    the log after them, and leaves state and err alone. The read timeout is
    set from the hint only when the hint is an integer greater than zero (in
    nanoseconds, for hints that fit); a missing, non-integer or non-positive
    hint leaves the timeout as it was. *)
Theorem hello_success_recorded (s : success) (b : bolt5) :
  let b' := dispatch helloResponseHandler (RspSuccess s) b in
  connId b' = m_connectionId s /\
  serverVersion b' = m_server s /\
  logId b' = m_connectionId s ++ "@" ++ serverName b /\
  q_logId (queue b') = logId b' /\
  state b' = state b /\ err b' = err b /\
  (forall n,
     m_configurationHints s !! readTimeoutHintName = Some (VInt n) ->
     0 < n -> n <= 9223372036 ->
     connReadTimeout (queue b') = n * 1000000000) /\
  ((forall n, m_configurationHints s !! readTimeoutHintName = Some (VInt n) -> n <= 0) ->
   connReadTimeout (queue b') = connReadTimeout (queue b)).
Proof.
  cbv zeta. unfold dispatch.
  cbn [callbacks_of expectedSuccessHandler onSuccess].
  unfold onHelloSuccess, initializeReadTimeoutHint, VInt.
  destruct (m_configurationHints s !! readTimeoutHintName) as [[[| |n|]| | |]|] eqn:Hhint;
    try (repeat split; try reflexivity; intros; simplify_eq; fail).
  destruct (Z.leb_spec n 0) as [Hle|Hgt].
  - repeat split; try reflexivity. intros m Hm. simplify_eq. lia.
  - repeat split; try reflexivity.
    + intros m Hm Hpos Hfit. simplify_eq. cbn. unfold wrap64.
      rewrite Z.mod_small by lia. lia.
    + intros Hall. specialize (Hall n eq_refl). lia.
Qed.

(** *** Close *)

Lemma queue_send_nothing (b : bolt5) : pending (queue b) = [] -> queue_send b = b.
Proof. intros Hp. unfold queue_send. rewrite Hp. reflexivity. Qed.

Lemma queue_send_healthy (b : bolt5) (m : Request) (msgs : list Request) :
  healthy b -> pending (queue b) = m :: msgs ->
  queue_send b =
    set_conn (set_written (written (conn b) ++ m :: msgs) (conn b))
      (set_queue (set_pending [] (queue b)) b).
Proof.
  intros [Hopen Hwrite] Hp. unfold queue_send, conn_Write.
  rewrite Hp, Hopen, Hwrite. reflexivity.
Qed.

(** X3. Close always leaves the connection Dead with its socket closed, so
    that IsAlive answers false. On a dead connection it sends nothing; on a
    live one with a healthy socket it flushes what was pending followed by
    GOODBYE. A second Close writes nothing more. *)
Theorem Close_is_final (b : bolt5) :
  let b' := Close b in
  state b' = bolt5Dead /\ closed (conn b') = true /\ IsAlive b' = false /\
  (state b = bolt5Dead ->
   written (conn b') = written (conn b) /\ queue b' = queue b) /\
  (state b <> bolt5Dead -> healthy b ->
   written (conn b') = (written (conn b) ++ pending (queue b) ++ [MsgGoodbye])%list /\
   pending (queue b') = []) /\
  written (conn (Close b')) = written (conn b').
Proof.
  cbv zeta.
  assert (Hdead : forall b0, state b0 = bolt5Dead ->
            written (conn (Close b0)) = written (conn b0) /\ queue (Close b0) = queue b0).
  { intros b0 Hst. unfold Close. cbn [state log_Infof set_log].
    rewrite decide_True by exact Hst. split; reflexivity. }
  assert (Hst : state (Close b) = bolt5Dead) by reflexivity.
  split; [exact Hst|]. split; [reflexivity|].
  split; [unfold IsAlive; rewrite Hst; reflexivity|].
  split; [apply Hdead|]. split; [|apply Hdead, Hst].
  intros Hlive Hhealthy. unfold Close. cbn [state log_Infof set_log].
  rewrite decide_False by exact Hlive.
  destruct (pending (queue b)) as [|m msgs] eqn:Hp.
  - rewrite (queue_send_healthy _ MsgGoodbye []).
    + cbn. rewrite ?Hp. split; reflexivity.
    + exact Hhealthy.
    + cbn. rewrite ?Hp. reflexivity.
  - rewrite (queue_send_healthy _ m (msgs ++ [MsgGoodbye])).
    + cbn. rewrite ?Hp. split; reflexivity.
    + exact Hhealthy.
    + cbn. rewrite ?Hp. reflexivity.
Qed.

(** *** A dead connection *)

(** X4. A dead connection refuses every gated operation: Connect, TxBegin,
    TxCommit, TxRollback, Run, RunTx and GetRoutingTable each return an error
    and leave state, err, the socket and the queue as they were; ForceReset
    does nothing at all, and Reset cannot revive the connection. *)
Theorem dead_connection_refuses (fuel : nat) (b : bolt5) :
  state b = bolt5Dead ->
  (forall minor_ auth userAgent routingContext notifications,
     exists e b', Connect minor_ auth userAgent routingContext notifications b = (Some e, b') /\
                  untouched b b') /\
  (forall txConfig,
     exists e b', TxBegin fuel txConfig b = Some ((0, Some e), b') /\
                  state b' = bolt5Dead /\ err b' = err b /\
                  conn b' = conn b /\ queue b' = queue b) /\
  (forall txh,
     exists e b', TxCommit fuel txh b = Some (Some e, b') /\ untouched b b') /\
  (forall txh,
     exists e b', TxRollback fuel txh b = Some (Some e, b') /\ untouched b b') /\
  (forall cmd txConfig,
     exists e b', Run fuel cmd txConfig b = Some ((None, Some e), b') /\ untouched b b') /\
  (forall txh cmd,
     exists e b', RunTx fuel txh cmd b = Some ((None, Some e), b') /\ untouched b b') /\
  (forall routingContext bookmarks_ database user,
     exists e b', GetRoutingTable routingContext bookmarks_ database user b =
                    ((None, Some e), b') /\ untouched b b') /\
  ForceReset b = b /\
  state (Reset b) = bolt5Dead /\ conn (Reset b) = conn b /\ queue (Reset b) = queue b.
Proof.
  intros Hdead.
  assert (Hs : state b <> bolt5Streaming) by congruence.
  assert (Ht : state b <> bolt5StreamingTx) by congruence.
  assert (Hassert : forall allowed, bolt5Dead ∉ allowed ->
            exists e b', assertState allowed b = (Some e, b') /\ untouched b b').
  { intros allowed Hout. destruct (err b) as [e|] eqn:Herr.
    - exists e, b. split; [apply assertState_sticky, Herr|repeat split].
    - eexists _, _. split; [apply assertState_mismatch; [exact Herr|]|].
      + rewrite Hdead. exact Hout.
      + apply untouched_log_Error. }
  assert (Hend : forall request txh,
            exists e b', txEnd request fuel txh b = Some (Some e, b') /\ untouched b b').
  { intros request txh. unfold txEnd, assertTxHandle.
    destruct (decide (txId b = txh)) as [_|Hne].
    - rewrite discardAllStreams_settled by assumption. cbn [mbind option_bind].
      destruct (err b) as [e|] eqn:Herr.
      + exists e, b. split; [reflexivity|repeat split].
      + destruct (Hassert [bolt5Tx]) as (e & b' & Ha & Hu); [notin; discriminate|].
        rewrite Ha. eauto.
    - eexists _, _. split; [reflexivity|apply untouched_log_Error]. }
  repeat apply conj.
  - intros. destruct (Hassert [bolt5Unauthorized]) as (e & b' & Ha & Hu); [notin; discriminate|].
    exists e, b'. unfold Connect. rewrite Ha. auto.
  - intros txConfig. unfold TxBegin.
    rewrite bool_decide_eq_false_2 by exact Hs. cbn [mbind option_bind].
    destruct (err b) as [e|] eqn:Herr.
    + exists e, (streams_reset b).
      rewrite (assertState_sticky _ (streams_reset b) e) by exact Herr.
      repeat split; first [exact Hdead|exact Herr|reflexivity].
    + eexists _, _.
      rewrite (assertState_mismatch _ (streams_reset b)); [|exact Herr|].
      * split; [reflexivity|]. repeat split; first [exact Hdead|exact Herr|reflexivity].
      * change (state b ∉ [bolt5Ready]). rewrite Hdead. notin. discriminate.
  - intros. apply Hend.
  - intros. apply Hend.
  - intros. destruct (Hassert [bolt5Streaming; bolt5Ready]) as (e & b' & Ha & Hu);
      [notin; discriminate|].
    exists e, b'. unfold Run. rewrite Ha. auto.
  - intros txh cmd. unfold RunTx, assertTxHandle.
    destruct (decide (txId b = txh)) as [_|Hne].
    + unfold run. rewrite !decide_False by tauto. cbn [mbind option_bind].
      destruct (decide (state b = bolt5Streaming \/ state b = bolt5StreamingTx)); [tauto|].
      destruct (Hassert [bolt5Tx; bolt5Ready; bolt5StreamingTx]) as (e & b' & Ha & Hu);
        [notin; discriminate|].
      rewrite Ha. eauto.
    + eexists _, _. split; [reflexivity|apply untouched_log_Error].
  - intros. destruct (Hassert [bolt5Ready]) as (e & b' & Ha & Hu); [notin; discriminate|].
    exists e, b'. unfold GetRoutingTable. rewrite Ha. auto.
  - unfold ForceReset. rewrite decide_True by exact Hdead. reflexivity.
  - unfold Reset, ForceReset. rewrite decide_False by congruence.
    rewrite decide_True by exact Hdead. exact Hdead.
  - unfold Reset, ForceReset. rewrite decide_False by congruence.
    rewrite decide_True by exact Hdead. reflexivity.
  - unfold Reset, ForceReset. rewrite decide_False by congruence.
    rewrite decide_True by exact Hdead. reflexivity.
Qed.

(** *** Stream handles *)

(** X5. The checks on a stream handle come before everything else and never
    touch the connection, whatever its state: a handle that is not a stream
    gets the invalid-stream error from Keys, Next, Consume and Buffer; a
    stream that is already complete gets its own summary and error back from
    Consume and Buffer; a live stream that is not safe gets the
    invalid-stream error from them. *)
Theorem stream_handle_checks (fuel : nat) (b : bolt5) :
  (forall h,
     h = HandleNil \/ h = HandleForeign ->
     Keys h b = (None, Some ErrInvalidStream) /\
     Next fuel h b = Some ((None, None, Some ErrInvalidStream), b) /\
     Consume fuel h b = Some ((None, Some ErrInvalidStream), b) /\
     Buffer fuel h b = Some (Some ErrInvalidStream, b)) /\
  (forall p,
     stream_done (deref b p) = true ->
     Keys (HandleStream p) b = (Some (s_keys (deref b p)), None) /\
     Consume fuel (HandleStream p) b =
       Some ((s_sum (deref b p), s_err (deref b p)), b) /\
     Buffer fuel (HandleStream p) b = Some (s_err (deref b p), b)) /\
  (forall p,
     stream_done (deref b p) = false ->
     streams_isSafe p b <> None ->
     Consume fuel (HandleStream p) b = Some ((None, Some ErrInvalidStream), b) /\
     Buffer fuel (HandleStream p) b = Some (Some ErrInvalidStream, b)).
Proof.
  repeat apply conj.
  - intros h [-> | ->]; repeat split.
  - intros p Hdone. unfold Keys, Consume, Buffer, checkStream.
    cbn [streams_getUnsafe]. rewrite Hdone. repeat split.
  - intros p Hlive Hunsafe. unfold Consume, Buffer, checkStream.
    cbn [streams_getUnsafe]. rewrite Hlive.
    unfold streams_isSafe in *. case_decide; [contradiction|]. split; reflexivity.
Qed.

(** *** Ending a transaction *)

Lemma receiveAll_rounds_written (n : nat) :
  forall (b b' : bolt5) (e : option error),
    receiveAll_rounds n b = (e, b') -> written (conn b') = written (conn b).
Proof.
  induction n as [|n IH]; intros b b' e; simpl;
    (destruct (queue_isEmpty b); [intros; simplify_eq; reflexivity|]);
    destruct (queue_receive b) as [[e1|] b1] eqn:Hrecv; intros Heq;
    apply queue_receive_written in Hrecv; simplify_eq; try assumption.
  rewrite <- Hrecv. eapply IH. eassumption.
Qed.

Lemma queue_receiveAll_written (b b' : bolt5) (e : option error) :
  queue_receiveAll b = (e, b') -> written (conn b') = written (conn b).
Proof. apply receiveAll_rounds_written. Qed.

(** X6. discardAllStreams, when it returns, leaves the connection outside the
    streaming states; entered in a streaming state it also leaves the stream
    registry empty. *)
Theorem discardAllStreams_settles (fuel : nat) (b b' : bolt5) :
  discardAllStreams fuel b = Some b' ->
  state b' <> bolt5Streaming /\ state b' <> bolt5StreamingTx /\
  (state b = bolt5Streaming \/ state b = bolt5StreamingTx ->
   curr (streams b') = None /\ num (streams b') = 0).
Proof.
  unfold discardAllStreams. intros Heq.
  destruct (decide (state b <> bolt5Streaming /\ state b <> bolt5StreamingTx))
    as [[Hs Ht]|Hstreaming].
  - simplify_eq.
    split; [assumption|]. split; [assumption|]. intros [?|?]; contradiction.
  - destruct (discardStream fuel b) as [b1|]; [|discriminate].
    cbn [mbind option_bind] in Heq. simplify_eq.
    rewrite checkStreams_frame, checkStreams_state.
    unfold streams_reset, time_Now. cbn.
    split; [destruct (state b1); discriminate|].
    split; [destruct (state b1); discriminate|]. intros _. split; reflexivity.
Qed.

(** X7. A commit or rollback that returns no error was called with the
    current transaction handle and leaves the connection Ready, with no
    error stored and no response awaited; the last request written is the
    COMMIT or the ROLLBACK. *)
Theorem transaction_end_succeeds (fuel : nat) (txh : Z) (b b' : bolt5) :
  (TxCommit fuel txh b = Some (None, b') ->
   txh = txId b /\ state b' = bolt5Ready /\ err b' = None /\
   handlers (queue b') = [] /\ last (written (conn b')) = Some MsgCommit) /\
  (TxRollback fuel txh b = Some (None, b') ->
   txh = txId b /\ state b' = bolt5Ready /\ err b' = None /\
   handlers (queue b') = [] /\ last (written (conn b')) = Some MsgRollback).
Proof.
  assert (Hend : forall m h,
            txEnd (enqueue m h) fuel txh b = Some (None, b') ->
            txh = txId b /\ state b' = bolt5Ready /\ err b' = None /\
            handlers (queue b') = [] /\ last (written (conn b')) = Some m).
  { intros m h. unfold txEnd, assertTxHandle.
    destruct (decide (txId b = txh)) as [Hh|]; [|discriminate].
    destruct (discardAllStreams fuel b) as [b1|]; [|discriminate].
    cbn [mbind option_bind].
    destruct (err b1) eqn:Herr1; [discriminate|].
    unfold assertState. rewrite Herr1.
    destruct (decide (state b1 ∈ [bolt5Tx])); [|discriminate].
    set (b2 := queue_send (enqueue m h b1)).
    destruct (err b2) eqn:Herr2; [discriminate|].
    destruct (queue_receiveAll b2) as [[e3|] b3] eqn:Hrecv; [discriminate|].
    destruct (err b3) eqn:Herr3; [discriminate|].
    intros Heq. simplify_eq.
    split; [reflexivity|]. split; [reflexivity|]. split; [exact Herr3|].
    split; [exact (queue_receiveAll_drains _ _ Hrecv)|].
    cbn [conn set_state].
    rewrite (queue_receiveAll_written _ _ _ Hrecv).
    subst b2. rewrite (queue_send_written _ Herr2).
    cbn. rewrite app_assoc. apply last_snoc. }
  split; apply Hend.
Qed.

(** *** A stored error means the connection is down *)

Create HintDb down discriminated.

(** Steps that change neither state, nor err, nor the awaited handlers. *)
Ltac neutral := let HJ := fresh in let HR := fresh in
  intros [HJ HR]; split; [exact HJ|exact HR].

Lemma down_log_Error e b : error_means_down b -> error_means_down (log_Error e b).
Proof. neutral. Qed.

Lemma down_log_Infof m b : error_means_down b -> error_means_down (log_Infof m b).
Proof. neutral. Qed.

Lemma down_log_Debugf m b : error_means_down b -> error_means_down (log_Debugf m b).
Proof. neutral. Qed.

Lemma down_set_log l b : error_means_down b -> error_means_down (set_log l b).
Proof. neutral. Qed.

Lemma down_set_txId t b : error_means_down b -> error_means_down (set_txId t b).
Proof. neutral. Qed.

Lemma down_set_minor m b : error_means_down b -> error_means_down (set_minor m b).
Proof. neutral. Qed.

Lemma down_set_lastQid q b : error_means_down b -> error_means_down (set_lastQid q b).
Proof. neutral. Qed.

Lemma down_set_bookmark q b : error_means_down b -> error_means_down (set_bookmark q b).
Proof. neutral. Qed.

Lemma down_set_connId c b : error_means_down b -> error_means_down (set_connId c b).
Proof. neutral. Qed.

Lemma down_set_logId c b : error_means_down b -> error_means_down (set_logId c b).
Proof. neutral. Qed.

Lemma down_set_serverVersion v b :
  error_means_down b -> error_means_down (set_serverVersion v b).
Proof. neutral. Qed.

Lemma down_set_now t b : error_means_down b -> error_means_down (set_now t b).
Proof. neutral. Qed.

Lemma down_set_heap h b : error_means_down b -> error_means_down (set_heap h b).
Proof. neutral. Qed.

Lemma down_set_conn c b : error_means_down b -> error_means_down (set_conn c b).
Proof. neutral. Qed.

Lemma down_set_streams o b : error_means_down b -> error_means_down (set_streams o b).
Proof. neutral. Qed.

Lemma down_set_databaseName d b :
  error_means_down b -> error_means_down (set_databaseName d b).
Proof. neutral. Qed.

Lemma down_set_routingSlot t b :
  error_means_down b -> error_means_down (set_routingSlot t b).
Proof. neutral. Qed.

Lemma down_set_idleDate t b : error_means_down b -> error_means_down (set_idleDate t b).
Proof. neutral. Qed.

Lemma down_update_stream p f b :
  error_means_down b -> error_means_down (update_stream p f b).
Proof. neutral. Qed.

Lemma down_store p s b : error_means_down b -> error_means_down (store p s b).
Proof. neutral. Qed.

Lemma down_queue_appendGoodbye b :
  error_means_down b -> error_means_down (queue_appendGoodbye b).
Proof. neutral. Qed.

Lemma down_queue_setLogId i b :
  error_means_down b -> error_means_down (queue_setLogId i b).
Proof. neutral. Qed.

Lemma down_set_pending p b :
  error_means_down b -> error_means_down (set_queue (set_pending p (queue b)) b).
Proof. neutral. Qed.

Lemma down_set_connReadTimeout t b :
  error_means_down b -> error_means_down (set_queue (set_connReadTimeout t (queue b)) b).
Proof. neutral. Qed.

Lemma down_streams_reset b : error_means_down b -> error_means_down (streams_reset b).
Proof. neutral. Qed.

Lemma down_streams_pause b : error_means_down b -> error_means_down (streams_pause b).
Proof. neutral. Qed.

Lemma down_streams_resume s b : error_means_down b -> error_means_down (streams_resume s b).
Proof. unfold streams_resume. case_match; [tauto|neutral]. Qed.

Lemma down_streams_attach s b : error_means_down b -> error_means_down (streams_attach s b).
Proof. unfold streams_attach. case_match; [tauto|neutral]. Qed.

Lemma down_streams_remove s b : error_means_down b -> error_means_down (streams_remove s b).
Proof. neutral. Qed.

Lemma down_streams_detach sm e b :
  error_means_down b -> error_means_down (streams_detach sm e b).
Proof. unfold streams_detach. case_match; [neutral|tauto]. Qed.

Lemma down_onNextMessage b : error_means_down b -> error_means_down (onNextMessage b).
Proof. neutral. Qed.

Lemma down_alloc_stream n b :
  error_means_down b -> error_means_down (snd (alloc_stream n b)).
Proof. neutral. Qed.

Lemma down_set_state_dead b : error_means_down b -> error_means_down (set_state bolt5Dead b).
Proof. intros [_ HR]. split; [right; reflexivity|exact HR]. Qed.

Lemma down_set_state_clear st b :
  err b = None -> error_means_down b -> error_means_down (set_state st b).
Proof. intros Herr [_ HR]. split; [cbn; congruence|exact HR]. Qed.

Lemma down_checkStreams b : error_means_down b -> error_means_down (checkStreams b).
Proof.
  intros [HJ HR]. rewrite checkStreams_frame. split; [|exact HR].
  cbn [err state set_state]. intros Herr. specialize (HJ Herr).
  rewrite checkStreams_settled; [exact HJ| |]; destruct HJ; congruence.
Qed.

Lemma setError_handlers e fatal b :
  handlers (queue (setError e fatal b)) = handlers (queue b).
Proof.
  destruct e as [e|]; [|reflexivity].
  rewrite setError_stages.
  destruct (setError_log_frame e (setError_forward e (setError_record e fatal b)))
    as [l ->].
  cbn [queue set_log].
  assert (Hrec : handlers (queue (setError_record e fatal b)) = handlers (queue b)).
  { unfold setError_record, handleTerminatedContextError.
    repeat case_match; simplify_eq; reflexivity. }
  unfold setError_forward. case_match; [|exact Hrec].
  rewrite checkStreams_frame. unfold streams_detach. case_match; exact Hrec.
Qed.

Lemma down_setError e fatal b :
  error_means_down b -> error_means_down (setError e fatal b).
Proof.
  intros [HJ HR]. destruct e as [e|]; [|split; assumption].
  split; [|rewrite setError_handlers; exact HR].
  intros _. apply setError_failed_or_dead. exact HJ.
Qed.

Lemma down_enqueue m h b :
  h <> resetResponseHandler -> error_means_down b -> error_means_down (enqueue m h b).
Proof.
  intros Hh [HJ HR]. split; [exact HJ|]. cbn.
  rewrite not_elem_of_app, not_elem_of_cons. split; [exact HR|].
  split; [congruence|apply not_elem_of_nil].
Qed.

Lemma down_queue_pushFront h b :
  h <> resetResponseHandler -> error_means_down b ->
  error_means_down (queue_pushFront h b).
Proof.
  intros Hh [HJ HR]. split; [exact HJ|]. cbn.
  rewrite not_elem_of_cons. split; [congruence|exact HR].
Qed.

#[local] Hint Resolve down_log_Error down_log_Infof down_log_Debugf down_set_log
  down_set_txId down_set_minor down_set_lastQid down_set_bookmark down_set_connId
  down_set_logId down_set_serverVersion down_set_now down_set_heap down_set_conn
  down_set_streams down_set_databaseName down_set_routingSlot down_set_idleDate
  down_update_stream down_store down_queue_appendGoodbye down_queue_setLogId
  down_set_pending down_set_connReadTimeout down_streams_reset down_streams_pause
  down_streams_resume down_streams_attach down_streams_remove down_streams_detach
  down_onNextMessage down_alloc_stream down_set_state_dead down_set_state_clear
  down_checkStreams down_setError down_enqueue down_queue_pushFront : down.

#[local] Hint Extern 1 (_ <> resetResponseHandler) => discriminate : down.

Ltac appends :=
  unfold queue_appendHello, queue_appendLogon, queue_appendBegin,
    queue_appendCommit, queue_appendRollback, queue_appendRun, queue_appendPullN,
    queue_appendPullNQid, queue_appendDiscardN, queue_appendDiscardNQid,
    queue_appendRoute in *.

Lemma down_appendPullN s b : error_means_down b -> error_means_down (appendPullN s b).
Proof. unfold appendPullN. appends. intros. repeat case_match; auto with down. Qed.

Lemma down_appendDiscard s b : error_means_down b -> error_means_down (appendDiscard s b).
Proof. unfold appendDiscard. appends. intros. case_match; auto with down. Qed.

Lemma down_queue_send b : error_means_down b -> error_means_down (queue_send b).
Proof.
  unfold queue_send, conn_Write. intros Hb.
  repeat case_match; simplify_eq; auto 6 with down.
Qed.

Lemma down_assertState allowed b e b' :
  assertState allowed b = (e, b') -> error_means_down b -> error_means_down b'.
Proof.
  unfold assertState. intros Heq Hb. repeat case_match; simplify_eq; auto with down.
Qed.

Lemma down_assertTxHandle h1 h2 b e b' :
  assertTxHandle h1 h2 b = (e, b') -> error_means_down b -> error_means_down b'.
Proof.
  unfold assertTxHandle. intros Heq Hb. case_match; simplify_eq; auto with down.
Qed.

Lemma down_initializeReadTimeoutHint hints b :
  error_means_down b -> error_means_down (initializeReadTimeoutHint hints b).
Proof. unfold initializeReadTimeoutHint. intros. repeat case_match; auto with down. Qed.

#[local] Hint Resolve down_appendPullN down_appendDiscard down_queue_send
  down_initializeReadTimeoutHint : down.

Lemma down_resumeStream s b : error_means_down b -> error_means_down (resumeStream s b).
Proof. unfold resumeStream. auto with down. Qed.

#[local] Hint Resolve down_resumeStream : down.

Lemma down_streamSuccess stream s b :
  error_means_down b -> error_means_down (streamSuccess stream s b).
Proof. unfold streamSuccess. intros. repeat case_match; auto 7 with down. Qed.

(** Every response but the answer to a RESET keeps a connection with a stored
    error down. *)
Lemma down_dispatch (h : responseHandler) (m : Response) (b : bolt5) :
  h <> resetResponseHandler ->
  error_means_down b -> error_means_down (dispatch h m b).
Proof.
  intros Hh Hb.
  destruct h, m; try congruence; unfold dispatch;
    cbn [callbacks_of expectedSuccessHandler onSuccess onRecord onFailure_cb
         onIgnored onUnknown_cb];
    unfold onFailure, onUnknown, streamFailure, streamUnknown, onSuccessNoOp,
      onIgnoredNoOp, routeSuccess, discardSuccess, pullSuccess, pullRecord,
      streamIgnored, runSuccess, onHelloSuccess, onCommitSuccess;
    repeat case_match; auto 8 using down_streamSuccess with down.
Qed.

Lemma down_queue_receive (b b' : bolt5) (e : option error) :
  queue_receive b = (e, b') -> error_means_down b -> error_means_down b'.
Proof.
  unfold queue_receive, conn_Read, onNextMessageError. intros Heq Hb.
  destruct (closed (conn b)); [simplify_eq; auto with down|].
  destruct (incoming (conn b)) as [|[m|e'] rest]; simplify_eq; auto with down.
  cbn [set_conn queue onNextMessage] in Heq.
  destruct (handlers _) as [|h hs] eqn:Hq in Heq; simplify_eq; [auto 6 with down|].
  destruct Hb as [HJ HR].
  change (handlers (queue b)) with
    (handlers (queue (onNextMessage (set_conn (set_incoming rest (conn b)) b))))
    in HR.
  rewrite Hq, not_elem_of_cons in HR. destruct HR as [Hh Hhs].
  apply down_dispatch; [congruence|]. split; [exact HJ|exact Hhs].
Qed.

Ltac down := solve [eauto 40 with down].

Lemma down_receiveAll_rounds (n : nat) :
  forall (b b' : bolt5) (e : option error),
    receiveAll_rounds n b = (e, b') -> error_means_down b -> error_means_down b'.
Proof.
  induction n as [|n IH]; intros b b' e; simpl;
    (destruct (queue_isEmpty b); [intros; simplify_eq; assumption|]);
    destruct (queue_receive b) as [[e1|] b1] eqn:Hrecv; intros Heq Hw;
    simplify_eq; eauto using down_queue_receive.
Qed.

Lemma down_queue_receiveAll (b b' : bolt5) (e : option error) :
  queue_receiveAll b = (e, b') -> error_means_down b -> error_means_down b'.
Proof. apply down_receiveAll_rounds. Qed.

Lemma down_pauseStream (b : bolt5) :
  error_means_down b -> error_means_down (pauseStream b).
Proof.
  unfold pauseStream. intros Hw. case_match; [|exact Hw].
  destruct (queue_receiveAll b) as [e b1] eqn:Hrecv.
  apply down_queue_receiveAll in Hrecv; [|exact Hw].
  repeat case_match; try assumption; down.
Qed.

Lemma down_bufferStream_loop (fuel : nat) (stream : nat) :
  forall b b' : bolt5,
    bufferStream_loop fuel stream b = Some b' ->
    error_means_down b -> error_means_down b'.
Proof.
  induction fuel as [|fuel IH]; intros b b'; simpl; [discriminate|].
  destruct (queue_receiveAll b) as [e b1] eqn:Hrecv. intros Heq Hw.
  apply down_queue_receiveAll in Hrecv; [|exact Hw].
  repeat case_match; simplify_eq; try assumption;
    try (eapply IH; [eassumption|]); try assumption; down.
Qed.

Lemma down_bufferStream (fuel : nat) (b b' : bolt5) :
  bufferStream fuel b = Some b' -> error_means_down b -> error_means_down b'.
Proof.
  unfold bufferStream. case_match; [apply down_bufferStream_loop|].
  intros; simplify_eq; assumption.
Qed.

Lemma down_discardStream_loop (fuel : nat) (stream : nat) :
  forall (discarded : bool) (b b' : bolt5),
    discardStream_loop fuel stream discarded b = Some b' ->
    error_means_down b -> error_means_down b'.
Proof.
  induction fuel as [|fuel IH]; intros discarded b b'; simpl; [discriminate|].
  destruct (queue_receiveAll b) as [e b1] eqn:Hrecv. intros Heq Hw.
  apply down_queue_receiveAll in Hrecv; [|exact Hw].
  repeat case_match; simplify_eq; try assumption;
    try (eapply IH; [eassumption|]); try assumption; down.
Qed.

Lemma down_discardStream (fuel : nat) (b b' : bolt5) :
  discardStream fuel b = Some b' -> error_means_down b -> error_means_down b'.
Proof.
  unfold discardStream. intros Heq Hw.
  repeat case_match; simplify_eq; try assumption.
  eapply down_discardStream_loop; [eassumption|down].
Qed.

Lemma down_discardAllStreams (fuel : nat) (b b' : bolt5) :
  discardAllStreams fuel b = Some b' -> error_means_down b -> error_means_down b'.
Proof.
  unfold discardAllStreams. intros Heq Hw.
  case_match; simplify_eq; [assumption|].
  destruct (discardStream fuel b) as [b1|] eqn:Hd; simpl in Heq; simplify_eq.
  apply down_discardStream in Hd; [|exact Hw]. down.
Qed.

(** Run one call of an operation's body: name its result and carry
    [error_means_down] across it with the call's lemma. *)
Ltac dcall_pair call t lem :=
  let Hw := fresh "Hw" in
  let Hc := fresh "Hc" in
  assert (Hw : error_means_down t) by (first [assumption | down]);
  destruct call as [? ?] eqn:Hc;
  apply lem in Hc; [|exact Hw].

Ltac dcall_option call t lem :=
  let Hw := fresh "Hw" in
  let Hc := fresh "Hc" in
  assert (Hw : error_means_down t) by (first [assumption | down]);
  destruct call as [?|] eqn:Hc;
    [ apply lem in Hc; [|exact Hw]
    | clear Hc; try (cbn [mbind option_bind] in *; discriminate) ].

Ltac dcall_plain call t lem :=
  let Hw := fresh "Hw" in
  let b' := fresh "b" in
  assert (Hw : error_means_down t) by (first [assumption | down]);
  apply lem in Hw; set (b' := call) in *; clearbody b'.

Ltac dforward :=
  match goal with
  | Heq : context [assertState ?a ?t] |- _ =>
      dcall_pair (assertState a t) t (down_assertState a t)
  | Heq : context [assertTxHandle ?h1 ?h2 ?t] |- _ =>
      dcall_pair (assertTxHandle h1 h2 t) t (down_assertTxHandle h1 h2 t)
  | Heq : context [queue_receiveAll ?t] |- _ =>
      dcall_pair (queue_receiveAll t) t (down_queue_receiveAll t)
  | Heq : context [queue_receive ?t] |- _ =>
      dcall_pair (queue_receive t) t (down_queue_receive t)
  | Heq : context [bufferStream ?f ?t] |- _ =>
      dcall_option (bufferStream f t) t (down_bufferStream f t)
  | Heq : context [discardStream ?f ?t] |- _ =>
      dcall_option (discardStream f t) t (down_discardStream f t)
  | Heq : context [discardAllStreams ?f ?t] |- _ =>
      dcall_option (discardAllStreams f t) t (down_discardAllStreams f t)
  | Heq : context [pauseStream ?t] |- _ =>
      dcall_plain (pauseStream t) t (down_pauseStream t)
  end.

Ltac dthrough :=
  repeat first
    [ progress simplify_eq
    | assumption
    | dforward
    | progress cbn [mbind option_bind fst snd] in *
    | match goal with
      | Heq : context [match ?x with _ => _ end] |- _ => destruct x eqn:?
      | Heq : context [if ?x then _ else _] |- _ => destruct x eqn:?
      | |- context [match ?x with _ => _ end] => destruct x eqn:?
      end
    | down ].

Lemma down_TxBegin fuel txConfig (b b' : bolt5) r :
  TxBegin fuel txConfig b = Some (r, b') ->
  error_means_down b -> error_means_down b'.
Proof. unfold TxBegin, time_Now. appends. intros Heq Hw. dthrough. Qed.

Lemma down_Connect minor_ auth userAgent routingContext notifications (b b' : bolt5) e :
  Connect minor_ auth userAgent routingContext notifications b = (e, b') ->
  error_means_down b -> error_means_down b'.
Proof. unfold Connect. appends. intros Heq Hw. dthrough. Qed.

Lemma down_txEnd request fuel txh (b b' : bolt5) e :
  (forall b1, error_means_down b1 -> error_means_down (request b1)) ->
  txEnd request fuel txh b = Some (e, b') ->
  error_means_down b -> error_means_down b'.
Proof.
  unfold txEnd. intros Hreq Heq Hw.
  assert (Hr : forall b1, error_means_down b1 -> error_means_down (queue_send (request b1))).
  { intros b1 Hb1. auto with down. }
  repeat first
    [ progress simplify_eq
    | assumption
    | match goal with
      | Heq : context [queue_send (request ?t)] |- _ =>
          let Ht := fresh "Ht" in
          assert (Ht : error_means_down t) by assumption;
          apply Hr in Ht; set (bs := queue_send (request t)) in *; clearbody bs
      end
    | dforward
    | progress cbn [mbind option_bind fst snd] in *
    | match goal with
      | Heq : context [match ?x with _ => _ end] |- _ => destruct x eqn:?
      end
    | down ].
Qed.

Lemma down_TxCommit fuel txh (b b' : bolt5) e :
  TxCommit fuel txh b = Some (e, b') -> error_means_down b -> error_means_down b'.
Proof.
  apply down_txEnd. intros b1. unfold queue_appendCommit. auto with down.
Qed.

Lemma down_TxRollback fuel txh (b b' : bolt5) e :
  TxRollback fuel txh b = Some (e, b') -> error_means_down b -> error_means_down b'.
Proof.
  apply down_txEnd. intros b1. unfold queue_appendRollback. auto with down.
Qed.

Lemma down_run fuel cypher params rawFetchSize tx (b b' : bolt5) r :
  run fuel cypher params rawFetchSize tx b = Some (r, b') ->
  error_means_down b -> error_means_down b'.
Proof. unfold run, alloc_stream. appends. intros Heq Hw. dthrough. Qed.

Lemma down_Run fuel cmd txConfig (b b' : bolt5) r :
  Run fuel cmd txConfig b = Some (r, b') ->
  error_means_down b -> error_means_down b'.
Proof.
  unfold Run. intros Heq Hw.
  destruct (assertState _ b) as [e b1] eqn:Ha.
  apply down_assertState in Ha; [|exact Hw].
  destruct e; [simplify_eq; assumption|].
  destruct (checkNotificationFiltering _ _); [simplify_eq; assumption|].
  destruct (run _ _ _ _ _ b1) as [[r1 b2]|] eqn:Hrun; [|discriminate].
  apply down_run in Hrun; [|exact Ha].
  cbn [mbind option_bind] in Heq. repeat case_match; simplify_eq; assumption.
Qed.

Lemma down_RunTx fuel txh cmd (b b' : bolt5) r :
  RunTx fuel txh cmd b = Some (r, b') ->
  error_means_down b -> error_means_down b'.
Proof.
  unfold RunTx. intros Heq Hw.
  destruct (assertTxHandle _ _ b) as [e b1] eqn:Ha.
  apply down_assertTxHandle in Ha; [|exact Hw].
  destruct e; [simplify_eq; assumption|].
  destruct (run _ _ _ _ _ b1) as [[r1 b2]|] eqn:Hrun; [|discriminate].
  apply down_run in Hrun; [|exact Ha].
  cbn [mbind option_bind] in Heq. repeat case_match; simplify_eq; assumption.
Qed.

Lemma down_Next_loop (fuel : nat) (stream : nat) :
  forall (b b' : bolt5) r,
    Next_loop fuel stream b = Some (r, b') ->
    error_means_down b -> error_means_down b'.
Proof.
  induction fuel as [|fuel IH]; intros b b' r; simpl; [discriminate|].
  destruct (stream_bufferedNext (deref b stream)) as [[[[buf rec] sm] e] s'].
  intros Heq Hw.
  destruct buf; [simplify_eq; down|].
  set (b1 := store stream s' b) in *.
  assert (Hw1 : error_means_down b1) by (subst b1; down). clearbody b1.
  destruct (s_endOfBatch (deref b1 stream)).
  - set (b2 := queue_send (appendPullN stream b1)) in *.
    assert (Hw2 : error_means_down b2) by (subst b2; down). clearbody b2.
    destruct (err b2); [simplify_eq; assumption|].
    set (b3 := update_stream stream (set_s_endOfBatch false) b2) in *.
    assert (Hw3 : error_means_down b3) by (subst b3; down). clearbody b3.
    destruct (queue_isEmpty b3); [simplify_eq; assumption|].
    destruct (queue_receive b3) as [e1 b4] eqn:Hrecv.
    apply down_queue_receive in Hrecv; [|exact Hw3].
    repeat case_match; simplify_eq; try assumption.
    eapply IH; eassumption.
  - destruct (queue_isEmpty b1); [simplify_eq; assumption|].
    destruct (queue_receive b1) as [e1 b4] eqn:Hrecv.
    apply down_queue_receive in Hrecv; [|exact Hw1].
    repeat case_match; simplify_eq; try assumption.
    eapply IH; eassumption.
Qed.

Lemma down_Next fuel h (b b' : bolt5) r :
  Next fuel h b = Some (r, b') ->
  error_means_down b -> error_means_down b'.
Proof.
  unfold Next. intros Heq Hw.
  repeat case_match; simplify_eq; try assumption.
  eapply down_Next_loop; eassumption.
Qed.

Lemma down_checkStream h (b b' : bolt5) c :
  checkStream h b = (c, b') ->
  error_means_down b -> error_means_down b'.
Proof. unfold checkStream. intros Heq Hw. dthrough. Qed.

Lemma down_Consume fuel h (b b' : bolt5) r :
  Consume fuel h b = Some (r, b') ->
  error_means_down b -> error_means_down b'.
Proof.
  unfold Consume. intros Heq Hw.
  destruct (checkStream h b) as [c b1] eqn:Hc.
  apply down_checkStream in Hc; [|exact Hw].
  destruct c; simplify_eq; try assumption.
  destruct (discardStream fuel b1) as [b2|] eqn:Hd; [|discriminate].
  apply down_discardStream in Hd; [|exact Hc].
  cbn [mbind option_bind] in Heq. simplify_eq. assumption.
Qed.

Lemma down_Buffer fuel h (b b' : bolt5) r :
  Buffer fuel h b = Some (r, b') ->
  error_means_down b -> error_means_down b'.
Proof.
  unfold Buffer. intros Heq Hw.
  destruct (checkStream h b) as [c b1] eqn:Hc.
  apply down_checkStream in Hc; [|exact Hw].
  destruct c; simplify_eq; try assumption.
  destruct (bufferStream fuel b1) as [b2|] eqn:Hd; [|discriminate].
  apply down_bufferStream in Hd; [|exact Hc].
  cbn [mbind option_bind] in Heq. simplify_eq. assumption.
Qed.

Lemma down_GetRoutingTable routingContext bookmarks_ database user (b b' : bolt5) r :
  GetRoutingTable routingContext bookmarks_ database user b = (r, b') ->
  error_means_down b -> error_means_down b'.
Proof. unfold GetRoutingTable. appends. intros Heq Hw. dthrough. Qed.

Lemma down_Close (b : bolt5) : error_means_down b -> error_means_down (Close b).
Proof. unfold Close. intros Hw. case_match; down. Qed.

Lemma down_call (b b' : bolt5) : call b b' -> error_means_down b -> error_means_down b'.
Proof.
  destruct 1; eauto using down_Connect, down_TxBegin, down_TxCommit, down_TxRollback,
    down_Run, down_RunTx, down_Next, down_Consume, down_Buffer, down_GetRoutingTable,
    down_Close, down_set_databaseName.
Qed.

(** X8. A fresh connection has no stored error and awaits no answer to a
    RESET; and from any connection where a stored error means that the state
    is Failed or Dead and no answer to a RESET is awaited, every sequence of
    calls of Connect, TxBegin, TxCommit, TxRollback, Run, RunTx, Next,
    Consume, Buffer, GetRoutingTable, SelectDatabase and Close (every
    operation that changes the connection, Reset and ForceReset apart) leads
    to a connection of which the same holds. *)
Theorem stored_error_means_down (serverName_ : string) (c : netConn) (t : Z) :
  error_means_down (NewBolt5 serverName_ c t) /\
  forall b0 b : bolt5,
    (err b0 <> None -> state b0 = bolt5Failed \/ state b0 = bolt5Dead) ->
    resetResponseHandler ∉ handlers (queue b0) ->
    rtc call b0 b ->
    (err b <> None -> state b = bolt5Failed \/ state b = bolt5Dead) /\
    resetResponseHandler ∉ handlers (queue b).
Proof.
  split.
  - split; [intros Herr; contradiction Herr; reflexivity|apply not_elem_of_nil].
  - intros b0 b HJ HR Hcalls.
    assert (Hb0 : error_means_down b0) by (split; assumption). clear HJ HR.
    induction Hcalls as [|b1 b2 b3 Hcall _ IH]; [exact Hb0|].
    apply IH. exact (down_call _ _ Hcall Hb0).
Qed.

(** *** Recovering a connection *)

Lemma receiveAll_rounds_idle (n : nat) (b : bolt5) :
  handlers (queue b) = [] -> receiveAll_rounds n b = (None, b).
Proof. intros Hq. destruct n; simpl; unfold queue_isEmpty; rewrite Hq; reflexivity. Qed.

(** X9. ForceReset on a live connection that awaits nothing, over a healthy
    socket whose peer answers: exactly one RESET is written, exactly the
    answer is consumed, the stored error is cleared, nothing is awaited
    afterwards, and the connection is Ready if the answer is SUCCESS and Dead
    (with no stored error) after any other answer. Reset leaves the same
    state. *)
Theorem ForceReset_answered (b : bolt5) (m : Response) (rest : list InEvent) :
  state b <> bolt5Dead -> idle b -> healthy b ->
  incoming (conn b) = Received m :: rest ->
  written (conn (ForceReset b)) = (written (conn b) ++ [MsgReset])%list /\
  incoming (conn (ForceReset b)) = rest /\
  err (ForceReset b) = None /\
  idle (ForceReset b) /\
  state (ForceReset b) =
    match m with RspSuccess _ => bolt5Ready | _ => bolt5Dead end /\
  (state b <> bolt5Ready -> state (Reset b) = state (ForceReset b)).
Proof.
  intros Hlive [Hp Hh] [Hopen Hwrite] Hin.
  assert (HF : ForceReset b =
    dispatch resetResponseHandler m
      (onNextMessage
         (set_conn (set_incoming rest (set_written (written (conn b) ++ [MsgReset]) (conn b)))
            (set_queue (set_pending [] (queue b)) (set_err None b))))).
  { unfold ForceReset. destruct (decide _) as [|_]; [contradiction|].
    unfold queue_receiveAll. rewrite receiveAll_rounds_idle by exact Hh.
    cbn [err set_err]. unfold queue_appendReset.
    rewrite (queue_send_healthy _ MsgReset []);
      [|split; assumption|cbn; rewrite Hp; reflexivity].
    cbn [err set_conn set_queue enqueue set_err].
    unfold queue_receive, conn_Read. cbn. rewrite Hopen, Hin, Hh. cbn.
    destruct b as [? ? ? [] ? [] ? ? ? ? ? ? ? ? ? ? ? ? ? ?]; cbn in *; subst.
    reflexivity. }
  assert (HR : state b <> bolt5Ready -> state (Reset b) = state (ForceReset b)).
  { intros Hnr. unfold Reset. destruct (decide _); [contradiction|reflexivity]. }
  rewrite HF in *.
  destruct b as [? ? ? [] ? [] ? ? ? ? ? ? ? ? ? ? ? ? ? ?]; cbn in *; subst.
  destruct m; repeat split; try reflexivity; exact HR.
Qed.

(** *** The handshake *)

Lemma checkStreams_minor (b : bolt5) : minor (checkStreams b) = minor b.
Proof. rewrite checkStreams_frame. reflexivity. Qed.

Lemma setError_minor (e : option error) (fatal : bool) (b : bolt5) :
  minor (setError e fatal b) = minor b.
Proof.
  destruct e as [e|]; [|reflexivity].
  rewrite setError_stages.
  destruct (setError_log_frame e (setError_forward e (setError_record e fatal b)))
    as [l ->].
  cbn [minor set_log].
  assert (Hrec : minor (setError_record e fatal b) = minor b).
  { unfold setError_record, handleTerminatedContextError.
    repeat case_match; simplify_eq; reflexivity. }
  unfold setError_forward. case_match; [|exact Hrec].
  rewrite checkStreams_minor. unfold streams_detach. case_match; exact Hrec.
Qed.

Lemma streamSuccess_minor (stream : nat) (s : success) (b : bolt5) :
  minor (streamSuccess stream s b) = minor b.
Proof.
  unfold streamSuccess. case_match; [reflexivity|].
  rewrite checkStreams_minor. cbn. case_match; reflexivity.
Qed.

Lemma dispatch_minor (h : responseHandler) (m : Response) (b : bolt5) :
  minor (dispatch h m b) = minor b.
Proof.
  destruct h, m; unfold dispatch;
    cbn [callbacks_of expectedSuccessHandler onSuccess onRecord onFailure_cb
         onIgnored onUnknown_cb];
    unfold onFailure, onUnknown, streamFailure, streamUnknown, onSuccessNoOp,
      onIgnoredNoOp, routeSuccess, discardSuccess, pullSuccess, pullRecord,
      streamIgnored, runSuccess, streams_attach, onHelloSuccess,
      initializeReadTimeoutHint, onCommitSuccess;
    rewrite ?setError_minor, ?streamSuccess_minor, ?checkStreams_minor;
    repeat case_match; reflexivity.
Qed.

Lemma queue_receive_minor (b b' : bolt5) (e : option error) :
  queue_receive b = (e, b') -> minor b' = minor b.
Proof.
  unfold queue_receive, conn_Read, onNextMessageError. intros Heq.
  repeat case_match; simplify_eq;
    rewrite ?setError_minor, ?dispatch_minor; reflexivity.
Qed.

Lemma receiveAll_rounds_minor (n : nat) :
  forall (b b' : bolt5) (e : option error),
    receiveAll_rounds n b = (e, b') -> minor b' = minor b.
Proof.
  induction n as [|n IH]; intros b b' e; simpl;
    (destruct (queue_isEmpty b); [intros; simplify_eq; reflexivity|]);
    destruct (queue_receive b) as [[e1|] b1] eqn:Hrecv; intros Heq;
    apply queue_receive_minor in Hrecv; simplify_eq; try assumption.
  rewrite <- Hrecv. eapply IH. eassumption.
Qed.

Lemma queue_receiveAll_minor (b b' : bolt5) (e : option error) :
  queue_receiveAll b = (e, b') -> minor b' = minor b.
Proof. apply receiveAll_rounds_minor. Qed.

(** X10. A Connect that returns no error started in the Unauthorized state
    and leaves the connection Ready with no stored error, the negotiated
    minor version recorded, nothing awaited and no current stream. With
    nothing pending beforehand it wrote HELLO, followed by LOGON with the
    credentials exactly when the minor version is above 0. The HELLO map
    (before the notification configuration is added) has the user agent and
    the routing context when one is given; every other key is taken from the
    credentials at minor version 0 and is absent above it, so the credentials
    never replace the user agent or a given routing context. *)
Theorem Connect_handshake (minor_ : Z) (auth : gmap string Value) (userAgent : string)
    (routingContext : option (gmap string string))
    (notifications : NotificationConfig) (b b' : bolt5) :
  pending (queue b) = [] ->
  Connect minor_ auth userAgent routingContext notifications b = (None, b') ->
  state b = bolt5Unauthorized /\ state b' = bolt5Ready /\ err b' = None /\
  minor b' = minor_ /\ handlers (queue b') = [] /\ curr (streams b') = None /\
  exists hello : gmap string Value,
    written (conn b') =
      (written (conn b) ++
       MsgHello (NotificationConfig_ToMeta notifications hello)
       :: (if (0 <? minor_)%Z then [MsgLogon auth] else []))%list /\
    hello !! "user_agent" = Some (VStr userAgent) /\
    (forall ctx, routingContext = Some ctx -> hello !! "routing" = Some (VStrMap ctx)) /\
    forall k : string, k <> "user_agent" -> k <> "routing" \/ routingContext = None ->
      hello !! k = if decide (minor_ = 0) then auth !! k else None.
Proof.
  intros Hp Heq. unfold Connect, assertState in Heq.
  destruct (err b) eqn:Herr; [discriminate|].
  destruct (decide (state b ∈ [bolt5Unauthorized])) as [Hin|]; [|discriminate].
  apply list_elem_of_singleton in Hin.
  destruct (checkNotificationFiltering _ _); [discriminate|].
  cbn [minor set_minor] in Heq.
  match type of Heq with
  | context [queue_send ?t] => set (b1 := t) in *
  end.
  destruct (err (queue_send b1)) eqn:Hsent; [discriminate|].
  destruct (queue_receiveAll (queue_send b1)) as [e b2] eqn:Hrecv.
  destruct e; [discriminate|]. destruct (err b2) eqn:Herr2; [discriminate|].
  injection Heq as <-.
  pose proof (queue_receiveAll_drains _ _ Hrecv) as Hdrained.
  pose proof (queue_receiveAll_written _ _ _ Hrecv) as Hw.
  rewrite queue_send_written in Hw by exact Hsent.
  assert (Hminor : minor b2 = minor_).
  { assert (Hm1 : minor (queue_send b1) = minor_).
    { unfold queue_send, conn_Write. subst b1. unfold queue_appendHello, queue_appendLogon.
      repeat case_match; simplify_eq; rewrite ?setError_minor; reflexivity. }
    rewrite <- Hm1. eapply queue_receiveAll_minor. exact Hrecv. }
  split; [exact Hin|]. split; [reflexivity|]. split; [exact Herr2|].
  split; [exact Hminor|]. split; [exact Hdrained|]. split; [reflexivity|].
  exists (if decide (minor_ = 0)
          then match routingContext with
               | Some ctx => <["routing" := VStrMap ctx]> {["user_agent" := VStr userAgent]}
               | None => {["user_agent" := VStr userAgent]}
               end ∪ auth
          else match routingContext with
               | Some ctx => <["routing" := VStrMap ctx]> {["user_agent" := VStr userAgent]}
               | None => {["user_agent" := VStr userAgent]}
               end).
  split; [|split; [|split]].
  - transitivity (written (conn b2)); [reflexivity|].
    rewrite Hw. subst b1. unfold queue_appendHello, queue_appendLogon, enqueue.
    cbn [minor set_minor set_queue]. destruct (0 <? minor_)%Z; cbn; rewrite Hp; reflexivity.
  - destruct routingContext, (decide (minor_ = 0)); cbn;
      rewrite ?lookup_union, ?lookup_insert_ne, ?lookup_insert by discriminate;
      rewrite ?lookup_singleton; try reflexivity;
      destruct (auth !! "user_agent"); reflexivity.
  - intros ctx ->. destruct (decide (minor_ = 0));
      rewrite ?lookup_union, ?lookup_insert; [|reflexivity].
    destruct (auth !! "routing"); reflexivity.
  - intros k Hua Hrt.
    destruct routingContext as [ctx|], (decide (minor_ = 0));
      rewrite ?lookup_union;
      try (rewrite lookup_insert_ne by (destruct Hrt; congruence));
      rewrite ?lookup_singleton_ne by congruence;
      try reflexivity; destruct (auth !! k); reflexivity.
Qed.

(** *** Running a query *)

Lemma setError_fresh (e : error) (fatal : bool) (b : bolt5) :
  err b = None -> curr (streams b) = None ->
  e <> ErrContextCanceled -> e <> ErrDeadlineExceeded ->
  err (setError (Some e) fatal b) = Some e /\
  state (setError (Some e) fatal b) = (if fatal then bolt5Dead else bolt5Failed) /\
  streams (setError (Some e) fatal b) = streams b /\
  incoming (conn (setError (Some e) fatal b)) = incoming (conn b).
Proof.
  intros Herr Hcurr Hc Hd. rewrite setError_stages.
  destruct (setError_log_frame e (setError_forward e (setError_record e fatal b)))
    as [l ->].
  cbn [err state streams conn set_log].
  assert (Hrec : err (setError_record e fatal b) = Some e /\
                 state (setError_record e fatal b) = (if fatal then bolt5Dead else bolt5Failed) /\
                 streams (setError_record e fatal b) = streams b /\
                 incoming (conn (setError_record e fatal b)) = incoming (conn b)).
  { unfold setError_record, handleTerminatedContextError. rewrite Herr.
    destruct fatal, e; try congruence; repeat split; reflexivity. }
  unfold setError_forward. destruct Hrec as (? & ? & Hs & ?).
  rewrite Hs, Hcurr. rewrite Hs in *. auto.
Qed.

(** A run that starts outside the streaming states with nothing pending, over
    a healthy socket with an answer on its way, sends RUN and PULL and
    dispatches the answer to the RUN handler. *)
Lemma run_dispatches (fuel : nat) cypher params rawFetchSize tx (b : bolt5)
    (m : Response) (rest : list InEvent) :
  state b = bolt5Ready \/ state b = bolt5Tx ->
  err b = None -> idle b -> healthy b ->
  incoming (conn b) = Received m :: rest ->
  exists B : bolt5,
    state B = state b /\ err B = None /\
    handlers (queue B) = [pullResponseHandler (length (heap b))] /\
    written (conn B) =
      (written (conn b) ++
       [MsgRun cypher params (toMeta tx); MsgPullN (normalizeFetchSize rawFetchSize)])%list /\
    incoming (conn B) = rest /\
    heap B = (heap b ++ [new_stream (normalizeFetchSize rawFetchSize)])%list /\
    streams B = streams b /\ lastQid B = lastQid b /\
    run fuel cypher params rawFetchSize tx b =
      let b2 := dispatch (runResponseHandler (length (heap b))) m B in
      match err b2 with
      | Some e => Some ((None, Some e), b2)
      | None =>
          Some ((Some (length (heap b)), None),
                match state b2 with
                | bolt5Ready => set_state bolt5Streaming b2
                | bolt5Tx => set_state bolt5StreamingTx b2
                | _ => b2
                end)
      end.
Proof.
  intros Hst Herr [Hp Hh] [Hopen Hwrite] Hin.
  unfold run.
  rewrite !decide_False by (destruct Hst as [Hs|Hs]; rewrite Hs; try intros [|]; discriminate).
  cbn [mbind option_bind].
  rewrite !decide_False by (destruct Hst as [Hs|Hs]; rewrite Hs; try intros [|]; discriminate).
  unfold assertState. rewrite Herr.
  rewrite (decide_True (P := state b ∈ [bolt5Tx; bolt5Ready; bolt5StreamingTx]))
    by (destruct Hst as [Hs|Hs]; rewrite Hs, !elem_of_cons; auto).
  unfold alloc_stream, queue_appendRun, queue_appendPullN.
  rewrite (queue_send_healthy _ (MsgRun cypher params (toMeta tx))
             [MsgPullN (normalizeFetchSize rawFetchSize)]);
    [|split; assumption|cbn; rewrite Hp; reflexivity].
  cbn [err set_conn set_queue enqueue set_heap]. rewrite Herr.
  unfold queue_receive, conn_Read.
  cbn [conn set_conn set_queue enqueue set_heap closed set_written incoming].
  rewrite Hopen, Hin.
  cbn [queue set_conn set_queue enqueue set_heap onNextMessage time_Now set_idleDate
       set_now handlers set_handlers set_pending].
  rewrite Hh. cbn [app].
  match goal with
  | |- context [dispatch _ m ?B0] => exists B0
  end.
  cbv zeta. split_and!; try reflexivity.
  cbn. exact Herr.
Qed.

Lemma deref_last (b : bolt5) (s : stream) (l : list stream) :
  heap b = (l ++ [s])%list -> deref b (length l) = s.
Proof.
  intros Hh. unfold deref. rewrite Hh, lookup_app_r by lia.
  rewrite Nat.sub_diag. reflexivity.
Qed.

Lemma runSuccess_attaches (stream : nat) (s : success) (b : bolt5) :
  curr (streams b) = None -> (stream < length (heap b))%nat ->
  curr (streams (runSuccess stream s b)) = Some stream /\
  deref (runSuccess stream s b) stream =
    set_s_key (key (streams b))
      (set_s_tfirst (m_tfirst s)
         (set_s_qid (m_qid s) (set_s_keys (m_fields s) (deref b stream)))) /\
  lastQid (runSuccess stream s b) =
    (if (-1 <? m_qid s)%Z then m_qid s else lastQid b) /\
  queue (runSuccess stream s b) = queue b /\
  conn (runSuccess stream s b) = conn b /\
  err (runSuccess stream s b) = err b.
Proof.
  intros Hcurr Hlen. unfold runSuccess.
  set (b1 := update_stream stream (set_s_keys (m_fields s)) b).
  set (b2 := update_stream stream (set_s_qid (m_qid s)) b1).
  set (b3 := update_stream stream (set_s_tfirst (m_tfirst s)) b2).
  set (b4 := if (-1 <? m_qid s)%Z then set_lastQid (m_qid s) b3 else b3).
  assert (H4 : streams b4 = streams b /\ heap b4 = heap b3 /\ queue b4 = queue b /\
               conn b4 = conn b /\ err b4 = err b /\
               lastQid b4 = (if (-1 <? m_qid s)%Z then m_qid s else lastQid b)).
  { subst b4. destruct (-1 <? m_qid s)%Z; repeat split; reflexivity. }
  destruct H4 as (Hs4 & Hh4 & Hq4 & Hc4 & He4 & Hl4).
  assert (Hd4 : deref b4 stream = deref b3 stream) by (unfold deref; rewrite Hh4; reflexivity).
  assert (Hlen4 : (stream < length (heap b4))%nat).
  { rewrite Hh4. subst b3 b2 b1. rewrite !update_stream_length. exact Hlen. }
  unfold streams_attach. rewrite Hs4, Hcurr.
  split; [reflexivity|]. split; [|auto].
  match goal with
  | |- deref (set_streams ?o ?bx) ?p = ?rhs => change (deref bx p = rhs)
  end.
  rewrite deref_update_stream by exact Hlen4. rewrite Hd4. subst b3 b2 b1.
  rewrite !deref_update_stream by (rewrite ?update_stream_length; exact Hlen).
  reflexivity.
Qed.

(** X11. Run on a Ready connection with nothing pending, no current stream
    and a healthy socket, when the peer's next message is [m]: Run writes RUN
    (with the metadata of the configuration and the connection's database
    name) and an unqualified PULL of the normalized fetch size, consumes
    exactly [m], and leaves the PULL handler of the new stream awaited.
    SUCCESS: the new stream is returned and becomes the current one, with the
    keys of the answer and the normalized fetch size; the state is Streaming;
    a query id above -1 is remembered. FAILURE: the error is returned and
    stored; the state is Failed for a client error and Dead otherwise.
    IGNORED: the stream is returned and the state is Streaming although no
    stream was attached. RECORD or an unknown message: the error is returned
    and stored and the connection is Dead. *)
Theorem Run_answered (fuel : nat) (cmd : Command) (txConfig : TxConfig) (b : bolt5)
    (m : Response) (rest : list InEvent) :
  state b = bolt5Ready -> err b = None -> idle b -> healthy b ->
  curr (streams b) = None ->
  checkNotificationFiltering (TxNotificationConfig txConfig) (Version b) = None ->
  incoming (conn b) = Received m :: rest ->
  let tx := {| mode := Mode txConfig;
               bookmarks := Bookmarks txConfig;
               timeout := Timeout txConfig;
               txMeta := Meta txConfig;
               tx_databaseName := databaseName b;
               impersonatedUser := ImpersonatedUser txConfig;
               notificationConfig := TxNotificationConfig txConfig |} in
  let new := length (heap b) in
  exists r b',
    Run fuel cmd txConfig b = Some (r, b') /\
    written (conn b') =
      (written (conn b) ++
       [MsgRun (Cypher cmd) (Params cmd) (toMeta (Some tx));
        MsgPullN (normalizeFetchSize (FetchSize cmd))])%list /\
    incoming (conn b') = rest /\
    handlers (queue b') = [pullResponseHandler new] /\
    match m with
    | RspSuccess s =>
        r = (Some new, None) /\ err b' = None /\ state b' = bolt5Streaming /\
        curr (streams b') = Some new /\
        s_keys (deref b' new) = m_fields s /\
        s_fetchSize (deref b' new) = normalizeFetchSize (FetchSize cmd) /\
        lastQid b' = (if (-1 <? m_qid s)%Z then m_qid s else lastQid b)
    | RspFailure f =>
        r = (None, Some (ErrNeo4j f)) /\ err b' = Some (ErrNeo4j f) /\
        state b' = (if isFatalError f then bolt5Dead else bolt5Failed)
    | RspIgnored =>
        r = (Some new, None) /\ err b' = None /\ state b' = bolt5Streaming /\
        curr (streams b') = None
    | RspRecord _ | RspUnknown _ =>
        r = (None, Some (ErrExpectedSuccess m)) /\
        err b' = Some (ErrExpectedSuccess m) /\ state b' = bolt5Dead
    end.
Proof.
  intros Hst Herr Hidle Hhealthy Hcurr Hfilter Hin tx new.
  destruct (run_dispatches fuel (Cypher cmd) (Params cmd) (FetchSize cmd) (Some tx)
              b m rest (or_introl Hst) Herr Hidle Hhealthy Hin)
    as (B & HBst & HBerr & HBh & HBw & HBin & HBheap & HBstreams & HBqid & Hrun).
  unfold Run, assertState. rewrite Herr.
  rewrite decide_True by (rewrite Hst, !elem_of_cons; auto).
  rewrite Hfilter. fold tx. rewrite Hrun. cbv zeta. clear Hrun.
  rewrite Hst in HBst.
  assert (Hcurr' : curr (streams B) = None) by (rewrite HBstreams; exact Hcurr).
  fold new in HBh.
  assert (Hfail : forall e, e <> ErrContextCanceled -> e <> ErrDeadlineExceeded ->
            forall fatal,
            exists r b',
              match err (setError (Some e) fatal B) with
              | Some e0 => Some (None, Some e0, setError (Some e) fatal B)
              | None =>
                  Some (Some new, None,
                        match state (setError (Some e) fatal B) with
                        | bolt5Ready => set_state bolt5Streaming (setError (Some e) fatal B)
                        | bolt5Tx => set_state bolt5StreamingTx (setError (Some e) fatal B)
                        | _ => setError (Some e) fatal B
                        end)
              end ≫= (λ '(r0, b0),
                match r0 with
                | (_, Some e0) => Some ((None, Some e0), b0)
                | (stream0, None) => Some ((stream0, None), b0)
                end) = Some (r, b') /\
              written (conn b') = written (conn B) /\
              incoming (conn b') = rest /\
              handlers (queue b') = [pullResponseHandler new] /\
              r = (None, Some e) /\ err b' = Some e /\
              state b' = (if fatal then bolt5Dead else bolt5Failed)).
  { intros e Hc Hd fatal.
    destruct (setError_fresh e fatal B HBerr Hcurr' Hc Hd) as (He & Hs & _ & Hi).
    rewrite He. cbn [mbind option_bind].
    eexists _, _. split; [reflexivity|].
    rewrite setError_written, setError_handlers, Hi, HBin, HBh, He, Hs.
    repeat split; reflexivity. }
  change (length (heap b)) with new.
  destruct m as [rec|s|f| |u]; unfold dispatch;
    cbn [callbacks_of expectedSuccessHandler onSuccess onRecord onFailure_cb
         onIgnored onUnknown_cb].
  - unfold onUnknown.
    destruct (Hfail (ErrExpectedSuccess (RspRecord rec)) ltac:(discriminate)
                ltac:(discriminate) true) as (r & b' & Heq & Hw & Hrest).
    exists r, b'. rewrite <- HBw, <- Hw. tauto.
  - assert (Hlen : (new < length (heap B))%nat)
      by (rewrite HBheap, length_app; cbn; subst new; lia).
    destruct (runSuccess_attaches new s B Hcurr' Hlen)
      as (Hc & Hd & Hl & Hq & Hcn & He).
    rewrite He, HBerr, runSuccess_state, HBst. cbn [mbind option_bind].
    eexists _, _. split; [reflexivity|].
    cbn [conn queue err state streams lastQid set_state].
    change (deref (set_state bolt5Streaming (runSuccess new s B)) new)
      with (deref (runSuccess new s B) new).
    rewrite Hcn, Hq, He, Hc, Hd, Hl, HBqid. subst new.
    rewrite (deref_last B _ _ HBheap).
    repeat split; auto.
  - unfold onFailure.
    destruct (Hfail (ErrNeo4j f) ltac:(discriminate) ltac:(discriminate) (isFatalError f))
      as (r & b' & Heq & Hw & Hrest).
    exists r, b'. rewrite <- HBw, <- Hw. tauto.
  - unfold onIgnoredNoOp. rewrite HBerr, HBst. cbn [mbind option_bind].
    eexists _, _. split; [reflexivity|]. cbn. tauto.
  - unfold onUnknown.
    destruct (Hfail (ErrExpectedSuccess (RspUnknown u)) ltac:(discriminate)
                ltac:(discriminate) true) as (r & b' & Heq & Hw & Hrest).
    exists r, b'. rewrite <- HBw, <- Hw. tauto.
Qed.

(** *** Reading a stream *)

Lemma store_deref (b : bolt5) (p : nat) : store p (deref b p) b = b.
Proof.
  unfold store, deref. destruct (heap b !! p) as [s|] eqn:Hl; cbn.
  - rewrite list_insert_id by exact Hl. destruct b; reflexivity.
  - rewrite list_insert_ge by (apply lookup_ge_None; exact Hl). destruct b; reflexivity.
Qed.

(** X12. What Next answers without reading from the socket. A buffered
    record is handed out first, and removed from the buffer; with an empty
    buffer the terminal error of the stream, or else its summary, is returned
    and the connection is unchanged; with neither, no batch to request and no
    answer awaited, Next returns the error that more results were expected,
    without storing it and without changing the connection. *)
Theorem Next_without_reading (fuel : nat) (p : nat) (b : bolt5) :
  (forall r rest, s_fifo (deref b p) = r :: rest ->
     Next (S fuel) (HandleStream p) b =
       Some ((Some r, None, None), store p (set_s_fifo rest (deref b p)) b)) /\
  (forall e, s_fifo (deref b p) = [] -> s_err (deref b p) = Some e ->
     Next (S fuel) (HandleStream p) b = Some ((None, None, Some e), b)) /\
  (forall sm, s_fifo (deref b p) = [] -> s_err (deref b p) = None ->
     s_sum (deref b p) = Some sm ->
     Next (S fuel) (HandleStream p) b = Some ((None, Some sm, None), b)) /\
  (s_fifo (deref b p) = [] -> s_err (deref b p) = None -> s_sum (deref b p) = None ->
   s_endOfBatch (deref b p) = false -> handlers (queue b) = [] ->
   Next (S fuel) (HandleStream p) b = Some ((None, None, Some ErrMoreResults), b)).
Proof.
  unfold Next. cbn [streams_getUnsafe Next_loop]. unfold stream_bufferedNext.
  split; [|split; [|split]].
  - intros r rest ->. reflexivity.
  - intros e -> ->. rewrite store_deref. reflexivity.
  - intros sm -> -> ->. rewrite store_deref. reflexivity.
  - intros -> -> -> Hbatch Hq. rewrite store_deref, Hbatch.
    unfold queue_isEmpty. rewrite Hq. reflexivity.
Qed.

(** X13. Next on a stream with nothing buffered whose PULL is the next
    awaited answer, when the peer's next message is a RECORD: the record is
    returned with the keys of the stream, exactly that message is consumed,
    the PULL handler is awaited again in first place, and the stream, the
    state and the written requests are as before. *)
Theorem Next_receives_record (fuel : nat) (p : nat) (b : bolt5) (rec : dbRecord)
    (rest : list InEvent) (hs : list responseHandler) :
  (p < length (heap b))%nat ->
  s_fifo (deref b p) = [] -> s_err (deref b p) = None -> s_sum (deref b p) = None ->
  s_endOfBatch (deref b p) = false -> s_discarding (deref b p) = false ->
  handlers (queue b) = pullResponseHandler p :: hs ->
  closed (conn b) = false ->
  incoming (conn b) = Received (RspRecord rec) :: rest ->
  err b = None ->
  exists b',
    Next (S (S fuel)) (HandleStream p) b =
      Some ((Some {| rec_Values := rec_Values rec; rec_Keys := s_keys (deref b p) |},
             None, None), b') /\
    handlers (queue b') = pullResponseHandler p :: hs /\
    incoming (conn b') = rest /\
    written (conn b') = written (conn b) /\
    deref b' p = deref b p /\
    state b' = state b /\ err b' = None.
Proof.
  intros Hlen Hfifo Herr Hsum Hbatch Hdisc Hq Hopen Hin Hberr.
  unfold Next. cbn [streams_getUnsafe].
  change (Next_loop (S (S fuel)) p b) with
    (let '(buf, rec, sm, e, s') := stream_bufferedNext (deref b p) in
     let b := store p s' b in
     if buf then Some ((rec, sm, e), b)
     else
       let endOfBatch := s_endOfBatch (deref b p) in
       let b := if endOfBatch then queue_send (appendPullN p b) else b in
       match (if endOfBatch then err b else None) with
       | Some e => Some ((None, None, Some e), b)
       | None =>
           let b := if endOfBatch
                    then update_stream p (set_s_endOfBatch false) b else b in
           if queue_isEmpty b then Some ((None, None, Some ErrMoreResults), b)
           else
             let (e, b) := queue_receive b in
             match e, err b with
             | Some e, _ => Some ((None, None, Some e), b)
             | None, Some e => Some ((None, None, Some e), b)
             | None, None => Next_loop (S fuel) p b
             end
       end).
  unfold stream_bufferedNext at 1. rewrite Hfifo, Herr, Hsum. cbv zeta.
  rewrite store_deref, Hbatch. cbv iota.
  unfold queue_isEmpty. rewrite Hq.
  unfold queue_receive, conn_Read. rewrite Hopen, Hin.
  cbn [set_conn queue onNextMessage time_Now set_idleDate set_now]. rewrite Hq.
  unfold dispatch. cbn [callbacks_of onRecord]. unfold pullRecord.
  match goal with
  | |- context [deref ?bx p] =>
      lazymatch bx with
      | b => fail
      | _ => change (deref bx p) with (deref b p)
      end
  end.
  rewrite Hdisc.
  match goal with
  | |- context [queue_pushFront ?h ?bx] => set (b1 := queue_pushFront h bx)
  end.
  assert (Hd1 : deref b1 p =
                stream_push {| rec_Values := rec_Values rec; rec_Keys := s_keys (deref b p) |}
                  (deref b p)).
  { subst b1.
    match goal with
    | |- deref (queue_pushFront _ (update_stream p ?f ?bx)) p = _ =>
        change (deref (update_stream p f bx) p = f (deref b p));
        rewrite deref_update_stream by exact Hlen; reflexivity
    end. }
  assert (He1 : err b1 = None) by exact Hberr.
  rewrite He1.
  cbn [Next_loop]. unfold stream_bufferedNext. rewrite Hd1.
  unfold stream_push. rewrite Hfifo. cbn [s_fifo set_s_fifo app].
  eexists. split; [reflexivity|].
  split; [subst b1; cbn; reflexivity|].
  split; [reflexivity|]. split; [reflexivity|].
  split; [|split; [reflexivity|exact Hberr]].
  rewrite deref_store by (subst b1; unfold queue_pushFront; cbn [heap set_queue];
                          rewrite update_stream_length; exact Hlen).
  destruct (deref b p); cbn in *; subst; reflexivity.
Qed.

(** *** Beginning a transaction *)

(** X14. A TxBegin that returns no error was called in the Ready state or
    while streaming an auto-commit query. It leaves the connection in a
    transaction whose handle is the one returned, with no stored error and no
    answer awaited; the last request written is the BEGIN, whose metadata are
    built from the mode, bookmarks, timeout, metadata, impersonated user and
    notification configuration of the call. *)
Theorem TxBegin_succeeds (fuel : nat) (txConfig : TxConfig) (b b' : bolt5) (h : Z) :
  TxBegin fuel txConfig b = Some ((h, None), b') ->
  (state b = bolt5Ready \/ state b = bolt5Streaming) /\
  state b' = bolt5Tx /\ txId b' = h /\ err b' = None /\
  handlers (queue b') = [] /\
  exists tx : internalTx5,
    last (written (conn b')) = Some (MsgBegin (toMeta (Some tx))) /\
    mode tx = Mode txConfig /\ bookmarks tx = Bookmarks txConfig /\
    timeout tx = Timeout txConfig /\ txMeta tx = Meta txConfig /\
    impersonatedUser tx = ImpersonatedUser txConfig /\
    notificationConfig tx = TxNotificationConfig txConfig.
Proof.
  unfold TxBegin. intros Heq.
  destruct (bool_decide (state b = bolt5Streaming)) eqn:Hstreaming.
  - apply bool_decide_eq_true in Hstreaming.
    destruct (bufferStream fuel b) as [b1|]; [|discriminate].
    cbn [mbind option_bind] in Heq.
    destruct (err b1) eqn:Herr1; [discriminate|].
    revert Heq. generalize b1. clear b1 Herr1. intros b1 Heq.
    split; [right; exact Hstreaming|].
    unfold assertState in Heq.
    destruct (err (streams_reset b1)); [discriminate|].
    destruct (decide _); [|discriminate].
    destruct (checkNotificationFiltering _ _); [discriminate|].
    match type of Heq with
    | context [queue_send (queue_appendBegin (toMeta (Some ?t)) _ ?bx)] =>
        set (tx := t) in *; set (b2 := queue_send (queue_appendBegin (toMeta (Some tx))
                                                    beginResponseHandler bx)) in *
    end.
    destruct (err b2) eqn:Herr2; [discriminate|].
    destruct (queue_receiveAll b2) as [[e3|] b3] eqn:Hrecv; [discriminate|].
    destruct (err b3) eqn:Herr3; [discriminate|].
    unfold time_Now in Heq. simplify_eq.
    split; [reflexivity|]. split; [reflexivity|]. split; [exact Herr3|].
    split; [exact (queue_receiveAll_drains _ _ Hrecv)|].
    exists tx. split; [|repeat split; reflexivity].
    cbn [conn set_state set_txId set_now].
    rewrite (queue_receiveAll_written _ _ _ Hrecv).
    subst b2. rewrite (queue_send_written _ Herr2).
    unfold queue_appendBegin. cbn. rewrite app_assoc. apply last_snoc.
  - apply bool_decide_eq_false in Hstreaming.
    cbn [mbind option_bind] in Heq.
    unfold assertState in Heq.
    destruct (err (streams_reset b)); [discriminate|].
    destruct (decide (state (streams_reset b) ∈ [bolt5Ready])) as [Hin|]; [|discriminate].
    apply list_elem_of_singleton in Hin.
    split; [left; exact Hin|].
    destruct (checkNotificationFiltering _ _); [discriminate|].
    match type of Heq with
    | context [queue_send (queue_appendBegin (toMeta (Some ?t)) _ ?bx)] =>
        set (tx := t) in *; set (b2 := queue_send (queue_appendBegin (toMeta (Some tx))
                                                    beginResponseHandler bx)) in *
    end.
    destruct (err b2) eqn:Herr2; [discriminate|].
    destruct (queue_receiveAll b2) as [[e3|] b3] eqn:Hrecv; [discriminate|].
    destruct (err b3) eqn:Herr3; [discriminate|].
    unfold time_Now in Heq. simplify_eq.
    split; [reflexivity|]. split; [reflexivity|]. split; [exact Herr3|].
    split; [exact (queue_receiveAll_drains _ _ Hrecv)|].
    exists tx. split; [|repeat split; reflexivity].
    cbn [conn set_state set_txId set_now].
    rewrite (queue_receiveAll_written _ _ _ Hrecv).
    subst b2. rewrite (queue_send_written _ Herr2).
    unfold queue_appendBegin. cbn. rewrite app_assoc. apply last_snoc.
Qed.

(** *** Answers and the awaited handlers *)

Lemma queue_receive_dispatches (b : bolt5) (m : Response) (rest : list InEvent)
    (h : responseHandler) (hs : list responseHandler) :
  closed (conn b) = false -> incoming (conn b) = Received m :: rest ->
  handlers (queue b) = h :: hs ->
  queue_receive b = (None, dispatch h m (taken rest hs b)).
Proof.
  intros Hopen Hin Hq. unfold queue_receive, conn_Read. rewrite Hopen, Hin.
  cbn [set_conn queue onNextMessage time_Now set_idleDate set_now]. rewrite Hq.
  reflexivity.
Qed.

Lemma checkStreams_queue (b : bolt5) : queue (checkStreams b) = queue b.
Proof. rewrite checkStreams_frame. reflexivity. Qed.

Lemma streamSuccess_handlers (stream : nat) (s : success) (b : bolt5) :
  handlers (queue (streamSuccess stream s b)) = handlers (queue b).
Proof.
  unfold streamSuccess. case_match; [reflexivity|].
  rewrite checkStreams_queue. cbn. case_match; reflexivity.
Qed.

(** Only a RECORD answered to a PULL changes the awaited handlers: it puts
    the PULL handler back in first place. *)
Lemma dispatch_handlers (h : responseHandler) (m : Response) (b : bolt5) :
  handlers (queue (dispatch h m b)) =
  match h, m with
  | pullResponseHandler _, RspRecord _ => h :: handlers (queue b)
  | _, _ => handlers (queue b)
  end.
Proof.
  destruct h, m; unfold dispatch;
    cbn [callbacks_of expectedSuccessHandler onSuccess onRecord onFailure_cb
         onIgnored onUnknown_cb];
    unfold onFailure, onUnknown, streamFailure, streamUnknown, onSuccessNoOp,
      onIgnoredNoOp, routeSuccess, discardSuccess, pullSuccess, pullRecord,
      streamIgnored, runSuccess, streams_attach, onHelloSuccess,
      initializeReadTimeoutHint, onCommitSuccess;
    rewrite ?setError_handlers, ?streamSuccess_handlers, ?checkStreams_queue;
    repeat case_match; reflexivity.
Qed.

(** With one answer awaited and on its way, receiveAll dispatches it and
    stops, unless it is a RECORD answered to a PULL. *)
Lemma queue_receiveAll_single (b : bolt5) (m : Response) (rest : list InEvent)
    (h : responseHandler) :
  closed (conn b) = false -> incoming (conn b) = Received m :: rest ->
  handlers (queue b) = [h] ->
  (forall p, h <> pullResponseHandler p) ->
  queue_receiveAll b = (None, dispatch h m (taken rest [] b)).
Proof.
  intros Hopen Hin Hq Hh. unfold queue_receiveAll. rewrite Hin.
  cbn [length receiveAll_rounds]. unfold queue_isEmpty at 1. rewrite Hq.
  rewrite (queue_receive_dispatches b m rest h [] Hopen Hin Hq).
  apply receiveAll_rounds_idle. rewrite dispatch_handlers.
  destruct h, m; try reflexivity. exfalso. exact (Hh _ eq_refl).
Qed.

(** *** The routing table *)

(** X15. GetRoutingTable on a Ready connection with nothing pending or
    awaited, no current stream and a healthy socket, when the peer's next
    message is [m]: one ROUTE request is written, whose extras name the
    database only if it is not the default one and the impersonated user only
    if there is one; exactly [m] is consumed and nothing is awaited
    afterwards. SUCCESS: the table of the answer is returned and the
    connection stays Ready. FAILURE: the error is returned and stored, and
    the state is Failed for a client error and Dead otherwise. IGNORED:
    neither a table nor an error is returned. RECORD or an unknown message:
    an error is returned and stored and the connection is Dead. *)
Theorem GetRoutingTable_answered (routingContext : option (gmap string string))
    (bookmarks_ : list string) (database user : string) (b : bolt5)
    (m : Response) (rest : list InEvent) :
  state b = bolt5Ready -> err b = None -> idle b -> healthy b ->
  curr (streams b) = None ->
  incoming (conn b) = Received m :: rest ->
  exists r b' extras,
    GetRoutingTable routingContext bookmarks_ database user b = (r, b') /\
    written (conn b') =
      (written (conn b) ++ [MsgRoute routingContext bookmarks_ extras])%list /\
    extras !! "db" =
      (if decide (database = DefaultDatabase) then None else Some (VStr database)) /\
    extras !! "imp_user" = (if decide (user = "") then None else Some (VStr user)) /\
    (forall k, k <> "db" -> k <> "imp_user" -> extras !! k = None) /\
    incoming (conn b') = rest /\
    handlers (queue b') = [] /\
    match m with
    | RspSuccess s => r = (m_routingTable s, None) /\ err b' = None /\ state b' = bolt5Ready
    | RspFailure f =>
        r = (None, Some (ErrNeo4j f)) /\ err b' = Some (ErrNeo4j f) /\
        state b' = (if isFatalError f then bolt5Dead else bolt5Failed)
    | RspIgnored => r = (None, None) /\ err b' = None /\ state b' = bolt5Ready
    | RspRecord _ | RspUnknown _ =>
        r = (None, Some (ErrExpectedSuccess m)) /\
        err b' = Some (ErrExpectedSuccess m) /\ state b' = bolt5Dead
    end.
Proof.
  intros Hst Herr [Hp Hh] [Hopen Hwrite] Hcurr Hin.
  unfold GetRoutingTable, assertState. rewrite Herr.
  rewrite decide_True by (rewrite Hst; apply list_elem_of_singleton; reflexivity).
  unfold queue_appendRoute.
  match goal with
  | |- context [enqueue (MsgRoute _ _ ?x) _ ?bx] =>
      set (extras := x); set (b1 := enqueue (MsgRoute routingContext bookmarks_ extras)
                                      routeResponseHandler bx)
  end.
  assert (Hsend : queue_send b1 =
    set_conn (set_written (written (conn b) ++ [MsgRoute routingContext bookmarks_ extras])
                (conn b))
      (set_queue (set_pending [] (queue b1)) b1)).
  { apply (queue_send_healthy b1 (MsgRoute routingContext bookmarks_ extras) []).
    - split; assumption.
    - subst b1. cbn. rewrite Hp. reflexivity. }
  rewrite Hsend. clear Hsend.
  match goal with
  | |- context [queue_receiveAll ?bx] => set (b2 := bx)
  end.
  assert (Herr2 : err b2 = None) by exact Herr.
  rewrite Herr2.
  rewrite (queue_receiveAll_single b2 m rest routeResponseHandler);
    [|exact Hopen|exact Hin|subst b2 b1; cbn; rewrite Hh; reflexivity|discriminate].
  set (B := taken rest [] b2).
  assert (HB : err B = None /\ state B = bolt5Ready /\ curr (streams B) = None /\
               handlers (queue B) = [] /\ incoming (conn B) = rest /\
               routingSlot B = None /\
               written (conn B) =
                 (written (conn b) ++ [MsgRoute routingContext bookmarks_ extras])%list).
  { subst B b2 b1. cbn. auto 10. }
  destruct HB as (HBerr & HBst & HBcurr & HBh & HBin & HBslot & HBw).
  assert (Hextras :
    extras !! "db" =
      (if decide (database = DefaultDatabase) then None else Some (VStr database)) /\
    extras !! "imp_user" = (if decide (user = "") then None else Some (VStr user)) /\
    (forall k, k <> "db" -> k <> "imp_user" -> extras !! k = None)).
  { subst extras. destruct (decide (database = DefaultDatabase)), (decide (user = ""));
      (split; [|split]);
      try (intros k Hk1 Hk2);
      rewrite ?lookup_insert_ne, ?lookup_insert, ?lookup_empty by congruence;
      reflexivity. }
  clearbody B extras.
  assert (Hfail : forall e, e <> ErrContextCanceled -> e <> ErrDeadlineExceeded ->
            forall fatal,
            exists r b',
              match err (setError (Some e) fatal B) with
              | Some e0 => (None, Some e0, setError (Some e) fatal B)
              | None => (routingSlot (setError (Some e) fatal B), None,
                         setError (Some e) fatal B)
              end = (r, b') /\
              written (conn b') = written (conn B) /\
              incoming (conn b') = rest /\
              handlers (queue b') = [] /\
              r = (None, Some e) /\ err b' = Some e /\
              state b' = (if fatal then bolt5Dead else bolt5Failed)).
  { intros e Hc Hd fatal.
    destruct (setError_fresh e fatal B HBerr HBcurr Hc Hd) as (He & Hs & _ & Hi).
    rewrite He. eexists _, _. split; [reflexivity|].
    rewrite setError_written, setError_handlers, Hi, HBin, HBh, He, Hs.
    repeat split; reflexivity. }
  destruct m as [rec|s|f| |u]; unfold dispatch;
    cbn [callbacks_of expectedSuccessHandler onSuccess onRecord onFailure_cb
         onIgnored onUnknown_cb].
  - unfold onUnknown.
    destruct (Hfail (ErrExpectedSuccess (RspRecord rec)) ltac:(discriminate)
                ltac:(discriminate) true) as (r & b' & Heq & Hw & Hrest).
    exists r, b', extras. rewrite <- HBw, <- Hw. tauto.
  - unfold routeSuccess. cbn [err set_routingSlot routingSlot]. rewrite HBerr.
    eexists _, _, extras. split; [reflexivity|].
    cbn [conn queue err state set_routingSlot]. tauto.
  - unfold onFailure.
    destruct (Hfail (ErrNeo4j f) ltac:(discriminate) ltac:(discriminate) (isFatalError f))
      as (r & b' & Heq & Hw & Hrest).
    exists r, b', extras. rewrite <- HBw, <- Hw. tauto.
  - unfold onIgnoredNoOp. rewrite HBerr, HBslot.
    eexists _, _, extras. split; [reflexivity|]. tauto.
  - unfold onUnknown.
    destruct (Hfail (ErrExpectedSuccess (RspUnknown u)) ltac:(discriminate)
                ltac:(discriminate) true) as (r & b' & Heq & Hw & Hrest).
    exists r, b', extras. rewrite <- HBw, <- Hw. tauto.
Qed.

(** *** A stream that ends abnormally *)

(** X16. A FAILURE or an IGNORED answered to the PULL or DISCARD of the
    current stream, on a connection without a stored error. FAILURE: the
    error becomes the terminal error of the stream (which has no summary) and
    the stored error of the connection, the stream is removed from the
    registry, and the state is Failed for a client error and Dead otherwise.
    IGNORED: the stream gets the terminal error that it was interrupted
    (while pulling, or while discarding), it is removed from the registry,
    and no error is stored on the connection. *)
Theorem stream_ends_abnormally (p : nat) (b : bolt5) (f : Neo4jError)
    (h : responseHandler) (doing : string) :
  h = pullResponseHandler p /\ doing = "pulling" \/
  h = discardResponseHandler p /\ doing = "discarding" ->
  (p < length (heap b))%nat -> err b = None -> curr (streams b) = Some p ->
  (let b' := dispatch h (RspFailure f) b in
   s_err (deref b' p) = Some (ErrNeo4j f) /\ s_sum (deref b' p) = None /\
   err b' = Some (ErrNeo4j f) /\
   state b' = (if isFatalError f then bolt5Dead else bolt5Failed) /\
   curr (streams b') = None /\ num (streams b') = num (streams b) - 1) /\
  (let b' := dispatch h RspIgnored b in
   s_err (deref b' p) = Some (ErrStreamInterrupted doing) /\
   err b' = None /\
   curr (streams b') = None /\ num (streams b') = num (streams b) - 1).
Proof.
  intros Hh Hlen Herr Hcurr.
  assert (Hfailure :
    let b' := streamFailure p f b in
    s_err (deref b' p) = Some (ErrNeo4j f) /\ s_sum (deref b' p) = None /\
    err b' = Some (ErrNeo4j f) /\
    state b' = (if isFatalError f then bolt5Dead else bolt5Failed) /\
    curr (streams b') = None /\ num (streams b') = num (streams b) - 1).
  { cbv zeta. unfold streamFailure.
    set (b1 := update_stream p (set_s_err (Some (ErrNeo4j f))) b).
    rewrite setError_stages.
    destruct (setError_log_frame (ErrNeo4j f)
                (setError_forward (ErrNeo4j f)
                   (setError_record (ErrNeo4j f) (isFatalError f) b1))) as [l ->].
    set (b2 := setError_record (ErrNeo4j f) (isFatalError f) b1).
    assert (H2 : err b2 = Some (ErrNeo4j f) /\
                 state b2 = (if isFatalError f then bolt5Dead else bolt5Failed) /\
                 streams b2 = streams b /\ heap b2 = heap b1).
    { subst b2. unfold setError_record, handleTerminatedContextError.
      change (err b1) with (err b). rewrite Herr.
      destruct (isFatalError f); repeat split; reflexivity. }
    destruct H2 as (He2 & Hs2 & Hst2 & Hh2).
    assert (Hlen2 : (p < length (heap b2))%nat).
    { rewrite Hh2. subst b1. rewrite update_stream_length. exact Hlen. }
    unfold setError_forward, streams_detach. rewrite Hst2, Hcurr.
    set (b3 := update_stream p (fun st => set_s_err (Some (ErrNeo4j f)) (set_s_sum None st)) b2).
    assert (Hlen3 : (p < length (heap b3))%nat)
      by (subst b3; rewrite update_stream_length; exact Hlen2).
    match goal with
    | |- context [set_log l ?bx] =>
        change (deref (set_log l bx) p) with (deref bx p);
        change (err (set_log l bx)) with (err bx);
        change (state (set_log l bx)) with (state bx);
        change (streams (set_log l bx)) with (streams bx)
    end.
    rewrite deref_checkStreams, checkStreams_err.
    rewrite streams_remove_deref by exact Hlen3.
    rewrite (checkStreams_frame (streams_remove p b3)).
    cbn [streams set_state state].
    destruct (streams_remove_frame p b3) as (Hn & Hc & _ & Hs & _).
    rewrite Hn, Hc.
    assert (Hs3 : state (streams_remove p b3) = state b2) by exact Hs.
    rewrite checkStreams_settled by (rewrite Hs3, Hs2; destruct (isFatalError f); discriminate).
    rewrite Hs3, Hs2.
    change (streams b3) with (streams b2). rewrite Hst2, Hcurr.
    rewrite decide_True by reflexivity.
    subst b3. rewrite deref_update_stream by exact Hlen2.
    repeat split; try reflexivity. exact He2. }
  assert (Hignored :
    let b' := streamIgnored doing p b in
    s_err (deref b' p) = Some (ErrStreamInterrupted doing) /\
    err b' = None /\
    curr (streams b') = None /\ num (streams b') = num (streams b) - 1).
  { cbv zeta. unfold streamIgnored.
    set (b1 := update_stream p (set_s_err (Some (ErrStreamInterrupted doing))) b).
    assert (Hlen1 : (p < length (heap b1))%nat)
      by (subst b1; rewrite update_stream_length; exact Hlen).
    rewrite deref_checkStreams, checkStreams_err.
    rewrite streams_remove_deref by exact Hlen1.
    rewrite (checkStreams_frame (streams_remove p b1)).
    cbn [streams set_state].
    destruct (streams_remove_frame p b1) as (Hn & Hc & _ & _ & _).
    rewrite Hn, Hc.
    change (streams b1) with (streams b). rewrite Hcurr.
    rewrite decide_True by reflexivity.
    subst b1. rewrite deref_update_stream by exact Hlen.
    repeat split; try reflexivity. exact Herr. }
  destruct Hh as [[-> ->]|[-> ->]]; split; first [exact Hfailure|exact Hignored].
Qed.

(** *** Pumping a stream to its end *)

(** One RECORD received for the only stream: it is buffered under the keys of
    the stream, or dropped when the stream is being discarded, and the
    connection goes on streaming. *)
Lemma pullRecord_step (p : nat) (r : dbRecord) (rest : list InEvent) (b : bolt5) :
  streaming_only p b ->
  let b1 := dispatch (pullResponseHandler p) (RspRecord r) (taken rest [] b) in
  streaming_only p b1 /\
  incoming (conn b1) = rest /\ written (conn b1) = written (conn b) /\
  state b1 = state b /\ bookmark b1 = bookmark b /\
  serverVersion b1 = serverVersion b /\ minor b1 = minor b /\
  serverName b1 = serverName b /\
  s_tfirst (deref b1 p) = s_tfirst (deref b p) /\
  s_keys (deref b1 p) = s_keys (deref b p) /\
  s_discarding (deref b1 p) = s_discarding (deref b p) /\
  s_fifo (deref b1 p) =
    (if s_discarding (deref b p) then []
     else s_fifo (deref b p) ++ [keyed (s_keys (deref b p)) r])%list.
Proof.
  intros (Hopen & Herr & Hst & Hcurr & Hnum & Hlen & Hsum & Hserr & Hq). cbv zeta.
  unfold dispatch. cbn [callbacks_of onRecord]. unfold pullRecord.
  change (deref (taken rest [] b) p) with (deref b p).
  assert (Hlen' : (p < length (heap (taken rest [] b)))%nat) by exact Hlen.
  unfold streaming_only.
  destruct (s_discarding (deref b p)) eqn:Hd;
    match goal with
    | |- context [queue_pushFront ?h (update_stream p ?f ?bx)] =>
        change (deref (queue_pushFront h (update_stream p f bx)) p)
          with (deref (update_stream p f bx) p);
        rewrite !(deref_update_stream bx p f Hlen');
        change (deref bx p) with (deref b p)
    end;
    cbn [queue_pushFront conn queue err state streams heap set_queue handlers
         set_handlers bookmark serverVersion minor serverName];
    rewrite ?update_stream_length;
    cbn [stream_emptyRecords stream_push s_sum s_err s_fifo s_keys s_tfirst
         s_discarding set_s_fifo];
    repeat split; try assumption; try reflexivity.
Qed.

(** The final SUCCESS received for the only stream: the stream gets its
    summary and leaves the registry, a non-empty bookmark is taken over, and
    the connection leaves the streaming state. *)
Lemma pullSuccess_final (p : nat) (s : success) (rest : list InEvent) (b : bolt5) :
  m_hasMore s = false -> streaming_only p b ->
  let b' := dispatch (pullResponseHandler p) (RspSuccess s) (taken rest [] b) in
  err b' = None /\ handlers (queue b') = [] /\ incoming (conn b') = rest /\
  written (conn b') = written (conn b) /\
  state b' = match state b with bolt5StreamingTx => bolt5Tx | _ => bolt5Ready end /\
  curr (streams b') = None /\ num (streams b') = 0 /\
  bookmark b' = (if decide (m_bookmark s = "") then bookmark b else m_bookmark s) /\
  s_err (deref b' p) = None /\
  s_sum (deref b' p) = Some (summary_of s p b) /\
  s_fifo (deref b' p) = (if s_discarding (deref b p) then [] else s_fifo (deref b p)).
Proof.
  intros Hmore (Hopen & Herr & Hst & Hcurr & Hnum & Hlen & Hsum & Hserr & Hq). cbv zeta.
  rewrite dispatch_handlers, dispatch_written.
  destruct (dispatch_bookmark (pullResponseHandler p) (RspSuccess s) (taken rest [] b))
    as [_ ->].
  unfold dispatch. cbn [callbacks_of onSuccess]. unfold pullSuccess.
  change (deref (taken rest [] b) p) with (deref b p).
  set (B := taken rest [] b).
  set (b1 := if s_discarding (deref b p) then update_stream p stream_emptyRecords B else B).
  assert (Hlen1 : (p < length (heap b1))%nat).
  { subst b1. case_match; [rewrite update_stream_length|]; exact Hlen. }
  assert (Hb1 : state b1 = state b /\ streams b1 = streams b /\ err b1 = None /\
                bookmark b1 = bookmark b /\ serverVersion b1 = serverVersion b /\
                minor b1 = minor b /\ serverName b1 = serverName b /\
                s_sum (deref b1 p) = None /\ s_err (deref b1 p) = None /\
                s_tfirst (deref b1 p) = s_tfirst (deref b p) /\
                s_fifo (deref b1 p) =
                  (if s_discarding (deref b p) then [] else s_fifo (deref b p))).
  { subst b1. destruct (s_discarding (deref b p)).
    - rewrite (deref_update_stream B p _ Hlen).
      change (deref B p) with (deref b p). cbn. auto 12.
    - change (deref B p) with (deref b p). cbn. auto 12. }
  destruct Hb1 as (Hst1 & Hstr1 & Herr1 & Hbm1 & Hsv & Hmi & Hsn & Hsum1 & Hserr1 & Htf & Hfifo).
  clearbody b1.
  unfold streamSuccess. rewrite Hmore.
  unfold extractSummary, success_summary. cbn [sum_Bookmark].
  set (sm := {| sum_Bookmark := m_bookmark s; sum_Agent := serverVersion b1;
                sum_Major := 5; sum_Minor := minor b1;
                sum_ServerName := serverName b1;
                sum_TFirst := s_tfirst (deref b1 p) |}).
  assert (Hsm : sm = summary_of s p b).
  { subst sm. unfold summary_of. rewrite Hsv, Hmi, Hsn, Htf. reflexivity. }
  set (b2 := if (0 <? Z.of_nat (String.length (m_bookmark s)))%Z
             then set_bookmark (m_bookmark s) b1 else b1).
  assert (Hb2 : heap b2 = heap b1 /\ streams b2 = streams b1 /\ state b2 = state b1 /\
                err b2 = err b1 /\
                bookmark b2 = (if decide (m_bookmark s = "") then bookmark b
                               else m_bookmark s)).
  { subst b2. destruct (m_bookmark s) eqn:Hm; cbn; repeat split; try tauto.
    all: case_decide; congruence. }
  destruct Hb2 as (Hh2 & Hstr2 & Hst2 & Herr2 & Hbm2).
  assert (Hlen2 : (p < length (heap b2))%nat) by (rewrite Hh2; exact Hlen1).
  assert (Hd2 : deref b2 p = deref b1 p) by (unfold deref; rewrite Hh2; reflexivity).
  clearbody b2.
  set (b3 := update_stream p (set_s_sum (Some sm)) b2).
  assert (Hlen3 : (p < length (heap b3))%nat)
    by (subst b3; rewrite update_stream_length; exact Hlen2).
  rewrite checkStreams_state, deref_checkStreams, checkStreams_err.
  rewrite streams_remove_deref by exact Hlen3.
  rewrite (checkStreams_frame (streams_remove p b3)).
  cbn [bookmark streams set_state].
  destruct (streams_remove_frame p b3) as (-> & -> & _ & -> & ->).
  subst b3. rewrite deref_update_stream by exact Hlen2.
  cbn [update_stream store set_heap streams state bookmark s_sum s_key set_s_key
       set_s_sum s_err s_fifo].
  change (err (streams_remove p (update_stream p (set_s_sum (Some sm)) b2)))
    with (err b2).
  rewrite Hstr2, Hstr1, Hst2, Hst1, Hbm2, Herr2, Herr1, Hd2, Hserr1, Hfifo, Hsm, Hcurr, Hnum.
  rewrite decide_True by reflexivity. cbn [Z.sub Z.leb Z.compare Z.pos_sub].
  repeat split; try reflexivity.
  destruct Hst as [-> | ->]; reflexivity.
Qed.

(** receiveAll on the only stream, with the rest of its records and the final
    SUCCESS on their way, pumps the stream to its end. *)
Lemma pump_records (p : nat) (s : success) (rest : list InEvent) :
  m_hasMore s = false ->
  forall (recs : list dbRecord) (n : nat) (b : bolt5),
    streaming_only p b ->
    incoming (conn b) = records_then recs s rest ->
    (length recs <= n)%nat ->
    exists b',
      receiveAll_rounds n b = (None, b') /\
      err b' = None /\ handlers (queue b') = [] /\ incoming (conn b') = rest /\
      written (conn b') = written (conn b) /\
      state b' = match state b with bolt5StreamingTx => bolt5Tx | _ => bolt5Ready end /\
      curr (streams b') = None /\ num (streams b') = 0 /\
      bookmark b' = (if decide (m_bookmark s = "") then bookmark b else m_bookmark s) /\
      s_err (deref b' p) = None /\
      s_sum (deref b' p) = Some (summary_of s p b) /\
      s_fifo (deref b' p) =
        (if s_discarding (deref b p) then []
         else s_fifo (deref b p) ++ map (keyed (s_keys (deref b p))) recs)%list.
Proof.
  intros Hmore. induction recs as [|r recs IH]; intros n b Hb Hin Hn.
  - unfold records_then in Hin. cbn [map app] in Hin.
    pose proof Hb as (Hopen & _ & _ & _ & _ & _ & _ & _ & Hq).
    destruct (pullSuccess_final p s rest b Hmore Hb)
      as (He & Hh & Hi & Hw & Hs & Hc & Hnum & Hbm & Hse & Hsum & Hf).
    eexists. split.
    + destruct n; cbn [receiveAll_rounds]; unfold queue_isEmpty at 1; rewrite Hq;
        rewrite (queue_receive_dispatches b _ rest _ [] Hopen Hin Hq); [reflexivity|].
      apply receiveAll_rounds_idle. exact Hh.
    + rewrite app_nil_r. destruct (s_discarding (deref b p)); auto 12.
  - unfold records_then in Hin. cbn [map app] in Hin.
    pose proof Hb as (Hopen & _ & _ & _ & _ & _ & _ & _ & Hq).
    destruct n as [|n]; [cbn in Hn; lia|].
    destruct (pullRecord_step p r (records_then recs s rest) b Hb)
      as (Hb1 & Hi1 & Hw1 & Hs1 & Hbm1 & Hsv1 & Hmi1 & Hsn1 & Htf1 & Hk1 & Hd1 & Hf1).
    destruct (IH n _ Hb1 Hi1 ltac:(cbn in Hn; lia))
      as (b' & Hrecv & He & Hh & Hi & Hw & Hs & Hc & Hnum & Hbm & Hse & Hsum & Hf).
    exists b'. split.
    + cbn [receiveAll_rounds]. unfold queue_isEmpty at 1. rewrite Hq.
      rewrite (queue_receive_dispatches b _ _ _ [] Hopen Hin Hq). exact Hrecv.
    + rewrite Hw, Hs, Hbm, Hsum, Hf, Hw1, Hs1, Hbm1, Hd1, Hf1, Hk1.
      unfold summary_of. rewrite Hsv1, Hmi1, Hsn1, Htf1.
      repeat split; try assumption; try reflexivity.
      destruct (s_discarding (deref b p)); [reflexivity|].
      cbn [map]. rewrite <- app_assoc. reflexivity.
Qed.

Lemma records_then_length (recs : list dbRecord) (s : success) (rest : list InEvent) :
  (length recs <= length (records_then recs s rest))%nat.
Proof. unfold records_then. rewrite length_app, length_map. lia. Qed.

Lemma checkStream_current (p : nat) (b : bolt5) :
  streaming_only p b -> s_key (deref b p) = key (streams b) ->
  checkStream (HandleStream p) b = (StreamCurrent p, b).
Proof.
  intros (Hopen & Herr & Hst & Hcurr & Hnum & Hlen & Hsum & Hserr & Hq) Hkey.
  unfold checkStream, stream_done, streams_isSafe, assertState.
  cbn [streams_getUnsafe]. rewrite Hsum, Hserr, Herr.
  rewrite decide_True by exact Hkey.
  rewrite (decide_True (P := state b ∈ [bolt5Streaming; bolt5StreamingTx]))
    by (destruct Hst as [Hs|Hs]; rewrite Hs, !elem_of_cons; auto).
  rewrite decide_True by exact Hcurr. reflexivity.
Qed.

(** X17. Buffer on the only stream of the connection, unfinished and safe,
    when the peer sends the rest of its records followed by a final SUCCESS:
    Buffer returns no error; the stream holds what it had buffered followed
    by the received records in order, each under the keys of the stream, and
    has the summary of the SUCCESS; the connection has left the streaming
    state (Ready, or Tx inside a transaction), taken over a non-empty
    bookmark, written nothing, and awaits nothing. *)
Theorem Buffer_collects (fuel : nat) (p : nat) (b : bolt5) (recs : list dbRecord)
    (s : success) (rest : list InEvent) :
  streaming_only p b -> s_key (deref b p) = key (streams b) ->
  s_discarding (deref b p) = false ->
  m_hasMore s = false ->
  incoming (conn b) = records_then recs s rest ->
  exists b',
    Buffer (S fuel) (HandleStream p) b = Some (None, b') /\
    s_fifo (deref b' p) =
      (s_fifo (deref b p) ++ map (keyed (s_keys (deref b p))) recs)%list /\
    s_sum (deref b' p) = Some (summary_of s p b) /\
    state b' = match state b with bolt5StreamingTx => bolt5Tx | _ => bolt5Ready end /\
    bookmark b' = (if decide (m_bookmark s = "") then bookmark b else m_bookmark s) /\
    err b' = None /\ handlers (queue b') = [] /\
    incoming (conn b') = rest /\ written (conn b') = written (conn b).
Proof.
  intros Hb Hkey Hd Hmore Hin.
  destruct (pump_records p s rest Hmore recs (length (incoming (conn b))) b Hb Hin
              ltac:(rewrite Hin; apply records_then_length))
    as (b' & Hrecv & He & Hh & Hi & Hw & Hs & Hc & Hnum & Hbm & Hse & Hsum & Hf).
  exists b'. unfold Buffer. rewrite (checkStream_current p b Hb Hkey).
  pose proof Hb as (_ & _ & _ & Hcurr & _).
  unfold bufferStream. rewrite Hcurr. cbn [bufferStream_loop].
  unfold queue_receiveAll. rewrite Hrecv, He.
  unfold stream_done. rewrite Hsum. cbn [mbind option_bind].
  unfold stream_Err. rewrite Hse, Hf, Hd. auto 10.
Qed.

(** X18. Consume on the only stream of the connection, unfinished and safe,
    when the peer sends the rest of its records followed by a final SUCCESS:
    Consume returns the summary of the SUCCESS and no error; the records
    received and those buffered before are dropped; the connection has left
    the streaming state (Ready, or Tx inside a transaction), taken over a
    non-empty bookmark, written nothing (no DISCARD is sent), and awaits
    nothing. *)
Theorem Consume_discards (fuel : nat) (p : nat) (b : bolt5) (recs : list dbRecord)
    (s : success) (rest : list InEvent) :
  streaming_only p b -> s_key (deref b p) = key (streams b) ->
  m_hasMore s = false ->
  incoming (conn b) = records_then recs s rest ->
  exists b',
    Consume (S fuel) (HandleStream p) b = Some ((Some (summary_of s p b), None), b') /\
    s_fifo (deref b' p) = [] /\
    state b' = match state b with bolt5StreamingTx => bolt5Tx | _ => bolt5Ready end /\
    bookmark b' = (if decide (m_bookmark s = "") then bookmark b else m_bookmark s) /\
    err b' = None /\ handlers (queue b') = [] /\
    incoming (conn b') = rest /\ written (conn b') = written (conn b).
Proof.
  intros Hb Hkey Hmore Hin.
  pose proof Hb as (Hopen & Herr & Hst & Hcurr & Hnum & Hlen & Hsum0 & Hserr & Hq).
  set (b0 := update_stream p (set_s_discarding true) b).
  assert (Hd0 : deref b0 p = set_s_discarding true (deref b p))
    by (subst b0; apply deref_update_stream, Hlen).
  assert (Hb0 : streaming_only p b0).
  { unfold streaming_only. rewrite Hd0. subst b0. rewrite update_stream_length.
    cbn [update_stream store conn err state streams queue set_heap s_sum s_err
         set_s_discarding].
    auto 12. }
  destruct (pump_records p s rest Hmore recs (length (incoming (conn b0))) b0 Hb0 Hin
              ltac:(change (incoming (conn b0)) with (incoming (conn b)); rewrite Hin;
                    apply records_then_length))
    as (b' & Hrecv & He & Hh & Hi & Hw & Hs & Hc & Hnum' & Hbm & Hse & Hsum & Hf).
  exists b'. unfold Consume. rewrite (checkStream_current p b Hb Hkey).
  unfold discardStream.
  rewrite decide_False by (destruct Hst as [Hs'|Hs']; rewrite Hs'; intros [? ?]; congruence).
  rewrite Hcurr. fold b0. cbn [discardStream_loop].
  unfold queue_receiveAll. rewrite Hrecv, He.
  unfold stream_done. rewrite Hsum. cbn [mbind option_bind].
  rewrite Hse, Hsum, Hf, Hd0. cbn [s_discarding set_s_discarding].
  assert (Hsm : summary_of s p b0 = summary_of s p b).
  { unfold summary_of. rewrite Hd0. reflexivity. }
  rewrite Hsm. auto 10.
Qed.

(** *** When the stream count drops *)











(** *** What an operation writes *)

Lemma setError_queue (e : option error) (fatal : bool) (b : bolt5) :
  queue (setError e fatal b) = queue b.
Proof.
  destruct e as [e|]; [|reflexivity].
  rewrite setError_stages.
  destruct (setError_log_frame e (setError_forward e (setError_record e fatal b)))
    as [l ->].
  cbn [queue set_log].
  assert (Hrec : queue (setError_record e fatal b) = queue b).
  { unfold setError_record, handleTerminatedContextError.
    repeat case_match; simplify_eq; reflexivity. }
  unfold setError_forward. case_match; [|exact Hrec].
  rewrite checkStreams_queue. unfold streams_detach. case_match; exact Hrec.
Qed.

Lemma streamSuccess_queue (stream : nat) (s : success) (b : bolt5) :
  queue (streamSuccess stream s b) = queue b.
Proof.
  unfold streamSuccess. case_match; [reflexivity|].
  rewrite checkStreams_queue. cbn. case_match; reflexivity.
Qed.

Lemma dispatch_pending (h : responseHandler) (m : Response) (b : bolt5) :
  pending (queue (dispatch h m b)) = pending (queue b).
Proof.
  destruct h, m; unfold dispatch;
    cbn [callbacks_of expectedSuccessHandler onSuccess onRecord onFailure_cb
         onIgnored onUnknown_cb];
    unfold onFailure, onUnknown, streamFailure, streamUnknown, onSuccessNoOp,
      onIgnoredNoOp, routeSuccess, discardSuccess, pullSuccess, pullRecord,
      streamIgnored, runSuccess, streams_attach, onHelloSuccess,
      initializeReadTimeoutHint, onCommitSuccess;
    rewrite ?setError_queue, ?streamSuccess_queue, ?checkStreams_queue;
    repeat case_match; reflexivity.
Qed.

Lemma queue_receive_pending (b b' : bolt5) (e : option error) :
  queue_receive b = (e, b') -> pending (queue b') = pending (queue b).
Proof.
  unfold queue_receive, conn_Read, onNextMessageError. intros Heq.
  repeat case_match; simplify_eq;
    rewrite ?setError_queue, ?dispatch_pending; reflexivity.
Qed.

Lemma receiveAll_rounds_pending (n : nat) :
  forall (b b' : bolt5) (e : option error),
    receiveAll_rounds n b = (e, b') -> pending (queue b') = pending (queue b).
Proof.
  induction n as [|n IH]; intros b b' e; simpl;
    (destruct (queue_isEmpty b); [intros; simplify_eq; reflexivity|]);
    destruct (queue_receive b) as [[e1|] b1] eqn:Hrecv; intros Heq;
    apply queue_receive_pending in Hrecv; simplify_eq; try assumption.
  rewrite <- Hrecv. eapply IH. eassumption.
Qed.

Lemma queue_receiveAll_pending (b b' : bolt5) (e : option error) :
  queue_receiveAll b = (e, b') -> pending (queue b') = pending (queue b).
Proof. apply receiveAll_rounds_pending. Qed.

(** No response brings a connection into StreamingTx. *)
Lemma checkStreams_out_of_tx (b : bolt5) :
  state b <> bolt5StreamingTx -> state (checkStreams b) <> bolt5StreamingTx.
Proof. rewrite checkStreams_state. intros Hs. repeat case_match; congruence. Qed.

Lemma setError_out_of_tx (e : option error) (fatal : bool) (b : bolt5) :
  state b <> bolt5StreamingTx -> state (setError e fatal b) <> bolt5StreamingTx.
Proof.
  intros Hs. destruct e as [e|]; [|exact Hs].
  destruct (setError_state_err e fatal b) as [-> _].
  assert (Hrec : state (setError_record e fatal b) <> bolt5StreamingTx).
  { unfold setError_record, handleTerminatedContextError.
    repeat case_match; simplify_eq; cbn; congruence. }
  unfold setError_forward. case_match; [|exact Hrec].
  apply checkStreams_out_of_tx.
  destruct (streams_detach_state_err None (Some e) (setError_record e fatal b)) as [-> _].
  exact Hrec.
Qed.

Lemma streamSuccess_out_of_tx (stream : nat) (s : success) (b : bolt5) :
  state b <> bolt5StreamingTx -> state (streamSuccess stream s b) <> bolt5StreamingTx.
Proof.
  intros Hs. unfold streamSuccess. case_match; [exact Hs|].
  apply checkStreams_out_of_tx.
  match goal with
  | |- context [streams_remove stream ?X] =>
      destruct (streams_remove_frame stream X) as (_ & _ & _ & -> & _)
  end.
  cbn. case_match; exact Hs.
Qed.

Lemma streamIgnored_out_of_tx (doing : string) (stream : nat) (b : bolt5) :
  state b <> bolt5StreamingTx -> state (streamIgnored doing stream b) <> bolt5StreamingTx.
Proof.
  intros Hs. unfold streamIgnored. apply checkStreams_out_of_tx.
  match goal with
  | |- context [streams_remove stream ?X] =>
      destruct (streams_remove_frame stream X) as (_ & _ & _ & -> & _)
  end.
  exact Hs.
Qed.

Lemma dispatch_out_of_tx (h : responseHandler) (m : Response) (b : bolt5) :
  state b <> bolt5StreamingTx -> state (dispatch h m b) <> bolt5StreamingTx.
Proof.
  intros Hs.
  destruct h, m; unfold dispatch;
    cbn [callbacks_of expectedSuccessHandler onSuccess onRecord onFailure_cb
         onIgnored onUnknown_cb];
    unfold onFailure, onUnknown, streamFailure, streamUnknown, onSuccessNoOp,
      onIgnoredNoOp, routeSuccess, discardSuccess, pullSuccess, pullRecord,
      onHelloSuccess, onCommitSuccess;
    try (apply setError_out_of_tx); try (apply streamSuccess_out_of_tx);
    try (apply streamIgnored_out_of_tx);
    rewrite ?runSuccess_state;
    try match goal with
        | |- context [initializeReadTimeoutHint ?hints ?X] =>
            destruct (initializeReadTimeoutHint_state hints X) as [-> _]
        end;
    repeat case_match; cbn; try exact Hs; try discriminate.
Qed.

Lemma queue_send_out_of_tx (b : bolt5) :
  state b <> bolt5StreamingTx -> state (queue_send b) <> bolt5StreamingTx.
Proof.
  intros Hs. unfold queue_send, conn_Write.
  repeat case_match; simplify_eq; try exact Hs; apply setError_out_of_tx; exact Hs.
Qed.

Lemma queue_receive_out_of_tx (b b' : bolt5) (e : option error) :
  queue_receive b = (e, b') ->
  state b <> bolt5StreamingTx -> state b' <> bolt5StreamingTx.
Proof.
  unfold queue_receive, conn_Read, onNextMessageError. intros Heq Hs.
  repeat case_match; simplify_eq;
    first [apply setError_out_of_tx | apply dispatch_out_of_tx]; exact Hs.
Qed.

Lemma receiveAll_rounds_out_of_tx (n : nat) :
  forall (b b' : bolt5) (e : option error),
    receiveAll_rounds n b = (e, b') ->
    state b <> bolt5StreamingTx -> state b' <> bolt5StreamingTx.
Proof.
  induction n as [|n IH]; intros b b' e; simpl;
    (destruct (queue_isEmpty b); [intros; simplify_eq; assumption|]);
    destruct (queue_receive b) as [[e1|] b1] eqn:Hrecv; intros Heq Hs;
    apply queue_receive_out_of_tx in Hrecv; simplify_eq; eauto.
Qed.

Lemma queue_receiveAll_out_of_tx (b b' : bolt5) (e : option error) :
  queue_receiveAll b = (e, b') ->
  state b <> bolt5StreamingTx -> state b' <> bolt5StreamingTx.
Proof. apply receiveAll_rounds_out_of_tx. Qed.

Lemma appendPullN_state (stream : nat) (b : bolt5) :
  state (appendPullN stream b) = state b.
Proof. unfold appendPullN. repeat case_match; simplify_eq; cbn; congruence. Qed.

Lemma appendDiscard_state (stream : nat) (b : bolt5) :
  state (appendDiscard stream b) = state b.
Proof. unfold appendDiscard. case_match; reflexivity. Qed.

Section Sent.
Variable P : Request -> Prop.
Variable b0 : bolt5.

Lemma sent_start : Forall P (pending (queue b0)) -> sent_within P b0 b0.
Proof.
  intros Hp. split; [|exact Hp]. exists []. rewrite app_nil_r. split; constructor.
Qed.

Lemma sent_same (b b' : bolt5) :
  written (conn b') = written (conn b) -> pending (queue b') = pending (queue b) ->
  sent_within P b0 b -> sent_within P b0 b'.
Proof. unfold sent_within. intros -> ->. tauto. Qed.

Lemma sent_enqueue (m : Request) (h : responseHandler) (b : bolt5) :
  P m -> sent_within P b0 b -> sent_within P b0 (enqueue m h b).
Proof.
  intros Hm [Hw Hp]. split; [exact Hw|]. cbn.
  apply Forall_app. split; [exact Hp|]. constructor; [exact Hm|constructor].
Qed.

Lemma sent_queue_send (b : bolt5) :
  sent_within P b0 b -> sent_within P b0 (queue_send b).
Proof.
  intros [(sent & Hw & Hs) Hp]. unfold queue_send, conn_Write.
  destruct (pending (queue b)) as [|m msgs] eqn:Hq; [split; [eauto|rewrite Hq; constructor]|].
  destruct (closed (conn b));
    [split; [rewrite setError_written|rewrite setError_queue]; cbn; eauto|].
  destruct (writeErr (conn b));
    [split; [rewrite setError_written|rewrite setError_queue]; cbn; eauto|].
  split; [|constructor]. exists (sent ++ m :: msgs)%list. cbn.
  rewrite Hw, app_assoc. split; [reflexivity|]. apply Forall_app. split; assumption.
Qed.

Lemma sent_queue_receive (b b' : bolt5) (e : option error) :
  queue_receive b = (e, b') -> sent_within P b0 b -> sent_within P b0 b'.
Proof.
  intros Heq. apply sent_same;
    [exact (queue_receive_written _ _ _ Heq)|exact (queue_receive_pending _ _ _ Heq)].
Qed.

Lemma sent_queue_receiveAll (b b' : bolt5) (e : option error) :
  queue_receiveAll b = (e, b') -> sent_within P b0 b -> sent_within P b0 b'.
Proof.
  intros Heq. apply sent_same;
    [exact (queue_receiveAll_written _ _ _ Heq)
    |exact (queue_receiveAll_pending _ _ _ Heq)].
Qed.

Lemma sent_appendPullN (stream : nat) (b : bolt5) :
  (forall n, P (MsgPullN n)) ->
  state b <> bolt5StreamingTx ->
  sent_within P b0 b -> sent_within P b0 (appendPullN stream b).
Proof.
  intros HP Hs Hb. unfold appendPullN, queue_appendPullN.
  destruct (state b); try exact Hb; try congruence.
  apply sent_enqueue; [apply HP|exact Hb].
Qed.

Lemma sent_appendDiscard (stream : nat) (b : bolt5) :
  (forall n, P (MsgDiscardN n)) ->
  (forall n q, P (MsgDiscardNQid n q)) \/ state b <> bolt5StreamingTx ->
  sent_within P b0 b -> sent_within P b0 (appendDiscard stream b).
Proof.
  intros HP HQ Hb. unfold appendDiscard, queue_appendDiscardN, queue_appendDiscardNQid.
  destruct (decide _) as [[Hs _]|_]; apply sent_enqueue; try exact Hb; try apply HP.
  destruct HQ as [HQ|HQ]; [apply HQ|contradiction].
Qed.

Lemma sent_pauseStream (b : bolt5) :
  sent_within P b0 b -> sent_within P b0 (pauseStream b).
Proof.
  unfold pauseStream. intros Hb. case_match; [|exact Hb].
  destruct (queue_receiveAll b) as [e b1] eqn:Hrecv.
  apply sent_queue_receiveAll in Hrecv; [|exact Hb].
  repeat case_match; assumption.
Qed.

Lemma sent_bufferStream_loop (fuel : nat) (stream : nat) :
  (forall n, P (MsgPullN n)) ->
  forall b b' : bolt5,
    bufferStream_loop fuel stream b = Some b' ->
    state b <> bolt5StreamingTx -> sent_within P b0 b ->
    sent_within P b0 b'.
Proof.
  intros HP. induction fuel as [|fuel IH]; intros b b'; simpl; [discriminate|].
  destruct (queue_receiveAll b) as [e b1] eqn:Hrecv. intros Heq Hs Hb.
  pose proof (queue_receiveAll_out_of_tx _ _ _ Hrecv Hs) as Hs1.
  apply sent_queue_receiveAll in Hrecv; [|exact Hb].
  destruct e; [simplify_eq; assumption|].
  destruct (err b1); [simplify_eq; assumption|].
  destruct (stream_done _); [simplify_eq; assumption|].
  destruct (s_endOfBatch _); [|eapply IH; eassumption].
  set (b2 := queue_send _) in *.
  assert (Hb2 : sent_within P b0 b2 /\ state b2 <> bolt5StreamingTx).
  { subst b2. split.
    - apply sent_queue_send, sent_appendPullN; [exact HP|exact Hs1|].
      revert Hrecv. apply sent_same; reflexivity.
    - apply queue_send_out_of_tx. rewrite appendPullN_state. exact Hs1. }
  destruct Hb2 as [Hb2 Hs2]. clearbody b2.
  destruct (err b2); [simplify_eq; assumption|].
  eapply IH; eassumption.
Qed.

Lemma sent_discardStream_loop (fuel : nat) (stream : nat) :
  (forall n, P (MsgDiscardN n)) ->
  forall (discarded : bool) (b b' : bolt5),
    discardStream_loop fuel stream discarded b = Some b' ->
    (forall n q, P (MsgDiscardNQid n q)) \/ state b <> bolt5StreamingTx ->
    sent_within P b0 b ->
    sent_within P b0 b'.
Proof.
  intros HP. induction fuel as [|fuel IH]; intros discarded b b'; simpl; [discriminate|].
  destruct (queue_receiveAll b) as [e b1] eqn:Hrecv. intros Heq HQ Hb.
  assert (HQ1 : (forall n q, P (MsgDiscardNQid n q)) \/ state b1 <> bolt5StreamingTx).
  { destruct HQ as [HQ|HQ]; [left; exact HQ|right].
    exact (queue_receiveAll_out_of_tx _ _ _ Hrecv HQ). }
  apply sent_queue_receiveAll in Hrecv; [|exact Hb].
  destruct e; [simplify_eq; assumption|].
  destruct (err b1); [simplify_eq; assumption|].
  destruct (stream_done _); [simplify_eq; assumption|].
  destruct (s_endOfBatch _ && discarded).
  { simplify_eq. revert Hrecv. apply sent_same.
    - rewrite checkStreams_conn. reflexivity.
    - rewrite checkStreams_queue. reflexivity. }
  set (b2 := queue_send _) in *.
  assert (Hb2 : sent_within P b0 b2 /\
                ((forall n q, P (MsgDiscardNQid n q)) \/ state b2 <> bolt5StreamingTx)).
  { subst b2. split.
    - apply sent_queue_send, sent_appendDiscard; [exact HP|exact HQ1|].
      revert Hrecv. apply sent_same; reflexivity.
    - destruct HQ1 as [HQ1|HQ1]; [left; exact HQ1|right].
      apply queue_send_out_of_tx. rewrite appendDiscard_state. exact HQ1. }
  destruct Hb2 as [Hb2 HQ2]. clearbody b2.
  destruct (err b2); [simplify_eq; assumption|].
  eapply IH; eassumption.
Qed.

Lemma sent_discardStream (fuel : nat) (b b' : bolt5) :
  (forall n, P (MsgDiscardN n)) ->
  (forall n q, P (MsgDiscardNQid n q)) \/ state b <> bolt5StreamingTx ->
  discardStream fuel b = Some b' ->
  sent_within P b0 b -> sent_within P b0 b'.
Proof.
  intros HP HQ. unfold discardStream. intros Heq Hb.
  repeat case_match; simplify_eq; try assumption.
  eapply sent_discardStream_loop; [exact HP|eassumption|exact HQ|].
  revert Hb. apply sent_same; reflexivity.
Qed.

Lemma sent_run (fuel : nat) cypher params rawFetchSize tx (b b' : bolt5) r :
  (forall m, explicit_qid m = None -> P m) ->
  run fuel cypher params rawFetchSize tx b = Some (r, b') ->
  sent_within P b0 b -> sent_within P b0 b'.
Proof.
  intros HP. unfold run. intros Heq Hb.
  assert (Hfirst : exists b1,
    (if decide (state b = bolt5Streaming) then bufferStream fuel b
     else if decide (state b = bolt5StreamingTx) then Some (pauseStream b)
          else Some b) = Some b1 /\ sent_within P b0 b1).
  { destruct (decide (state b = bolt5Streaming)) as [Hs|Hs].
    - unfold bufferStream in *.
      destruct (curr (streams b)) as [p|]; [|eauto].
      destruct (bufferStream_loop fuel p b) as [b1|] eqn:Hloop; [|discriminate].
      exists b1. split; [reflexivity|].
      eapply sent_bufferStream_loop; [|exact Hloop| |exact Hb].
      + intros n. apply HP. reflexivity.
      + rewrite Hs. discriminate.
    - destruct (decide (state b = bolt5StreamingTx)); [|eauto].
      eexists. split; [reflexivity|]. apply sent_pauseStream. exact Hb. }
  destruct Hfirst as (b1 & Hb1eq & Hb1). rewrite Hb1eq in Heq. clear Hb1eq.
  cbn [mbind option_bind] in Heq.
  destruct (if decide _ then err b1 else None); [simplify_eq; assumption|].
  unfold assertState in Heq.
  destruct (err b1).
  { simplify_eq. assumption. }
  destruct (decide _).
  2: { simplify_eq. revert Hb1. apply sent_same; reflexivity. }
  unfold alloc_stream, queue_appendRun, queue_appendPullN in Heq.
  set (b2 := queue_send _) in *.
  assert (Hb2 : sent_within P b0 b2).
  { subst b2. apply sent_queue_send.
    apply sent_enqueue; [apply HP; reflexivity|].
    apply sent_enqueue; [apply HP; reflexivity|].
    revert Hb1. apply sent_same; reflexivity. }
  clearbody b2.
  destruct (err b2); [simplify_eq; assumption|].
  destruct (queue_receive b2) as [e3 b3] eqn:Hrecv.
  apply sent_queue_receive in Hrecv; [|exact Hb2].
  destruct e3; [simplify_eq; assumption|].
  destruct (err b3); [simplify_eq; assumption|].
  simplify_eq. revert Hrecv. apply sent_same; destruct (state b3); reflexivity.
Qed.
End Sent.

Lemma pauseStream_frame (b : bolt5) :
  written (conn (pauseStream b)) = written (conn b) /\
  pending (queue (pauseStream b)) = pending (queue b).
Proof.
  unfold pauseStream. case_match; [|tauto].
  destruct (queue_receiveAll b) as [e b1] eqn:Hrecv.
  pose proof (queue_receiveAll_written _ _ _ Hrecv).
  pose proof (queue_receiveAll_pending _ _ _ Hrecv).
  repeat case_match; tauto.
Qed.

Lemma queue_send_healthy_written (b : bolt5) :
  healthy b ->
  written (conn (queue_send b)) = (written (conn b) ++ pending (queue b))%list /\
  err (queue_send b) = err b.
Proof.
  intros [Hopen Hwrite]. unfold queue_send, conn_Write.
  destruct (pending (queue b)) as [|m msgs]; [rewrite app_nil_r; tauto|].
  rewrite Hopen, Hwrite. split; reflexivity.
Qed.

(** The requests of a run that returns no error and did not start by
    buffering an auto-commit stream: what was pending, then RUN, then an
    unqualified PULL. *)
Lemma run_requests_any (fuel : nat) cypher params rawFetchSize tx (b b' : bolt5) r :
  state b <> bolt5Streaming ->
  run fuel cypher params rawFetchSize tx b = Some ((r, None), b') ->
  written (conn b') =
    (written (conn b) ++ pending (queue b) ++
     [MsgRun cypher params (toMeta tx); MsgPullN (normalizeFetchSize rawFetchSize)])%list.
Proof.
  intros Hs. unfold run. rewrite (decide_False (P := state b = bolt5Streaming)) by exact Hs.
  intros Hrun.
  assert (Hfirst : exists b1,
    (if decide (state b = bolt5StreamingTx) then Some (pauseStream b) else Some b) = Some b1 /\
    written (conn b1) = written (conn b) /\ pending (queue b1) = pending (queue b)).
  { destruct (decide (state b = bolt5StreamingTx)); eexists; (split; [reflexivity|]);
      [apply pauseStream_frame|tauto]. }
  destruct Hfirst as (b1 & Heq & Hw1 & Hp1). rewrite Heq in Hrun. clear Heq.
  cbn [mbind option_bind] in Hrun.
  destruct (if decide _ then err b1 else None); [discriminate|].
  unfold assertState in Hrun.
  destruct (err b1); [discriminate|].
  destruct (decide _); [|discriminate].
  unfold alloc_stream, queue_appendRun, queue_appendPullN in Hrun.
  set (b2 := enqueue (MsgPullN _) _ _) in *.
  destruct (err (queue_send b2)) eqn:Hsent; [discriminate|].
  destruct (queue_receive (queue_send b2)) as [[e3|] b3] eqn:Hrecv; [discriminate|].
  destruct (err b3); [discriminate|].
  injection Hrun as _ <-.
  transitivity (written (conn b3)); [destruct (state b3); reflexivity|].
  rewrite (queue_receive_written _ _ _ Hrecv), (queue_send_written b2 Hsent).
  subst b2. cbn. rewrite Hw1, Hp1, <- !app_assoc. reflexivity.
Qed.

(** The first DISCARD that discardStream writes, when no answer is awaited
    for the unfinished current stream: it names the stream's qid exactly when
    the connection is streaming inside a transaction and the stream's qid
    differs from lastQid. *)
Lemma discardStream_first (fuel : nat) (b b' : bolt5) (p : nat) :
  discardStream fuel b = Some b' ->
  state b = bolt5Streaming \/ state b = bolt5StreamingTx ->
  curr (streams b) = Some p -> (p < length (heap b))%nat ->
  handlers (queue b) = [] -> err b = None -> healthy b ->
  stream_done (deref b p) = false ->
  exists more,
    written (conn b') =
      (written (conn b) ++ pending (queue b) ++
       [if decide (state b = bolt5StreamingTx /\ s_qid (deref b p) <> lastQid b)
        then MsgDiscardNQid (-1) (s_qid (deref b p)) else MsgDiscardN (-1)] ++ more)%list.
Proof.
  intros Heq Hst Hcurr Hlen Hh Herr Hhealthy Hdone.
  unfold discardStream in Heq.
  rewrite decide_False in Heq by (destruct Hst as [Hs|Hs]; rewrite Hs; intros [? ?]; congruence).
  rewrite Hcurr in Heq.
  set (b0 := update_stream p (set_s_discarding true) b) in *.
  assert (Hd0 : deref b0 p = set_s_discarding true (deref b p))
    by (subst b0; apply deref_update_stream, Hlen).
  assert (Hlen0 : (p < length (heap b0))%nat)
    by (subst b0; rewrite update_stream_length; exact Hlen).
  destruct fuel as [|fuel]; [discriminate|]. cbn [discardStream_loop] in Heq.
  unfold queue_receiveAll in Heq.
  rewrite receiveAll_rounds_idle in Heq by exact Hh.
  change (err b0) with (err b) in Heq. rewrite Herr in Heq.
  assert (Hdone0 : stream_done (deref b0 p) = false).
  { rewrite Hd0. destruct (deref b p); exact Hdone. }
  rewrite Hdone0, andb_false_r in Heq.
  set (b1 := update_stream p (set_s_fetchSize (-1)) b0) in *.
  assert (Hd1 : deref b1 p = set_s_fetchSize (-1) (set_s_discarding true (deref b p))).
  { subst b1. rewrite deref_update_stream by exact Hlen0. rewrite Hd0. reflexivity. }
  set (msg := if decide (state b = bolt5StreamingTx /\ s_qid (deref b p) <> lastQid b)
              then MsgDiscardNQid (-1) (s_qid (deref b p)) else MsgDiscardN (-1)).
  assert (Hb2 : pending (queue (appendDiscard p b1)) = (pending (queue b) ++ [msg])%list /\
                healthy (appendDiscard p b1) /\ err (appendDiscard p b1) = None /\
                written (conn (appendDiscard p b1)) = written (conn b)).
  { unfold appendDiscard, queue_appendDiscardN, queue_appendDiscardNQid.
    rewrite Hd1. change (state b1) with (state b). change (lastQid b1) with (lastQid b).
    cbn [s_qid s_fetchSize set_s_fetchSize set_s_discarding]. subst msg.
    destruct (decide _); repeat split; try apply Hhealthy; try exact Herr. }
  destruct Hb2 as (Hp2 & Hh2 & He2 & Hw2).
  destruct (queue_send_healthy_written _ Hh2) as [Hw3 He3].
  set (b3 := queue_send (appendDiscard p b1)) in *.
  rewrite He3, He2 in Heq.
  assert (Hmore : sent_within (fun _ => True) b3 b').
  { eapply sent_discardStream_loop; [auto|exact Heq|left; auto|].
    apply sent_start. apply Forall_forall. auto. }
  destruct Hmore as [(more & Hw & _) _].
  exists more. rewrite Hw, Hw3, Hw2, Hp2, <- !app_assoc. reflexivity.
Qed.

(** C4 (amended). A PULL appended by appendPullN, and a DISCARD appended by
    discardStream, names the stream's qid if and only if the connection is
    streaming inside a transaction and the stream's qid differs from lastQid;
    while streaming an auto-commit result the unqualified form is used
    whatever the two values are, and appendPullN appends nothing in any other
    state. A run that returns no error and did not start by buffering an
    auto-commit stream has written what was pending, then RUN, then an
    unqualified PULL; and whatever run writes that was not pending before,
    from whatever state and with whatever result, is unqualified. Whatever
    discardStream writes that was not pending before is a DISCARD, qualified
    only if discardStream was entered inside a transaction; and on a healthy
    connection without a stored error, with no answer awaited for the
    unfinished current stream, the first request after the pending ones is
    the DISCARD for that stream, for all that is left (n = -1), qualified
    exactly under the condition above. *)
Theorem qid_only_within_transaction (b : bolt5) (stream : nat) :
  let s := deref b stream in
  let other := state b = bolt5StreamingTx /\ s_qid s <> lastQid b in
  (forall m, pending (queue (appendPullN stream b)) = (pending (queue b) ++ [m])%list ->
     (explicit_qid m = Some (s_qid s) <-> other) /\
     (explicit_qid m = None <-> ~ other) /\
     (m = MsgPullN (s_fetchSize s) \/ m = MsgPullNQid (s_fetchSize s) (s_qid s))) /\
  (state b = bolt5Streaming \/ state b = bolt5StreamingTx ->
     exists m, pending (queue (appendPullN stream b)) = (pending (queue b) ++ [m])%list) /\
  (state b <> bolt5Streaming -> state b <> bolt5StreamingTx ->
     appendPullN stream b = b) /\
  (exists m, pending (queue (appendDiscard stream b)) = (pending (queue b) ++ [m])%list /\
     (explicit_qid m = Some (s_qid s) <-> other) /\
     (explicit_qid m = None <-> ~ other) /\
     (m = MsgDiscardN (s_fetchSize s) \/ m = MsgDiscardNQid (s_fetchSize s) (s_qid s))) /\
  (forall fuel cypher params rawFetchSize tx r b',
     state b <> bolt5Streaming ->
     run fuel cypher params rawFetchSize tx b = Some ((r, None), b') ->
     written (conn b') =
       (written (conn b) ++ pending (queue b) ++
        [MsgRun cypher params (toMeta tx);
         MsgPullN (normalizeFetchSize rawFetchSize)])%list) /\
  (forall fuel cypher params rawFetchSize tx r b',
     run fuel cypher params rawFetchSize tx b = Some (r, b') ->
     exists sent,
       written (conn b') = (written (conn b) ++ sent)%list /\
       Forall (fun m => m ∈ pending (queue b) \/ explicit_qid m = None) sent) /\
  (forall fuel b',
     discardStream fuel b = Some b' ->
     exists sent,
       written (conn b') = (written (conn b) ++ sent)%list /\
       Forall (fun m => m ∈ pending (queue b) \/
                        (exists n, m = MsgDiscardN n) \/
                        (state b = bolt5StreamingTx /\
                         exists n q, m = MsgDiscardNQid n q)) sent) /\
  (forall fuel b',
     discardStream fuel b = Some b' ->
     state b = bolt5Streaming \/ state b = bolt5StreamingTx ->
     curr (streams b) = Some stream -> (stream < length (heap b))%nat ->
     handlers (queue b) = [] -> err b = None -> healthy b ->
     stream_done s = false ->
     exists more,
       written (conn b') =
         (written (conn b) ++ pending (queue b) ++
          [if decide other then MsgDiscardNQid (-1) (s_qid s) else MsgDiscardN (-1)]
          ++ more)%list).
Proof.
  intros s other. subst s other.
  split; [|split; [|split; [|split; [|split; [|split; [|split]]]]]].
  - intros m. rewrite appendPullN_pending.
    destruct (state b) eqn:Hst; try case_decide; intros Heq;
      try (rewrite app_nil_r in Heq; exfalso; exact (app_singleton_neq _ _ Heq));
      apply app_singleton_inv in Heq; subst m; simpl;
      intuition (try congruence; eauto).
  - rewrite appendPullN_pending.
    intros [Hst | Hst]; rewrite Hst; eexists; reflexivity.
  - unfold appendPullN. intros Hs Ht. destruct (state b); congruence.
  - unfold appendDiscard, queue_appendDiscardN, queue_appendDiscardNQid, enqueue.
    case_decide as Hother; simpl; eexists; (split; [reflexivity|]); simpl;
      intuition (try congruence; eauto).
  - intros. eapply run_requests_any; eassumption.
  - intros fuel cypher params rawFetchSize tx r b' Hrun.
    set (P := fun m : Request => m ∈ pending (queue b) \/ explicit_qid m = None).
    assert (Hsent : sent_within P b b').
    { eapply sent_run; [|exact Hrun|].
      - intros m Hm. right. exact Hm.
      - apply sent_start, Forall_forall. intros m Hm. left. exact Hm. }
    destruct Hsent as [(sent & Hw & Hall) _]. eauto.
  - intros fuel b' Hd.
    set (P := fun m : Request =>
                m ∈ pending (queue b) \/ (exists n, m = MsgDiscardN n) \/
                (state b = bolt5StreamingTx /\ exists n q, m = MsgDiscardNQid n q)).
    assert (Hsent : sent_within P b b').
    { eapply sent_discardStream; [| |exact Hd|].
      - intros n. right. left. eauto.
      - destruct (decide (state b = bolt5StreamingTx)) as [Ht|Ht]; [left|right; exact Ht].
        intros n q. right. right. eauto.
      - apply sent_start, Forall_forall. intros m Hm. left. exact Hm. }
    destruct Hsent as [(sent & Hw & Hall) _]. eauto.
  - intros. eapply discardStream_first; eassumption.
Qed.

(** *** Which answers reach the bookmark *)

Section Ruled.
Variable K : responseHandler -> Prop.
Variable S : string -> Prop.

Create HintDb ruled discriminated.

Lemma ruled_weaken (b b' : bolt5) :
  bookmark b' = bookmark b ->
  (forall h, h ∈ handlers (queue b') -> h ∈ handlers (queue b)) ->
  (forall x, x ∈ incoming (conn b') -> x ∈ incoming (conn b)) ->
  bookmark_ruled K S b -> bookmark_ruled K S b'.
Proof.
  intros Hbm Hh Hi (HS & HK & HC). split; [rewrite Hbm; exact HS|].
  split; [intros h Hin; apply HK, Hh, Hin|].
  intros h s bm Hk Hin. apply (HC h s bm Hk), Hi, Hin.
Qed.

Lemma ruled_kept (b b' : bolt5) :
  bookmark_kept b b' -> handlers (queue b') = handlers (queue b) ->
  bookmark_ruled K S b -> bookmark_ruled K S b'.
Proof.
  intros [Hbm Hi] Hh. apply ruled_weaken; [exact Hbm|rewrite Hh; auto|rewrite Hi; auto].
Qed.

(** Steps that change neither the bookmark, nor the awaited handlers, nor
    the messages still to be delivered. *)
Ltac plain := let HS := fresh in let HK := fresh in let HC := fresh in
  intros (HS & HK & HC); split; [exact HS|split; [exact HK|exact HC]].

Lemma ruled_log_Error e b : bookmark_ruled K S b -> bookmark_ruled K S (log_Error e b).
Proof. plain. Qed.

Lemma ruled_log_Infof m b : bookmark_ruled K S b -> bookmark_ruled K S (log_Infof m b).
Proof. plain. Qed.

Lemma ruled_log_Debugf m b : bookmark_ruled K S b -> bookmark_ruled K S (log_Debugf m b).
Proof. plain. Qed.

Lemma ruled_set_state st b : bookmark_ruled K S b -> bookmark_ruled K S (set_state st b).
Proof. plain. Qed.

Lemma ruled_set_err e b : bookmark_ruled K S b -> bookmark_ruled K S (set_err e b).
Proof. plain. Qed.

Lemma ruled_set_txId t b : bookmark_ruled K S b -> bookmark_ruled K S (set_txId t b).
Proof. plain. Qed.

Lemma ruled_set_minor m b : bookmark_ruled K S b -> bookmark_ruled K S (set_minor m b).
Proof. plain. Qed.

Lemma ruled_set_now t b : bookmark_ruled K S b -> bookmark_ruled K S (set_now t b).
Proof. plain. Qed.

Lemma ruled_set_heap h b : bookmark_ruled K S b -> bookmark_ruled K S (set_heap h b).
Proof. plain. Qed.

Lemma ruled_set_streams o b : bookmark_ruled K S b -> bookmark_ruled K S (set_streams o b).
Proof. plain. Qed.

Lemma ruled_set_routingSlot t b :
  bookmark_ruled K S b -> bookmark_ruled K S (set_routingSlot t b).
Proof. plain. Qed.

Lemma ruled_set_closed v b :
  bookmark_ruled K S b -> bookmark_ruled K S (set_conn (set_closed v (conn b)) b).
Proof. plain. Qed.

Lemma ruled_update_stream p f b :
  bookmark_ruled K S b -> bookmark_ruled K S (update_stream p f b).
Proof. plain. Qed.

Lemma ruled_store p s b : bookmark_ruled K S b -> bookmark_ruled K S (store p s b).
Proof. plain. Qed.

Lemma ruled_queue_appendGoodbye b :
  bookmark_ruled K S b -> bookmark_ruled K S (queue_appendGoodbye b).
Proof. plain. Qed.

Lemma ruled_streams_reset b : bookmark_ruled K S b -> bookmark_ruled K S (streams_reset b).
Proof. plain. Qed.

Lemma ruled_streams_pause b : bookmark_ruled K S b -> bookmark_ruled K S (streams_pause b).
Proof. plain. Qed.

Lemma ruled_streams_resume s b :
  bookmark_ruled K S b -> bookmark_ruled K S (streams_resume s b).
Proof. unfold streams_resume. case_match; [tauto|plain]. Qed.

Lemma ruled_streams_remove s b :
  bookmark_ruled K S b -> bookmark_ruled K S (streams_remove s b).
Proof. plain. Qed.

Lemma ruled_alloc_stream n b :
  bookmark_ruled K S b -> bookmark_ruled K S (snd (alloc_stream n b)).
Proof. plain. Qed.

Lemma ruled_checkStreams b : bookmark_ruled K S b -> bookmark_ruled K S (checkStreams b).
Proof. rewrite checkStreams_frame. plain. Qed.

Lemma ruled_setError e fatal b :
  bookmark_ruled K S b -> bookmark_ruled K S (setError e fatal b).
Proof.
  apply ruled_kept; [apply kept_setError, kept_refl|apply setError_handlers].
Qed.

Lemma ruled_enqueue m h b :
  K h -> bookmark_ruled K S b -> bookmark_ruled K S (enqueue m h b).
Proof.
  intros Hh (HS & HK & HC). split; [exact HS|]. split; [|exact HC].
  intros h' Hin. cbn in Hin. apply elem_of_app in Hin as [Hin|Hin]; [apply HK, Hin|].
  apply list_elem_of_singleton in Hin. subst h'. exact Hh.
Qed.

#[local] Hint Resolve ruled_log_Error ruled_log_Infof ruled_log_Debugf ruled_set_state
  ruled_set_err ruled_set_txId ruled_set_minor ruled_set_now ruled_set_heap
  ruled_set_streams ruled_set_routingSlot ruled_set_closed ruled_update_stream
  ruled_store ruled_queue_appendGoodbye ruled_streams_reset ruled_streams_pause
  ruled_streams_resume ruled_streams_remove ruled_alloc_stream ruled_checkStreams
  ruled_setError ruled_enqueue : ruled.

Ltac ruled := solve [eauto 40 with ruled].

Lemma ruled_appendPullN s b :
  K (pullResponseHandler s) ->
  bookmark_ruled K S b -> bookmark_ruled K S (appendPullN s b).
Proof.
  unfold appendPullN, queue_appendPullN, queue_appendPullNQid. intros.
  repeat case_match; auto with ruled.
Qed.

Lemma ruled_appendDiscard s b :
  K (discardResponseHandler s) ->
  bookmark_ruled K S b -> bookmark_ruled K S (appendDiscard s b).
Proof.
  unfold appendDiscard, queue_appendDiscardN, queue_appendDiscardNQid. intros.
  case_match; auto with ruled.
Qed.

Lemma ruled_queue_send b : bookmark_ruled K S b -> bookmark_ruled K S (queue_send b).
Proof.
  unfold queue_send, conn_Write. intros Hb.
  assert (Hsent : forall w,
    bookmark_ruled K S
      (set_conn (set_written w (conn b)) (set_queue (set_pending [] (queue b)) b))).
  { intros w. revert Hb. plain. }
  assert (Hcleared : bookmark_ruled K S
                       (set_conn (conn b) (set_queue (set_pending [] (queue b)) b))).
  { revert Hb. plain. }
  repeat case_match; simplify_eq; auto with ruled.
Qed.

Lemma ruled_assertState allowed b e b' :
  assertState allowed b = (e, b') -> bookmark_ruled K S b -> bookmark_ruled K S b'.
Proof.
  unfold assertState. intros Heq Hb. repeat case_match; simplify_eq; auto with ruled.
Qed.

Lemma ruled_assertTxHandle h1 h2 b e b' :
  assertTxHandle h1 h2 b = (e, b') -> bookmark_ruled K S b -> bookmark_ruled K S b'.
Proof.
  unfold assertTxHandle. intros Heq Hb. case_match; simplify_eq; auto with ruled.
Qed.

#[local] Hint Resolve ruled_appendPullN ruled_appendDiscard ruled_queue_send : ruled.

Lemma ruled_resumeStream s b :
  K (pullResponseHandler s) ->
  bookmark_ruled K S b -> bookmark_ruled K S (resumeStream s b).
Proof. unfold resumeStream. auto with ruled. Qed.

#[local] Hint Resolve ruled_resumeStream : ruled.

(** The one step that can change the bookmark: a received answer is
    dispatched to the first awaited handler. *)
Lemma ruled_queue_receive (b b' : bolt5) (e : option error) :
  queue_receive b = (e, b') -> bookmark_ruled K S b -> bookmark_ruled K S b'.
Proof.
  unfold queue_receive, conn_Read, onNextMessageError. intros Heq Hb.
  destruct (closed (conn b)).
  { simplify_eq. apply ruled_setError. revert Hb. plain. }
  destruct (incoming (conn b)) as [|ev rest] eqn:Hin.
  { simplify_eq. apply ruled_setError. revert Hb. plain. }
  assert (Hrest : bookmark_ruled K S (set_conn (set_incoming rest (conn b)) b)).
  { revert Hb. apply ruled_weaken; [reflexivity|auto|].
    cbn. intros x Hx. rewrite Hin. right. exact Hx. }
  destruct ev as [m|e']; [|simplify_eq; apply ruled_setError; exact Hrest].
  cbn [set_conn queue onNextMessage] in Heq.
  destruct (handlers _) as [|h hs] eqn:Hq in Heq.
  { simplify_eq. apply ruled_setError. revert Hrest. plain. }
  simplify_eq.
  assert (Hq' : handlers (queue b) = h :: hs) by exact Hq.
  destruct Hb as (HS & HK & HC).
  match goal with
  | |- bookmark_ruled K S (dispatch h m ?B) =>
      destruct (dispatch_bookmark h m B) as [Hbm Hinc];
      pose proof (dispatch_handlers h m B) as Hhs
  end.
  split; [|split].
  - rewrite Hbm. destruct (carried_bookmark h m) as [bm|] eqn:Hc; [|exact HS].
    destruct (carried_bookmark_Some _ _ _ Hc) as (s & -> & _). cbn.
    apply (HC h s bm); [apply HK; rewrite Hq'; left|rewrite Hin; left|exact Hc].
  - intros h' Hin'. rewrite Hhs in Hin'. apply HK. rewrite Hq'.
    cbn in Hin'. destruct h, m; try (right; exact Hin'); exact Hin'.
  - intros h' s bm Hk Hin'. rewrite Hinc in Hin'. apply (HC h' s bm Hk).
    rewrite Hin. right. exact Hin'.
Qed.

Lemma ruled_receiveAll_rounds (n : nat) :
  forall (b b' : bolt5) (e : option error),
    receiveAll_rounds n b = (e, b') -> bookmark_ruled K S b -> bookmark_ruled K S b'.
Proof.
  induction n as [|n IH]; intros b b' e; simpl;
    (destruct (queue_isEmpty b); [intros; simplify_eq; assumption|]);
    destruct (queue_receive b) as [[e1|] b1] eqn:Hrecv; intros Heq Hw;
    simplify_eq; eauto using ruled_queue_receive.
Qed.

Lemma ruled_queue_receiveAll (b b' : bolt5) (e : option error) :
  queue_receiveAll b = (e, b') -> bookmark_ruled K S b -> bookmark_ruled K S b'.
Proof. apply ruled_receiveAll_rounds. Qed.

Lemma ruled_pauseStream (b : bolt5) :
  bookmark_ruled K S b -> bookmark_ruled K S (pauseStream b).
Proof.
  unfold pauseStream. intros Hw. case_match; [|exact Hw].
  destruct (queue_receiveAll b) as [e b1] eqn:Hrecv.
  apply ruled_queue_receiveAll in Hrecv; [|exact Hw].
  repeat case_match; try assumption; ruled.
Qed.

Lemma ruled_bufferStream_loop (fuel : nat) (stream : nat) :
  K (pullResponseHandler stream) ->
  forall b b' : bolt5,
    bufferStream_loop fuel stream b = Some b' ->
    bookmark_ruled K S b -> bookmark_ruled K S b'.
Proof.
  intros HK. induction fuel as [|fuel IH]; intros b b'; simpl; [discriminate|].
  destruct (queue_receiveAll b) as [e b1] eqn:Hrecv. intros Heq Hw.
  apply ruled_queue_receiveAll in Hrecv; [|exact Hw].
  repeat case_match; simplify_eq; try assumption;
    try (eapply IH; [eassumption|]); try assumption; ruled.
Qed.

Lemma ruled_bufferStream (fuel : nat) (b b' : bolt5) :
  (forall p, curr (streams b) = Some p -> K (pullResponseHandler p)) ->
  bufferStream fuel b = Some b' -> bookmark_ruled K S b -> bookmark_ruled K S b'.
Proof.
  unfold bufferStream. intros HK. destruct (curr (streams b)) as [p|].
  - apply ruled_bufferStream_loop. apply HK. reflexivity.
  - intros; simplify_eq; assumption.
Qed.

Lemma ruled_discardStream_loop (fuel : nat) (stream : nat) :
  K (discardResponseHandler stream) ->
  forall (discarded : bool) (b b' : bolt5),
    discardStream_loop fuel stream discarded b = Some b' ->
    bookmark_ruled K S b -> bookmark_ruled K S b'.
Proof.
  intros HK. induction fuel as [|fuel IH]; intros discarded b b'; simpl; [discriminate|].
  destruct (queue_receiveAll b) as [e b1] eqn:Hrecv. intros Heq Hw.
  apply ruled_queue_receiveAll in Hrecv; [|exact Hw].
  repeat case_match; simplify_eq; try assumption;
    try (eapply IH; [eassumption|]); try assumption; ruled.
Qed.

Lemma ruled_discardStream (fuel : nat) (b b' : bolt5) :
  (forall p, curr (streams b) = Some p -> K (discardResponseHandler p)) ->
  discardStream fuel b = Some b' -> bookmark_ruled K S b -> bookmark_ruled K S b'.
Proof.
  unfold discardStream. intros HK Heq Hw.
  destruct (decide _); [simplify_eq; assumption|].
  destruct (curr (streams b)) as [p|]; [|simplify_eq; assumption].
  eapply ruled_discardStream_loop; [apply HK; reflexivity|eassumption|ruled].
Qed.

Lemma ruled_discardAllStreams (fuel : nat) (b b' : bolt5) :
  (forall p, curr (streams b) = Some p -> K (discardResponseHandler p)) ->
  discardAllStreams fuel b = Some b' -> bookmark_ruled K S b -> bookmark_ruled K S b'.
Proof.
  unfold discardAllStreams. intros HK Heq Hw.
  case_match; simplify_eq; [assumption|].
  destruct (discardStream fuel b) as [b1|] eqn:Hd; simpl in Heq; simplify_eq.
  apply ruled_discardStream in Hd; [|exact HK|exact Hw]. ruled.
Qed.

Lemma ruled_Connect minor_ auth userAgent routingContext notifications (b b' : bolt5) e :
  K helloResponseHandler -> K logonResponseHandler ->
  Connect minor_ auth userAgent routingContext notifications b = (e, b') ->
  bookmark_ruled K S b -> bookmark_ruled K S b'.
Proof.
  intros Hhello Hlogon. unfold Connect, queue_appendHello, queue_appendLogon.
  intros Heq Hw.
  destruct (assertState _ b) as [e1 b1] eqn:Ha.
  apply ruled_assertState in Ha; [|exact Hw].
  destruct e1; [simplify_eq; assumption|].
  destruct (checkNotificationFiltering _ _); [simplify_eq; ruled|].
  set (b2 := queue_send _) in *.
  assert (Hb2 : bookmark_ruled K S b2)
    by (subst b2; apply ruled_queue_send; destruct (0 <? _)%Z; ruled).
  clearbody b2.
  destruct (err b2); [simplify_eq; assumption|].
  destruct (queue_receiveAll b2) as [e3 b3] eqn:Hrecv.
  apply ruled_queue_receiveAll in Hrecv; [|exact Hb2].
  repeat case_match; simplify_eq; try assumption; ruled.
Qed.

Lemma ruled_TxBegin fuel txConfig (b b' : bolt5) r :
  K beginResponseHandler ->
  (state b = bolt5Streaming ->
   forall p, curr (streams b) = Some p -> K (pullResponseHandler p)) ->
  TxBegin fuel txConfig b = Some (r, b') ->
  bookmark_ruled K S b -> bookmark_ruled K S b'.
Proof.
  intros Hbegin Hpull. unfold TxBegin, queue_appendBegin, time_Now. intros Heq Hw.
  assert (Hfirst : exists b1,
    (if bool_decide (state b = bolt5Streaming) then bufferStream fuel b else Some b)
      = Some b1 /\ bookmark_ruled K S b1).
  { destruct (bool_decide (state b = bolt5Streaming)) eqn:Hs; [|eauto].
    apply bool_decide_eq_true in Hs.
    destruct (bufferStream fuel b) as [b1|] eqn:Hbuf; [|discriminate].
    exists b1. split; [reflexivity|].
    exact (ruled_bufferStream _ _ _ (Hpull Hs) Hbuf Hw). }
  destruct Hfirst as (b1 & Hb1eq & Hb1). rewrite Hb1eq in Heq. clear Hb1eq.
  cbn [mbind option_bind] in Heq.
  destruct (if bool_decide _ then err b1 else None); [simplify_eq; assumption|].
  destruct (assertState _ (streams_reset b1)) as [e2 b2] eqn:Ha.
  apply ruled_assertState in Ha; [|ruled].
  destruct e2; [simplify_eq; assumption|].
  destruct (checkNotificationFiltering _ _); [simplify_eq; assumption|].
  set (b3 := queue_send _) in *.
  assert (Hb3 : bookmark_ruled K S b3) by (subst b3; ruled).
  clearbody b3.
  destruct (err b3); [simplify_eq; assumption|].
  destruct (queue_receiveAll b3) as [e4 b4] eqn:Hrecv.
  apply ruled_queue_receiveAll in Hrecv; [|exact Hb3].
  repeat case_match; simplify_eq; try assumption; ruled.
Qed.

Lemma ruled_txEnd request fuel txh (b b' : bolt5) e :
  (forall b1, bookmark_ruled K S b1 -> bookmark_ruled K S (request b1)) ->
  (forall p, curr (streams b) = Some p -> K (discardResponseHandler p)) ->
  txEnd request fuel txh b = Some (e, b') ->
  bookmark_ruled K S b -> bookmark_ruled K S b'.
Proof.
  intros Hreq Hdiscard. unfold txEnd, assertTxHandle. intros Heq Hw.
  destruct (decide (txId b = txh)); [|simplify_eq; ruled].
  destruct (discardAllStreams fuel b) as [b1|] eqn:Hd; [|discriminate].
  apply ruled_discardAllStreams in Hd; [|exact Hdiscard|exact Hw].
  cbn [mbind option_bind] in Heq.
  destruct (err b1); [simplify_eq; assumption|].
  destruct (assertState _ b1) as [e2 b2] eqn:Ha.
  apply ruled_assertState in Ha; [|exact Hd].
  destruct e2; [simplify_eq; assumption|].
  set (b3 := queue_send _) in *.
  assert (Hb3 : bookmark_ruled K S b3) by (subst b3; auto with ruled).
  clearbody b3.
  destruct (err b3); [simplify_eq; assumption|].
  destruct (queue_receiveAll b3) as [e4 b4] eqn:Hrecv.
  apply ruled_queue_receiveAll in Hrecv; [|exact Hb3].
  repeat case_match; simplify_eq; try assumption; ruled.
Qed.

Lemma ruled_run fuel cypher params rawFetchSize tx (b b' : bolt5) r :
  (forall p, K (runResponseHandler p)) -> (forall p, K (pullResponseHandler p)) ->
  run fuel cypher params rawFetchSize tx b = Some (r, b') ->
  bookmark_ruled K S b -> bookmark_ruled K S b'.
Proof.
  intros Hrun Hpull. unfold run, alloc_stream, queue_appendRun, queue_appendPullN.
  intros Heq Hw.
  assert (Hfirst : exists b1,
    (if decide (state b = bolt5Streaming) then bufferStream fuel b
     else if decide (state b = bolt5StreamingTx) then Some (pauseStream b)
          else Some b) = Some b1 /\ bookmark_ruled K S b1).
  { destruct (decide (state b = bolt5Streaming)).
    - destruct (bufferStream fuel b) as [b1|] eqn:Hbuf; [|discriminate].
      exists b1. split; [reflexivity|].
      refine (ruled_bufferStream _ _ _ _ Hbuf Hw). auto.
    - destruct (decide (state b = bolt5StreamingTx)); [|eauto].
      eexists. split; [reflexivity|]. apply ruled_pauseStream, Hw. }
  destruct Hfirst as (b1 & Hb1eq & Hb1). rewrite Hb1eq in Heq. clear Hb1eq.
  cbn [mbind option_bind] in Heq.
  destruct (if decide _ then err b1 else None); [simplify_eq; assumption|].
  destruct (assertState _ b1) as [e2 b2] eqn:Ha.
  apply ruled_assertState in Ha; [|exact Hb1].
  destruct e2; [simplify_eq; assumption|].
  set (b3 := queue_send _) in *.
  assert (Hb3 : bookmark_ruled K S b3) by (subst b3; ruled).
  clearbody b3.
  destruct (err b3); [simplify_eq; assumption|].
  destruct (queue_receive b3) as [e4 b4] eqn:Hrecv.
  apply ruled_queue_receive in Hrecv; [|exact Hb3].
  repeat case_match; simplify_eq; try assumption; ruled.
Qed.

Lemma ruled_Run fuel cmd txConfig (b b' : bolt5) r :
  (forall p, K (runResponseHandler p)) -> (forall p, K (pullResponseHandler p)) ->
  Run fuel cmd txConfig b = Some (r, b') ->
  bookmark_ruled K S b -> bookmark_ruled K S b'.
Proof.
  intros Hrun Hpull. unfold Run. intros Heq Hw.
  destruct (assertState _ b) as [e b1] eqn:Ha.
  apply ruled_assertState in Ha; [|exact Hw].
  destruct e; [simplify_eq; assumption|].
  destruct (checkNotificationFiltering _ _); [simplify_eq; assumption|].
  destruct (run _ _ _ _ _ b1) as [[r1 b2]|] eqn:Hr; [|discriminate].
  apply ruled_run in Hr; [|exact Hrun|exact Hpull|exact Ha].
  cbn [mbind option_bind] in Heq. repeat case_match; simplify_eq; assumption.
Qed.

Lemma ruled_RunTx fuel txh cmd (b b' : bolt5) r :
  (forall p, K (runResponseHandler p)) -> (forall p, K (pullResponseHandler p)) ->
  RunTx fuel txh cmd b = Some (r, b') ->
  bookmark_ruled K S b -> bookmark_ruled K S b'.
Proof.
  intros Hrun Hpull. unfold RunTx. intros Heq Hw.
  destruct (assertTxHandle _ _ b) as [e b1] eqn:Ha.
  apply ruled_assertTxHandle in Ha; [|exact Hw].
  destruct e; [simplify_eq; assumption|].
  destruct (run _ _ _ _ _ b1) as [[r1 b2]|] eqn:Hr; [|discriminate].
  apply ruled_run in Hr; [|exact Hrun|exact Hpull|exact Ha].
  cbn [mbind option_bind] in Heq. repeat case_match; simplify_eq; assumption.
Qed.

Lemma ruled_Next_loop (fuel : nat) (stream : nat) :
  K (pullResponseHandler stream) ->
  forall (b b' : bolt5) r,
    Next_loop fuel stream b = Some (r, b') ->
    bookmark_ruled K S b -> bookmark_ruled K S b'.
Proof.
  intros HK. induction fuel as [|fuel IH]; intros b b' r; simpl; [discriminate|].
  destruct (stream_bufferedNext (deref b stream)) as [[[[buf rec] sm] e] s'].
  intros Heq Hw.
  destruct buf; [simplify_eq; ruled|].
  set (b1 := store stream s' b) in *.
  assert (Hw1 : bookmark_ruled K S b1) by (subst b1; ruled). clearbody b1.
  destruct (s_endOfBatch (deref b1 stream)).
  - set (b2 := queue_send (appendPullN stream b1)) in *.
    assert (Hw2 : bookmark_ruled K S b2) by (subst b2; ruled). clearbody b2.
    destruct (err b2); [simplify_eq; assumption|].
    set (b3 := update_stream stream (set_s_endOfBatch false) b2) in *.
    assert (Hw3 : bookmark_ruled K S b3) by (subst b3; ruled). clearbody b3.
    destruct (queue_isEmpty b3); [simplify_eq; assumption|].
    destruct (queue_receive b3) as [e1 b4] eqn:Hrecv.
    apply ruled_queue_receive in Hrecv; [|exact Hw3].
    repeat case_match; simplify_eq; try assumption.
    eapply IH; eassumption.
  - destruct (queue_isEmpty b1); [simplify_eq; assumption|].
    destruct (queue_receive b1) as [e1 b4] eqn:Hrecv.
    apply ruled_queue_receive in Hrecv; [|exact Hw1].
    repeat case_match; simplify_eq; try assumption.
    eapply IH; eassumption.
Qed.

Lemma ruled_Next fuel h (b b' : bolt5) r :
  (forall p, h = HandleStream p -> K (pullResponseHandler p)) ->
  Next fuel h b = Some (r, b') ->
  bookmark_ruled K S b -> bookmark_ruled K S b'.
Proof.
  intros HK. unfold Next. intros Heq Hw.
  destruct h as [|p|]; cbn [streams_getUnsafe] in Heq; simplify_eq; try assumption.
  eapply ruled_Next_loop; [apply HK; reflexivity|eassumption|assumption].
Qed.

Lemma ruled_checkStream h (b b' : bolt5) c :
  (forall p, h = HandleStream p -> K (pullResponseHandler p)) ->
  checkStream h b = (c, b') ->
  bookmark_ruled K S b -> bookmark_ruled K S b'.
Proof.
  intros HK. unfold checkStream. intros Heq Hw.
  destruct h as [|p|]; cbn [streams_getUnsafe] in Heq; simplify_eq; try assumption.
  specialize (HK p eq_refl).
  destruct (stream_done _); [simplify_eq; assumption|].
  destruct (streams_isSafe p b); [simplify_eq; assumption|].
  destruct (assertState _ b) as [e1 b1] eqn:Ha.
  apply ruled_assertState in Ha; [|exact Hw].
  destruct e1; [simplify_eq; assumption|].
  destruct (decide _); [simplify_eq; assumption|].
  pose proof (ruled_pauseStream b1 Ha) as Hp.
  destruct (err (pauseStream b1)); simplify_eq; [assumption|ruled].
Qed.

Lemma ruled_Consume fuel h (b b' : bolt5) r :
  (forall p, h = HandleStream p -> K (pullResponseHandler p)) ->
  (forall p, K (discardResponseHandler p)) ->
  Consume fuel h b = Some (r, b') ->
  bookmark_ruled K S b -> bookmark_ruled K S b'.
Proof.
  intros Hpull Hdiscard. unfold Consume. intros Heq Hw.
  destruct (checkStream h b) as [c b1] eqn:Hc.
  apply ruled_checkStream in Hc; [|exact Hpull|exact Hw].
  destruct c; simplify_eq; try assumption.
  destruct (discardStream fuel b1) as [b2|] eqn:Hd; [|discriminate].
  apply ruled_discardStream in Hd; [|auto|exact Hc].
  cbn [mbind option_bind] in Heq. simplify_eq. assumption.
Qed.

Lemma ruled_Buffer fuel h (b b' : bolt5) r :
  (forall p, K (pullResponseHandler p)) ->
  Buffer fuel h b = Some (r, b') ->
  bookmark_ruled K S b -> bookmark_ruled K S b'.
Proof.
  intros Hpull. unfold Buffer. intros Heq Hw.
  destruct (checkStream h b) as [c b1] eqn:Hc.
  apply ruled_checkStream in Hc; [|auto|exact Hw].
  destruct c; simplify_eq; try assumption.
  destruct (bufferStream fuel b1) as [b2|] eqn:Hd; [|discriminate].
  apply ruled_bufferStream in Hd; [|auto|exact Hc].
  cbn [mbind option_bind] in Heq. simplify_eq. assumption.
Qed.

Lemma ruled_GetRoutingTable routingContext bookmarks_ database user (b b' : bolt5) r :
  K routeResponseHandler ->
  GetRoutingTable routingContext bookmarks_ database user b = (r, b') ->
  bookmark_ruled K S b -> bookmark_ruled K S b'.
Proof.
  intros Hroute. unfold GetRoutingTable, queue_appendRoute. intros Heq Hw.
  destruct (assertState _ b) as [e1 b1] eqn:Ha.
  apply ruled_assertState in Ha; [|exact Hw].
  destruct e1; [simplify_eq; assumption|].
  set (b2 := queue_send _) in *.
  assert (Hb2 : bookmark_ruled K S b2) by (subst b2; ruled).
  clearbody b2.
  destruct (err b2); [simplify_eq; assumption|].
  destruct (queue_receiveAll b2) as [e3 b3] eqn:Hrecv.
  apply ruled_queue_receiveAll in Hrecv; [|exact Hb2].
  repeat case_match; simplify_eq; assumption.
Qed.

Lemma ruled_ForceReset (b : bolt5) :
  K resetResponseHandler ->
  bookmark_ruled K S b -> bookmark_ruled K S (ForceReset b).
Proof.
  intros Hreset. unfold ForceReset, queue_appendReset. intros Hw.
  destruct (decide _); [assumption|].
  destruct (queue_receiveAll (set_err None b)) as [e b1] eqn:Hrecv.
  apply ruled_queue_receiveAll in Hrecv; [|ruled].
  destruct e; [assumption|]. destruct (err b1); [assumption|].
  set (b2 := queue_send _) in *.
  assert (Hb2 : bookmark_ruled K S b2) by (subst b2; ruled).
  clearbody b2.
  destruct (err b2); [assumption|].
  destruct (queue_receive b2) as [e3 b3] eqn:Hrecv2.
  apply ruled_queue_receive in Hrecv2; assumption.
Qed.
End Ruled.

Lemma ruled_start (K : responseHandler -> Prop) (b : bolt5) :
  (forall h, h ∈ handlers (queue b) -> K h) ->
  bookmark_ruled K (fun bm => bookmark_carried K b (set_bookmark bm b)) b.
Proof.
  intros HK. split; [left; reflexivity|]. split; [exact HK|].
  intros h s bm Hk Hin Hc. right. exists h, s. auto.
Qed.

Lemma carried_from_ruled (K : responseHandler -> Prop) (b b' : bolt5) :
  bookmark_ruled K (fun bm => bookmark_carried K b (set_bookmark bm b)) b' ->
  bookmark_carried K b b'.
Proof. intros [Hb _]. exact Hb. Qed.

(** Handlers whose answers carry nothing can be left out. *)
Lemma carried_narrow (K K' : responseHandler -> Prop) (b b' : bolt5) :
  (forall h, K h -> K' h \/ carries_nothing h) ->
  bookmark_carried K b b' -> bookmark_carried K' b b'.
Proof.
  intros HK [Hb|(h & s & Hk & Hin & Hc)]; [left; exact Hb|].
  destruct (HK h Hk) as [Hk'|Hnone]; [right; eauto|].
  rewrite Hnone in Hc. discriminate.
Qed.

Ltac nothing :=
  let m := fresh in
  intros m; unfold carried_bookmark; destruct m; try reflexivity;
  case_decide; reflexivity.

Lemma Close_bookmark (b : bolt5) : bookmark (Close b) = bookmark b.
Proof.
  unfold Close. cbn [bookmark set_state set_conn].
  destruct (decide _); [reflexivity|].
  destruct (kept_queue_send _ _ (kept_refl (queue_appendGoodbye (log_Infof "Close" b))))
    as [-> _].
  reflexivity.
Qed.

Lemma queue_send_handlers (b : bolt5) :
  handlers (queue (queue_send b)) = handlers (queue b).
Proof.
  unfold queue_send, conn_Write.
  repeat case_match; simplify_eq; rewrite ?setError_handlers; reflexivity.
Qed.

(** An answer received for a handler that carries nothing leaves the bookmark
    as it is. *)
Lemma queue_receive_head (b b' : bolt5) (e : option error) (h : responseHandler)
    (hs : list responseHandler) :
  handlers (queue b) = h :: hs -> carries_nothing h ->
  queue_receive b = (e, b') -> bookmark b' = bookmark b.
Proof.
  intros Hq Hnone.
  unfold queue_receive, conn_Read, onNextMessageError. intros Heq.
  assert (Hset : forall e0 fatal b1, bookmark b1 = bookmark b ->
                   bookmark (setError e0 fatal b1) = bookmark b).
  { intros e0 fatal b1 <-. apply (kept_setError e0 fatal b1 b1 (kept_refl b1)). }
  destruct (closed (conn b)); [simplify_eq; apply Hset; reflexivity|].
  destruct (incoming (conn b)) as [|[m|e'] rest];
    [simplify_eq; apply Hset; reflexivity| |simplify_eq; apply Hset; reflexivity].
  cbn [set_conn queue onNextMessage time_Now set_idleDate set_now] in Heq.
  rewrite Hq in Heq. simplify_eq.
  match goal with
  | |- bookmark (dispatch h m ?B) = _ => destruct (dispatch_bookmark h m B) as [-> _]
  end.
  rewrite Hnone. reflexivity.
Qed.

(** A run that starts outside the streaming states with no answer awaited
    reads only the answer to its RUN, and so leaves the bookmark as it is. *)
Lemma run_idle_bookmark (fuel : nat) cypher params rawFetchSize tx (b b' : bolt5) r :
  handlers (queue b) = [] ->
  state b <> bolt5Streaming -> state b <> bolt5StreamingTx ->
  run fuel cypher params rawFetchSize tx b = Some (r, b') ->
  bookmark b' = bookmark b.
Proof.
  intros Hq Hs Ht. unfold run.
  rewrite !decide_False by tauto. cbn [mbind option_bind].
  rewrite !decide_False by tauto.
  destruct (assertState _ b) as [e1 b1] eqn:Ha.
  assert (Hb1 : bookmark b1 = bookmark b /\ handlers (queue b1) = []).
  { unfold assertState in Ha. repeat case_match; simplify_eq; auto. }
  destruct Hb1 as [Hbm1 Hq1].
  destruct e1; [intros; simplify_eq; exact Hbm1|].
  unfold alloc_stream, queue_appendRun, queue_appendPullN.
  set (b2 := enqueue (MsgPullN _) _ _).
  assert (Hb2 : bookmark (queue_send b2) = bookmark b /\
                handlers (queue (queue_send b2)) =
                  [runResponseHandler (length (heap b1));
                   pullResponseHandler (length (heap b1))]).
  { rewrite queue_send_handlers.
    destruct (kept_queue_send b2 b2 (kept_refl b2)) as [-> _].
    subst b2. cbn. rewrite Hq1. auto. }
  destruct Hb2 as [Hbm2 Hq2].
  destruct (err (queue_send b2)); [intros; simplify_eq; exact Hbm2|].
  destruct (queue_receive (queue_send b2)) as [e3 b3] eqn:Hrecv.
  apply (queue_receive_head _ _ _ _ _ Hq2) in Hrecv; [|nothing].
  intros Heq. repeat case_match; simplify_eq; cbn [bookmark set_state]; congruence.
Qed.

Lemma Run_idle_bookmark (fuel : nat) cmd txConfig (b b' : bolt5) r :
  handlers (queue b) = [] ->
  state b <> bolt5Streaming -> state b <> bolt5StreamingTx ->
  Run fuel cmd txConfig b = Some (r, b') ->
  bookmark b' = bookmark b.
Proof.
  intros Hq Hs Ht. unfold Run.
  destruct (assertState _ b) as [e1 b1] eqn:Ha.
  assert (Hb1 : bookmark b1 = bookmark b /\ handlers (queue b1) = [] /\ state b1 = state b).
  { unfold assertState in Ha. repeat case_match; simplify_eq; auto. }
  destruct Hb1 as (Hbm1 & Hq1 & Hst1).
  destruct e1; [intros; simplify_eq; exact Hbm1|].
  destruct (checkNotificationFiltering _ _); [intros; simplify_eq; exact Hbm1|].
  destruct (run _ _ _ _ _ b1) as [[r1 b2]|] eqn:Hr; [|discriminate].
  apply run_idle_bookmark in Hr; [|exact Hq1|rewrite Hst1; exact Hs|rewrite Hst1; exact Ht].
  cbn [mbind option_bind]. intros Heq. repeat case_match; simplify_eq; congruence.
Qed.

Lemma RunTx_idle_bookmark (fuel : nat) txh cmd (b b' : bolt5) r :
  handlers (queue b) = [] ->
  state b <> bolt5Streaming -> state b <> bolt5StreamingTx ->
  RunTx fuel txh cmd b = Some (r, b') ->
  bookmark b' = bookmark b.
Proof.
  intros Hq Hs Ht. unfold RunTx, assertTxHandle.
  destruct (decide _); [|intros; simplify_eq; reflexivity].
  destruct (run _ _ _ _ _ b) as [[r1 b2]|] eqn:Hr; [|discriminate].
  apply run_idle_bookmark in Hr; [|exact Hq|exact Hs|exact Ht].
  cbn [mbind option_bind]. intros Heq. repeat case_match; simplify_eq; congruence.
Qed.

(** C5 (amended). A dispatched response changes the bookmark only when it is
    a commit success, or a pull or discard success without has_more, that
    carries a non-empty bookmark, which then becomes the bookmark. After an
    operation the bookmark is what it was, or the non-empty bookmark of a
    success that was still to be delivered when the operation began and that
    is such a success (commit; pull or discard without has_more) for a
    handler that was awaited then or that the operation itself appends: Connect,
    GetRoutingTable and ForceReset append none that carries a bookmark;
    TxBegin only the PULL handler of the auto-commit stream it buffers;
    TxCommit the commit handler and the DISCARD handler of the current
    stream; TxRollback that DISCARD handler; Run, RunTx and Buffer PULL
    handlers; Next the PULL handler of its stream; Consume that and DISCARD
    handlers. Run and RunTx called outside the streaming states with nothing
    awaited, Close and SelectDatabase leave the bookmark as it is. Reset
    clears the bookmark. *)
Theorem bookmark_writers (fuel : nat) (b : bolt5) :
  let awaited := fun h : responseHandler => h ∈ handlers (queue b) in
  (forall h m,
     bookmark (dispatch h m b) = default (bookmark b) (carried_bookmark h m)) /\
  bookmark (Reset b) = "" /\
  (forall minor_ auth userAgent routingContext notifications,
     bookmark_carried awaited b
       (snd (Connect minor_ auth userAgent routingContext notifications b))) /\
  (forall txConfig r b', TxBegin fuel txConfig b = Some (r, b') ->
     bookmark_carried
       (fun h => awaited h \/
                 (state b = bolt5Streaming /\
                  exists p, curr (streams b) = Some p /\ h = pullResponseHandler p))
       b b') /\
  (forall txh r b', TxCommit fuel txh b = Some (r, b') ->
     bookmark_carried
       (fun h => awaited h \/ h = commitResponseHandler \/
                 exists p, curr (streams b) = Some p /\ h = discardResponseHandler p)
       b b') /\
  (forall txh r b', TxRollback fuel txh b = Some (r, b') ->
     bookmark_carried
       (fun h => awaited h \/
                 exists p, curr (streams b) = Some p /\ h = discardResponseHandler p)
       b b') /\
  (forall cmd txConfig r b', Run fuel cmd txConfig b = Some (r, b') ->
     bookmark_carried (fun h => awaited h \/ exists p, h = pullResponseHandler p) b b' /\
     (handlers (queue b) = [] -> state b <> bolt5Streaming ->
      state b <> bolt5StreamingTx -> bookmark b' = bookmark b)) /\
  (forall txh cmd r b', RunTx fuel txh cmd b = Some (r, b') ->
     bookmark_carried (fun h => awaited h \/ exists p, h = pullResponseHandler p) b b' /\
     (handlers (queue b) = [] -> state b <> bolt5Streaming ->
      state b <> bolt5StreamingTx -> bookmark b' = bookmark b)) /\
  (forall sh r b', Next fuel sh b = Some (r, b') ->
     bookmark_carried
       (fun h => awaited h \/ exists p, sh = HandleStream p /\ h = pullResponseHandler p)
       b b') /\
  (forall sh r b', Consume fuel sh b = Some (r, b') ->
     bookmark_carried
       (fun h => awaited h \/
                 (exists p, sh = HandleStream p /\ h = pullResponseHandler p) \/
                 exists p, h = discardResponseHandler p)
       b b') /\
  (forall sh r b', Buffer fuel sh b = Some (r, b') ->
     bookmark_carried (fun h => awaited h \/ exists p, h = pullResponseHandler p) b b') /\
  (forall routingContext bookmarks_ database user,
     bookmark_carried awaited b
       (snd (GetRoutingTable routingContext bookmarks_ database user b))) /\
  bookmark_carried awaited b (ForceReset b) /\
  bookmark (Close b) = bookmark b /\
  (forall database, bookmark (SelectDatabase database b) = bookmark b).
Proof.
  intros awaited.
  assert (Hstart : forall K : responseHandler -> Prop,
            bookmark_ruled (fun h => K h \/ carries_nothing h)
              (fun bm => bookmark_carried (fun h => K h \/ carries_nothing h) b
                           (set_bookmark bm b)) b ->
            forall b', bookmark_ruled (fun h => K h \/ carries_nothing h)
              (fun bm => bookmark_carried (fun h => K h \/ carries_nothing h) b
                           (set_bookmark bm b)) b' ->
            bookmark_carried K b b').
  { intros K _ b' Hb'. apply carried_from_ruled in Hb'.
    revert Hb'. apply carried_narrow. tauto. }
  assert (Hbegin : forall K : responseHandler -> Prop,
            (forall h, awaited h -> K h) ->
            bookmark_ruled (fun h => K h \/ carries_nothing h)
              (fun bm => bookmark_carried (fun h => K h \/ carries_nothing h) b
                           (set_bookmark bm b)) b).
  { intros K HK. apply ruled_start. intros h Hh. left. apply HK, Hh. }
  repeat apply conj.
  - intros h m. apply dispatch_bookmark.
  - apply Reset_bookmark.
  - intros. destruct (Connect _ _ _ _ _ b) as [e b'] eqn:Heq. cbn [snd].
    pose proof (Hbegin awaited ltac:(auto)) as Hb.
    apply (Hstart awaited Hb).
    refine (ruled_Connect _ _ _ _ _ _ _ _ _ _ _ _ Heq Hb); right; nothing.
  - intros txConfig r b' Heq.
    match goal with |- bookmark_carried ?K _ _ => set (K0 := K) end.
    pose proof (Hbegin K0 ltac:(subst K0; cbn; auto)) as Hb.
    apply (Hstart K0 Hb).
    refine (ruled_TxBegin _ _ _ _ _ _ _ _ _ Heq Hb); [right; nothing|].
    intros Hs p Hp. left. subst K0. cbn. eauto 6.
  - intros txh r b' Heq.
    match goal with |- bookmark_carried ?K _ _ => set (K0 := K) end.
    pose proof (Hbegin K0 ltac:(subst K0; cbn; auto)) as Hb.
    apply (Hstart K0 Hb).
    refine (ruled_txEnd _ _ _ _ _ _ _ _ _ _ Heq Hb).
    + intros b1. unfold queue_appendCommit. apply ruled_enqueue.
      left. subst K0. cbn. auto.
    + intros p Hp. left. subst K0. cbn. eauto 6.
  - intros txh r b' Heq.
    match goal with |- bookmark_carried ?K _ _ => set (K0 := K) end.
    pose proof (Hbegin K0 ltac:(subst K0; cbn; auto)) as Hb.
    apply (Hstart K0 Hb).
    refine (ruled_txEnd _ _ _ _ _ _ _ _ _ _ Heq Hb).
    + intros b1. unfold queue_appendRollback. apply ruled_enqueue. right. nothing.
    + intros p Hp. left. subst K0. cbn. eauto 6.
  - intros cmd txConfig r b' Heq.
    split; [|intros; eapply Run_idle_bookmark; eassumption].
    match goal with |- bookmark_carried ?K _ _ => set (K0 := K) end.
    pose proof (Hbegin K0 ltac:(subst K0; cbn; auto)) as Hb.
    apply (Hstart K0 Hb).
    refine (ruled_Run _ _ _ _ _ _ _ _ _ _ Heq Hb).
    + intros p. right. nothing.
    + intros p. left. subst K0. cbn. eauto.
  - intros txh cmd r b' Heq.
    split; [|intros; eapply RunTx_idle_bookmark; eassumption].
    match goal with |- bookmark_carried ?K _ _ => set (K0 := K) end.
    pose proof (Hbegin K0 ltac:(subst K0; cbn; auto)) as Hb.
    apply (Hstart K0 Hb).
    refine (ruled_RunTx _ _ _ _ _ _ _ _ _ _ Heq Hb).
    + intros p. right. nothing.
    + intros p. left. subst K0. cbn. eauto.
  - intros sh r b' Heq.
    match goal with |- bookmark_carried ?K _ _ => set (K0 := K) end.
    pose proof (Hbegin K0 ltac:(subst K0; cbn; auto)) as Hb.
    apply (Hstart K0 Hb).
    refine (ruled_Next _ _ _ _ _ _ _ _ Heq Hb).
    intros p ->. left. subst K0. cbn. eauto.
  - intros sh r b' Heq.
    match goal with |- bookmark_carried ?K _ _ => set (K0 := K) end.
    pose proof (Hbegin K0 ltac:(subst K0; cbn; auto)) as Hb.
    apply (Hstart K0 Hb).
    refine (ruled_Consume _ _ _ _ _ _ _ _ _ Heq Hb).
    + intros p ->. left. subst K0. cbn. eauto 6.
    + intros p. left. subst K0. cbn. eauto 6.
  - intros sh r b' Heq.
    match goal with |- bookmark_carried ?K _ _ => set (K0 := K) end.
    pose proof (Hbegin K0 ltac:(subst K0; cbn; auto)) as Hb.
    apply (Hstart K0 Hb).
    refine (ruled_Buffer _ _ _ _ _ _ _ _ Heq Hb).
    intros p. left. subst K0. cbn. eauto.
  - intros. destruct (GetRoutingTable _ _ _ _ b) as [r b'] eqn:Heq. cbn [snd].
    pose proof (Hbegin awaited ltac:(auto)) as Hb.
    apply (Hstart awaited Hb).
    refine (ruled_GetRoutingTable _ _ _ _ _ _ _ _ _ _ Heq Hb). right. nothing.
  - pose proof (Hbegin awaited ltac:(auto)) as Hb.
    apply (Hstart awaited Hb).
    refine (ruled_ForceReset _ _ _ _ Hb). right. nothing.
  - apply Close_bookmark.
  - intros. reflexivity.
Qed.

End Properties.

(** ** The properties at the example connections *)

Lemma normalizeFetchSize_cases_witness :
  normalizeFetchSize (-5) = -1 /\
  normalizeFetchSize 0 = 1000 /\
  normalizeFetchSize 250 = 250.
Proof.
  split; [|split].
  - apply (normalizeFetchSize_cases (-5)). lia.
  - apply (normalizeFetchSize_cases 0). reflexivity.
  - apply (normalizeFetchSize_cases 250). lia.
Defined.

Lemma setError_first_writer_wins_witness :
  err failed_conn = Some (ErrNeo4j syntax_error) /\
  err (setError (Some ErrMoreResults) false failed_conn) = Some (ErrNeo4j syntax_error) /\
  state (setError (Some ErrMoreResults) false failed_conn) = bolt5Failed /\
  state (setError (Some ErrContextCanceled) true failed_conn) = bolt5Dead /\
  err (setError (Some ErrContextCanceled) true failed_conn) =
    Some (ErrConnectionReadCanceled ErrContextCanceled).
Proof.
  assert (Herr : err failed_conn = Some (ErrNeo4j syntax_error))
    by (vm_compute; reflexivity).
  split; [exact Herr|].
  destruct (setError_first_writer_wins failed_conn _ ErrMoreResults Herr)
    as [[Hkeep Hstate] _].
  destruct (setError_first_writer_wins failed_conn _ ErrContextCanceled Herr)
    as [_ [Hdead Hctx]].
  split; [exact Hkeep|].
  split; [rewrite Hstate; [|left]; vm_compute; reflexivity|].
  split; [exact Hdead|]. rewrite Hctx. vm_compute. reflexivity.
Defined.

(** C7, the claim as stated fails: a fatal I/O error on a connection that
    holds a recoverable error kills the connection but does not replace the
    stored error. *)
Lemma setError_fatal_keeps_stored_error :
  err failed_conn = Some (ErrNeo4j syntax_error) /\
  state (setError (Some (ErrIO "EOF")) true failed_conn) = bolt5Dead /\
  err (setError (Some (ErrIO "EOF")) true failed_conn) = Some (ErrNeo4j syntax_error) /\
  err (setError (Some (ErrIO "EOF")) true failed_conn) <> Some (ErrIO "EOF").
Proof. vm_compute. repeat split. discriminate. Qed.

Lemma pull_success_batches_witness :
  (0 < length (heap streaming_conn))%nat /\
  s_endOfBatch (deref (dispatch (pullResponseHandler 0)
                         (RspSuccess (pull_success true "")) streaming_conn) 0) = true /\
  bookmark (dispatch (pullResponseHandler 0)
              (RspSuccess (pull_success false "bm:1")) streaming_conn) = "bm:1" /\
  state (dispatch (pullResponseHandler 0)
           (RspSuccess (pull_success false "bm:1")) streaming_conn) = bolt5Ready.
Proof.
  assert (Hlen : (0 < length (heap streaming_conn))%nat) by (vm_compute; lia).
  split; [exact Hlen|].
  pose proof (pull_success_batches streaming_conn 0 (pull_success true "") Hlen) as Hmore.
  pose proof (pull_success_batches streaming_conn 0 (pull_success false "bm:1") Hlen) as Hlast.
  cbv zeta in Hmore, Hlast. cbn [m_hasMore pull_success] in Hmore, Hlast.
  destruct Hmore as (Hbatch & _).
  destruct Hlast as (_ & Hbm & _ & _ & _ & Hstate).
  split; [exact Hbatch|].
  split; [rewrite Hbm|rewrite Hstate]; vm_compute; reflexivity.
Defined.

Lemma qid_only_within_transaction_witness :
  (exists m,
     pending (queue (appendDiscard 0 in_tx_conn)) =
       (pending (queue in_tx_conn) ++ [m])%list /\
     explicit_qid m = None) /\
  exists r b' sent,
    run (H := no_filtering) 5 "RETURN 2" ∅ 0 None in_tx_conn = Some (r, b') /\
    written (conn b') = (written (conn in_tx_conn) ++ sent)%list /\
    Forall (fun m => explicit_qid m = None) sent.
Proof.
  destruct (qid_only_within_transaction (H := no_filtering) in_tx_conn 0)
    as (_ & _ & _ & (m & Hm & _ & Hnone & _) & _ & Hrun & _).
  split.
  - exists m. split; [exact Hm|].
    apply Hnone. vm_compute. intros [_ Hne]. apply Hne. reflexivity.
  - assert (E : exists r b',
                run (H := no_filtering) 5 "RETURN 2" ∅ 0 None in_tx_conn = Some (r, b'))
      by (vm_compute; do 2 eexists; reflexivity).
    destruct E as (r & b' & E).
    destruct (Hrun 5%nat "RETURN 2" ∅ 0 None r b' E) as (sent & Hw & Hall).
    exists r, b', sent. split; [exact E|]. split; [exact Hw|].
    eapply Forall_impl; [exact Hall|]. intros x [Hin|Hx]; [|exact Hx].
    assert (Hp : pending (queue in_tx_conn) = []) by (vm_compute; reflexivity).
    rewrite Hp in Hin. apply elem_of_nil in Hin. destruct Hin.
Defined.

(** C4, the claim as stated fails: while streaming an auto-commit result
    after a committed transaction, the stream's qid (-1) differs from lastQid
    (0, left by the transaction), yet the next PULL is appended, and sent by
    Next, unqualified. *)
Lemma pull_unqualified_outside_transaction :
  state second_batch_conn = bolt5Streaming /\
  s_qid (deref second_batch_conn 1) = -1 /\
  lastQid second_batch_conn = 0 /\
  s_qid (deref second_batch_conn 1) <> lastQid second_batch_conn /\
  pending (queue (appendPullN 1 second_batch_conn)) = [MsgPullN 1000] /\
  explicit_qid (MsgPullN 1000) = None /\
  last (written (conn (after auto_after_tx_conn
                         (Next 3 (HandleStream 1) auto_after_tx_conn)))) =
    Some (MsgPullN 1000).
Proof. vm_compute. repeat split. discriminate. Qed.

Lemma Reset_when_ready_witness :
  state committed_conn = bolt5Ready /\
  conn (Reset committed_conn) = conn committed_conn /\
  state (Reset committed_conn) = bolt5Ready /\
  bookmark (Reset committed_conn) = "" /\
  txId (Reset (Reset committed_conn)) = txId (Reset committed_conn).
Proof.
  assert (Hready : state committed_conn = bolt5Ready) by (vm_compute; reflexivity).
  split; [exact Hready|].
  destruct (Reset_when_ready committed_conn Hready)
    as ((Hconn & _) & (Hstate & _ & Hbm & _) & (_ & _ & _ & _ & Htx & _)).
  auto.
Defined.

(** C6, the claim as stated fails: Reset on a Ready connection that has
    committed a transaction clears its transaction handle, its bookmark and
    its last qid. *)
Lemma Reset_when_ready_clears_fields :
  state committed_conn = bolt5Ready /\
  txId committed_conn = 1700000000 /\ txId (Reset committed_conn) = 0 /\
  lastQid committed_conn = 0 /\ lastQid (Reset committed_conn) = -1 /\
  bookmark committed_conn = "bm:42" /\ bookmark (Reset committed_conn) = "" /\
  key (streams (Reset committed_conn)) <> key (streams committed_conn).
Proof. vm_compute. repeat split. discriminate. Qed.

(** C5, the claim as stated fails: Reset, which is neither a commit success
    nor a terminal pull or discard success, changes the bookmark. *)
Lemma Reset_changes_bookmark :
  bookmark committed_conn = "bm:42" /\
  bookmark (Reset committed_conn) = "" /\
  bookmark (Reset committed_conn) <> bookmark committed_conn.
Proof. vm_compute. repeat split. discriminate. Qed.

Lemma TxBegin_resets_before_assert_witness :
  state in_tx_conn = bolt5StreamingTx /\
  streams_isSafe 0 in_tx_conn = None /\
  exists b',
    TxBegin (H := no_filtering) 1 default_config in_tx_conn =
      Some ((0, Some (ErrInvalidState bolt5StreamingTx [bolt5Ready])), b') /\
    state b' = bolt5StreamingTx /\
    streams_isSafe 0 b' = Some ErrInvalidStream.
Proof.
  assert (Hst : state in_tx_conn = bolt5StreamingTx) by (vm_compute; reflexivity).
  assert (Hsafe : streams_isSafe 0 in_tx_conn = None) by (vm_compute; reflexivity).
  split; [exact Hst|]. split; [exact Hsafe|].
  destruct (TxBegin_resets_before_assert (H := no_filtering) 1 default_config in_tx_conn)
    as (b' & Hret & Hstate & _ & _ & _ & Hunsafe).
  - vm_compute. reflexivity.
  - rewrite Hst. discriminate.
  - rewrite Hst. discriminate.
  - vm_compute. reflexivity.
  - exists b'. rewrite Hst in Hret, Hstate. auto.
Defined.

Lemma sticky_error_short_circuits_witness :
  err failed_conn = Some (ErrNeo4j syntax_error) /\
  Run (H := no_filtering) 1 return_one default_config failed_conn =
    Some ((None, Some (ErrNeo4j syntax_error)), failed_conn) /\
  TxCommit 1 (txId failed_conn) failed_conn =
    Some (Some (ErrNeo4j syntax_error), failed_conn).
Proof.
  assert (Herr : err failed_conn = Some (ErrNeo4j syntax_error))
    by (vm_compute; reflexivity).
  assert (Hst : state failed_conn = bolt5Failed) by (vm_compute; reflexivity).
  destruct (sticky_error_short_circuits (H := no_filtering) 1 failed_conn _ Herr)
    as (_ & Hrun & _ & _ & Htx & _).
  split; [exact Herr|]. split; [apply Hrun|].
  apply Htx; rewrite Hst; discriminate.
Defined.

(** C1, the claim as stated fails: TxCommit checks the transaction handle
    before anything else, so on a failed connection a call with the wrong
    handle returns the invalid-transaction error, not the stored error; and
    Consume on a stream that is already complete returns the stream's summary
    and no error at all. *)
Lemma TxCommit_handle_checked_before_stored_error :
  err failed_conn = Some (ErrNeo4j syntax_error) /\
  txId failed_conn = 0 /\
  fst <$> TxCommit 1 5 failed_conn = Some (Some ErrInvalidTransaction) /\
  Some ErrInvalidTransaction <> err failed_conn /\
  err failed_after_stream_conn = Some (ErrNeo4j syntax_error) /\
  snd <$> (fst <$> Consume 1 (HandleStream 0) failed_after_stream_conn) = Some None.
Proof. vm_compute. repeat split. discriminate. Qed.

Lemma state_misuse_is_not_stored_witness :
  err in_tx_conn = None /\
  state in_tx_conn = bolt5StreamingTx /\
  exists b',
    untouched in_tx_conn b' /\
    GetRoutingTable None [] "" "" in_tx_conn =
      ((None, Some (ErrInvalidState bolt5StreamingTx [bolt5Ready])), b').
Proof.
  assert (Herr : err in_tx_conn = None) by (vm_compute; reflexivity).
  assert (Hst : state in_tx_conn = bolt5StreamingTx) by (vm_compute; reflexivity).
  split; [exact Herr|]. split; [exact Hst|].
  destruct (state_misuse_is_not_stored (H := no_filtering) 1 in_tx_conn)
    as (_ & _ & _ & Hops).
  destruct (Hops Herr) as (_ & _ & Hroute & _).
  destruct Hroute as (b' & Hsame & Hret); [rewrite Hst; discriminate|].
  exists b'. split; [exact Hsame|]. rewrite <- Hst. apply Hret.
Defined.

(** C8, the claim as stated fails: TxCommit called with the current handle
    while an auto-commit result is streaming fails its state assertion, and
    nothing is stored in err, but the stream has been discarded first and the
    state has moved from Streaming to Ready. *)
Lemma TxCommit_discards_before_assert :
  err streaming_conn = None /\
  state streaming_conn = bolt5Streaming /\
  txId streaming_conn = 0 /\
  fst <$> TxCommit 5 0 streaming_conn = Some (Some (ErrInvalidState bolt5Ready [bolt5Tx])) /\
  err (after streaming_conn (TxCommit 5 0 streaming_conn)) = None /\
  state (after streaming_conn (TxCommit 5 0 streaming_conn)) = bolt5Ready.
Proof. vm_compute. repeat split. Qed.



Lemma bookmark_writers_witness :
  bookmark (Reset committed_conn) = "" /\
  bookmark (Close in_tx_conn) = bookmark in_tx_conn /\
  bookmark (dispatch commitResponseHandler
              (RspSuccess (pull_success false "bm:7")) in_tx_conn) = "bm:7" /\
  bookmark (snd (Connect (H := no_filtering) 4 ∅ "agent/1.0" None tt fresh_conn)) =
    bookmark fresh_conn /\
  forall r b', Run (H := no_filtering) 5 return_one default_config ready_conn = Some (r, b') ->
               bookmark b' = bookmark ready_conn.
Proof.
  destruct (bookmark_writers (H := no_filtering) 1 committed_conn) as (_ & Hreset & _).
  pose proof (bookmark_writers (H := no_filtering) 1 in_tx_conn) as W. cbv zeta in W.
  destruct W as (Hdispatch & _ & _ & _ & _ & _ & _ & _ & _ & _ & _ & _ & _ & Hclose & _).
  pose proof (bookmark_writers (H := no_filtering) 1 fresh_conn) as W. cbv zeta in W.
  destruct W as (_ & _ & Hconnect & _).
  pose proof (bookmark_writers (H := no_filtering) 5 ready_conn) as W. cbv zeta in W.
  destruct W as (_ & _ & _ & _ & _ & _ & Hrun & _).
  split; [exact Hreset|]. split; [exact Hclose|].
  split; [rewrite Hdispatch; reflexivity|]. split.
  - destruct (Hconnect 4 ∅ "agent/1.0" None tt) as [Hsame|(h & s & Hk & _)]; [exact Hsame|].
    assert (Hq : handlers (queue fresh_conn) = []) by reflexivity.
    rewrite Hq in Hk. apply elem_of_nil in Hk. destruct Hk.
  - intros r b' Heq. destruct (Hrun return_one default_config r b' Heq) as [_ Hidle].
    apply Hidle; vm_compute; [reflexivity|discriminate|discriminate].
Defined.

(** *** Further properties at the example connections *)

Lemma toMeta_keys_witness :
  exists meta : gmap string Value,
    toMeta (H := no_filtering) (Some read_tx) = Some meta /\
    meta !! "mode" = Some (VStr "r") /\
    meta !! "tx_timeout" = Some (VInt 2500) /\
    meta !! "db" = Some (VStr "movies") /\
    meta !! "imp_user" = None /\
    meta !! "user_agent" = None.
Proof.
  destruct (toMeta_keys (H := no_filtering) read_tx)
    as (_ & meta & Heq & Hmode & _ & Ht & _ & Hdb & Himp & Hother).
  exists meta. split; [exact Heq|].
  rewrite Hmode, Ht, Hdb, Himp, (Hother "user_agent").
  - repeat split; vm_compute; reflexivity.
  - rewrite !not_elem_of_cons. repeat split; try discriminate. apply not_elem_of_nil.
Defined.

Lemma hello_success_recorded_witness :
  connReadTimeout
    (queue (dispatch helloResponseHandler (RspSuccess hinted_success) fresh_conn)) =
    30000000000 /\
  logId (dispatch helloResponseHandler (RspSuccess hinted_success) fresh_conn) =
    "bolt-7@db.example".
Proof.
  pose proof (hello_success_recorded hinted_success fresh_conn) as W. cbv zeta in W.
  destruct W as (_ & _ & Hlog & _ & _ & _ & Ht & _).
  split; [|rewrite Hlog; reflexivity].
  rewrite (Ht 30); [reflexivity|vm_compute; reflexivity|lia|lia].
Defined.

Lemma Close_is_final_witness :
  state (Close ready_conn) = bolt5Dead /\
  written (conn (Close ready_conn)) = (written (conn ready_conn) ++ [MsgGoodbye])%list.
Proof.
  pose proof (Close_is_final ready_conn) as W. cbv zeta in W.
  destruct W as (Hs & _ & _ & _ & Hlive & _).
  split; [exact Hs|].
  destruct Hlive as [Hw _].
  - vm_compute. discriminate.
  - split; vm_compute; reflexivity.
  - rewrite Hw. vm_compute. reflexivity.
Defined.

Lemma dead_connection_refuses_witness :
  state closed_conn = bolt5Dead /\
  ForceReset closed_conn = closed_conn /\
  state (Reset closed_conn) = bolt5Dead /\
  exists e b', TxCommit 1 0 closed_conn = Some (Some e, b') /\ untouched closed_conn b'.
Proof.
  assert (Hdead : state closed_conn = bolt5Dead) by (vm_compute; reflexivity).
  destruct (dead_connection_refuses (H := no_filtering) 1 closed_conn Hdead)
    as (_ & _ & Hcommit & _ & _ & _ & _ & Hforce & Hreset & _).
  split; [exact Hdead|]. split; [exact Hforce|]. split; [exact Hreset|].
  apply Hcommit.
Defined.

Lemma stream_handle_checks_witness :
  Next 1 HandleNil ready_conn = Some ((None, None, Some ErrInvalidStream), ready_conn) /\
  Buffer 1 HandleForeign ready_conn = Some (Some ErrInvalidStream, ready_conn).
Proof.
  destruct (stream_handle_checks 1 ready_conn) as (Hh & _).
  destruct (Hh HandleNil (or_introl eq_refl)) as (_ & Hnext & _).
  destruct (Hh HandleForeign (or_intror eq_refl)) as (_ & _ & _ & Hbuffer).
  split; [exact Hnext|exact Hbuffer].
Defined.

Lemma discardAllStreams_settles_witness :
  exists b',
    discardAllStreams 5 streaming_conn = Some b' /\
    state b' <> bolt5Streaming /\ curr (streams b') = None.
Proof.
  assert (E : exists b', discardAllStreams 5 streaming_conn = Some b')
    by (vm_compute; eexists; reflexivity).
  destruct E as [b' E]. exists b'. split; [exact E|].
  destruct (discardAllStreams_settles 5 streaming_conn b' E) as (Hs & _ & Hreg).
  split; [exact Hs|]. apply Hreg. left. vm_compute. reflexivity.
Defined.

Lemma transaction_end_succeeds_witness :
  exists b',
    TxCommit 5 (txId committing_conn) committing_conn = Some (None, b') /\
    state b' = bolt5Ready /\ last (written (conn b')) = Some MsgCommit.
Proof.
  assert (E : exists b', TxCommit 5 (txId committing_conn) committing_conn = Some (None, b'))
    by (vm_compute; eexists; reflexivity).
  destruct E as [b' E]. exists b'. split; [exact E|].
  destruct (transaction_end_succeeds 5 (txId committing_conn) committing_conn b')
    as [Hcommit _].
  destruct (Hcommit E) as (_ & Hs & _ & _ & Hl). split; [exact Hs|exact Hl].
Defined.

Lemma stored_error_means_down_witness :
  err failed_conn <> None /\
  (state failed_conn = bolt5Failed \/ state failed_conn = bolt5Dead).
Proof.
  assert (Herr : err failed_conn <> None) by (vm_compute; discriminate).
  split; [exact Herr|].
  destruct (stored_error_means_down (H := no_filtering) "db.example"
              (peer [Received (RspSuccess plain_success);
                     Received (RspSuccess plain_success);
                     Received (RspFailure syntax_error); Received RspIgnored])
              1700000000000000000) as [[HJ HR] Hstep].
  refine (proj1 (Hstep _ failed_conn HJ HR _) Herr).
  unfold failed_conn, connected, after. cbv zeta.
  destruct (Connect _ _ _ _ _ _) as [e b1] eqn:E1. cbn [snd].
  eapply rtc_l; [eapply call_Connect; exact E1|].
  destruct (Run _ _ _ _) as [[r b']|] eqn:E.
  - eapply rtc_l; [eapply call_Run; exact E|apply rtc_refl].
  - apply rtc_refl.
Defined.

Lemma ForceReset_answered_witness :
  state recoverable_conn = bolt5Failed /\
  state (ForceReset recoverable_conn) = bolt5Ready /\
  err (ForceReset recoverable_conn) = None /\
  state (Reset recoverable_conn) = bolt5Ready.
Proof.
  assert (Hst : state recoverable_conn = bolt5Failed) by (vm_compute; reflexivity).
  destruct (ForceReset_answered recoverable_conn (RspSuccess plain_success) [])
    as (_ & _ & Herr & _ & Hs & HR).
  - rewrite Hst. discriminate.
  - split; vm_compute; reflexivity.
  - split; vm_compute; reflexivity.
  - vm_compute. reflexivity.
  - split; [exact Hst|]. split; [exact Hs|]. split; [exact Herr|].
    rewrite HR; [exact Hs|rewrite Hst; discriminate].
Defined.

Lemma Connect_handshake_witness :
  exists b' hello,
    Connect (H := no_filtering) 4 ∅ "agent/1.0" None tt fresh_conn = (None, b') /\
    state b' = bolt5Ready /\
    written (conn b') = [MsgHello hello; MsgLogon ∅] /\
    hello !! "user_agent" = Some (VStr "agent/1.0").
Proof.
  assert (E : exists b', Connect (H := no_filtering) 4 ∅ "agent/1.0" None tt fresh_conn
                         = (None, b'))
    by (vm_compute; eexists; reflexivity).
  destruct E as [b' E].
  destruct (Connect_handshake (H := no_filtering) 4 ∅ "agent/1.0" None tt fresh_conn b'
              eq_refl E)
    as (_ & Hs & _ & _ & _ & _ & hello & Hw & Hua & _).
  exists b', hello. split; [exact E|]. split; [exact Hs|]. split; [exact Hw|exact Hua].
Defined.

Lemma Run_answered_witness :
  exists b',
    Run (H := no_filtering) 5 return_one default_config ready_conn =
      Some ((Some 0%nat, None), b') /\
    state b' = bolt5Streaming /\
    curr (streams b') = Some 0%nat /\
    s_keys (deref b' 0) = ["n"] /\
    handlers (queue b') = [pullResponseHandler 0].
Proof.
  destruct (Run_answered (H := no_filtering) 5 return_one default_config ready_conn
              (RspSuccess (run_success (-1)))
              [Received (RspRecord one_record);
               Received (RspSuccess (pull_success false "bm:1"))])
    as (r & b' & Hrun & _ & _ & Hh & Hr & _ & Hs & Hc & Hk & _).
  - vm_compute. reflexivity.
  - vm_compute. reflexivity.
  - split; vm_compute; reflexivity.
  - split; vm_compute; reflexivity.
  - vm_compute. reflexivity.
  - reflexivity.
  - vm_compute. reflexivity.
  - exists b'. rewrite Hr in Hrun.
    split; [exact Hrun|]. split; [exact Hs|]. split; [exact Hc|].
    split; [exact Hk|exact Hh].
Defined.

Lemma Next_without_reading_witness :
  exists sm,
    Next 1 (HandleStream 0) failed_after_stream_conn =
      Some ((None, Some sm, None), failed_after_stream_conn).
Proof.
  assert (E : exists sm, s_sum (deref failed_after_stream_conn 0) = Some sm)
    by (vm_compute; eexists; reflexivity).
  destruct E as [sm E]. exists sm.
  destruct (Next_without_reading 0 0 failed_after_stream_conn) as (_ & _ & Hsum & _).
  apply Hsum; [vm_compute; reflexivity|vm_compute; reflexivity|exact E].
Defined.

Lemma Next_receives_record_witness :
  exists b',
    Next 2 (HandleStream 0) streaming_conn =
      Some ((Some {| rec_Values := [VInt 1]; rec_Keys := ["n"] |}, None, None), b') /\
    handlers (queue b') = [pullResponseHandler 0] /\
    incoming (conn b') = [Received (RspSuccess (pull_success false "bm:1"))].
Proof.
  destruct (Next_receives_record 0 0 streaming_conn one_record
              [Received (RspSuccess (pull_success false "bm:1"))] [])
    as (b' & Hnext & Hh & Hi & _).
  - vm_compute. lia.
  - vm_compute. reflexivity.
  - vm_compute. reflexivity.
  - vm_compute. reflexivity.
  - vm_compute. reflexivity.
  - vm_compute. reflexivity.
  - vm_compute. reflexivity.
  - vm_compute. reflexivity.
  - vm_compute. reflexivity.
  - vm_compute. reflexivity.
  - exists b'. split; [|split; [exact Hh|exact Hi]].
    rewrite Hnext. vm_compute. reflexivity.
Defined.

Lemma TxBegin_succeeds_witness :
  exists h b',
    TxBegin (H := no_filtering) 5 default_config answered_conn = Some ((h, None), b') /\
    state b' = bolt5Tx /\ txId b' = h /\ handlers (queue b') = [].
Proof.
  assert (E : exists h b', TxBegin (H := no_filtering) 5 default_config answered_conn
                           = Some ((h, None), b'))
    by (vm_compute; do 2 eexists; reflexivity).
  destruct E as (h & b' & E). exists h, b'. split; [exact E|].
  destruct (TxBegin_succeeds (H := no_filtering) 5 default_config answered_conn b' h E)
    as (_ & Hs & Ht & _ & Hh & _).
  split; [exact Hs|]. split; [exact Ht|exact Hh].
Defined.

Lemma GetRoutingTable_answered_witness :
  exists b' extras,
    GetRoutingTable None ["bm:1"] "movies" "" answered_conn = ((None, None), b') /\
    written (conn b') =
      (written (conn answered_conn) ++ [MsgRoute None ["bm:1"] extras])%list /\
    extras !! "db" = Some (VStr "movies") /\ extras !! "imp_user" = None /\
    state b' = bolt5Ready.
Proof.
  destruct (GetRoutingTable_answered None ["bm:1"] "movies" "" answered_conn
              (RspSuccess plain_success) [])
    as (r & b' & extras & Hget & Hw & Hdb & Himp & _ & _ & _ & Hr & _ & Hs).
  - vm_compute. reflexivity.
  - vm_compute. reflexivity.
  - split; vm_compute; reflexivity.
  - split; vm_compute; reflexivity.
  - vm_compute. reflexivity.
  - vm_compute. reflexivity.
  - exists b', extras. rewrite Hr in Hget.
    split; [exact Hget|]. split; [exact Hw|]. split; [exact Hdb|].
    split; [exact Himp|exact Hs].
Defined.

Lemma stream_ends_abnormally_witness :
  err (dispatch (pullResponseHandler 0) (RspFailure syntax_error) streaming_conn) =
    Some (ErrNeo4j syntax_error) /\
  state (dispatch (pullResponseHandler 0) (RspFailure syntax_error) streaming_conn) =
    bolt5Failed /\
  s_err (deref (dispatch (pullResponseHandler 0) RspIgnored streaming_conn) 0) =
    Some (ErrStreamInterrupted "pulling") /\
  err (dispatch (pullResponseHandler 0) RspIgnored streaming_conn) = None.
Proof.
  pose proof (stream_ends_abnormally 0 streaming_conn syntax_error
                (pullResponseHandler 0) "pulling") as W.
  cbv zeta in W.
  destruct W as ((_ & _ & He & Hs & _) & (Hse & Hie & _)).
  - left. split; reflexivity.
  - vm_compute. lia.
  - vm_compute. reflexivity.
  - vm_compute. reflexivity.
  - split; [exact He|]. split; [exact Hs|]. split; [exact Hse|exact Hie].
Defined.

Lemma streaming_only_streaming_conn : streaming_only 0 streaming_conn.
Proof.
  unfold streaming_only.
  repeat split; try (vm_compute; reflexivity); try (vm_compute; lia).
  left. vm_compute. reflexivity.
Qed.

Lemma Buffer_collects_witness :
  exists b',
    Buffer 1 (HandleStream 0) streaming_conn = Some (None, b') /\
    s_fifo (deref b' 0) = [{| rec_Values := [VInt 1]; rec_Keys := ["n"] |}] /\
    state b' = bolt5Ready /\ bookmark b' = "bm:1".
Proof.
  destruct (Buffer_collects 0 0 streaming_conn [one_record] (pull_success false "bm:1") [])
    as (b' & Hbuf & Hf & _ & Hs & Hbm & _).
  - exact streaming_only_streaming_conn.
  - vm_compute. reflexivity.
  - vm_compute. reflexivity.
  - reflexivity.
  - vm_compute. reflexivity.
  - exists b'. split; [exact Hbuf|].
    split; [rewrite Hf; vm_compute; reflexivity|].
    split; [rewrite Hs; vm_compute; reflexivity|].
    rewrite Hbm. vm_compute. reflexivity.
Defined.

Lemma Consume_discards_witness :
  exists sm b',
    Consume 1 (HandleStream 0) streaming_conn = Some ((Some sm, None), b') /\
    sum_Bookmark sm = "bm:1" /\
    s_fifo (deref b' 0) = [] /\
    state b' = bolt5Ready /\ bookmark b' = "bm:1".
Proof.
  destruct (Consume_discards 0 0 streaming_conn [one_record] (pull_success false "bm:1") [])
    as (b' & Hc & Hf & Hs & Hbm & _).
  - exact streaming_only_streaming_conn.
  - vm_compute. reflexivity.
  - reflexivity.
  - vm_compute. reflexivity.
  - exists (summary_of (pull_success false "bm:1") 0 streaming_conn), b'.
    split; [exact Hc|]. split; [reflexivity|]. split; [exact Hf|].
    split; [rewrite Hs; vm_compute; reflexivity|].
    rewrite Hbm. vm_compute. reflexivity.
Defined.
